(** * E-commerce backend: a shallow embedding of the route handlers

    The development follows the Express route handlers of the backend
    ([routes/orders.js], [routes/users.js], [routes/products.js],
    [routes/cart.js]).  The relational store behind the ORM client is a
    record of tables; every handler is a function from the authenticated
    user, the request and the store to a response and a new store.

    The schema, the ORM and the authentication middleware are not part of
    the routes.  Of the ORM the model keeps what its documentation states:
    [update] and [delete] throw when no row matches, [create] throws when a
    reference has no target or a unique pair exists already, a value of the
    wrong type for its column is refused, and a transaction restores the
    store when its callback throws.  Of the schema it keeps the columns the
    handlers read and write: an [Int] column holds 32 bits, a [Decimal]
    column a finite number.  [req.user] is an input of every handler.

    Layout:
    - JavaScript values carried by request bodies, and the string functions
      the validators and [parseInt] apply to them;
    - the numeric interface ([JsNumber]) and the key generator ([IdGen]);
    - the tables, the ORM calls the handlers make, and the handlers;
    - the properties of the handlers. *)

From Stdlib Require Import ZArith List String Ascii Bool Lia DecimalString.
Import ListNotations.

Open Scope string_scope.
Open Scope Z_scope.

Set Implicit Arguments.

(** ** Strings *)

Module Str.

(** Value of a decimal digit character. *)
Definition digit_of (c : ascii) : option Z :=
  let n := Z.of_N (N_of_ascii c) in
  if (48 <=? n) && (n <=? 57) then Some (n - 48) else None.

(** Value of a string made of decimal digits only. *)
Fixpoint digits_value (acc : Z) (s : string) : option Z :=
  match s with
  | EmptyString => Some acc
  | String c r =>
      match digit_of c with
      | Some d => digits_value (10 * acc + d) r
      | None => None
      end
  end.

(** The unsigned part of an integer literal as validator.js reads it with
    its default options, which allow leading zeroes: one decimal digit or
    more. *)
Definition unsigned_literal (s : string) : option Z :=
  match s with
  | EmptyString => None
  | String _ _ => digits_value 0 s
  end.

(** An optional sign followed by an unsigned literal, nothing else; the
    result is the value of the literal. *)
Definition int_literal (s : string) : option Z :=
  match s with
  | String c r =>
      if Ascii.eqb c "-" then option_map Z.opp (unsigned_literal r)
      else if Ascii.eqb c "+" then unsigned_literal r
      else unsigned_literal s
  | EmptyString => None
  end.

(** White space skipped by [parseInt] and [parseFloat] (the ASCII part). *)
Definition is_space (c : ascii) : bool :=
  let n := N_of_ascii c in
  (N.eqb n 32 || N.eqb n 9 || N.eqb n 10 || N.eqb n 11 || N.eqb n 12
   || N.eqb n 13)%bool.

Fixpoint trim_start (s : string) : string :=
  match s with
  | String c r => if is_space c then trim_start r else s
  | EmptyString => EmptyString
  end.

(** Value of a digit in the given radix (10 or 16). *)
Definition radix_digit (radix : Z) (c : ascii) : option Z :=
  let n := Z.of_N (N_of_ascii c) in
  let d :=
    if (48 <=? n) && (n <=? 57) then Some (n - 48)
    else if (97 <=? n) && (n <=? 102) then Some (n - 87)
    else if (65 <=? n) && (n <=? 70) then Some (n - 55)
    else None in
  match d with
  | Some v => if v <? radix then Some v else None
  | None => None
  end.

(** The longest prefix of digits, accumulated; [None] when there is no
    digit at all ([NaN]). *)
Fixpoint prefix_value (radix : Z) (acc : option Z) (s : string) : option Z :=
  match s with
  | EmptyString => acc
  | String c r =>
      match radix_digit radix c with
      | Some d =>
          prefix_value radix
            (Some (radix * match acc with Some a => a | None => 0 end + d)) r
      | None => acc
      end
  end.

(** An optional sign at the head of a text. *)
Definition split_sign (t : string) : bool * string :=
  match t with
  | String c r =>
      if Ascii.eqb c "-" then (true, r)
      else if Ascii.eqb c "+" then (false, r)
      else (false, t)
  | EmptyString => (false, t)
  end.

(** The digits [parseInt] reads when no radix is given: hexadecimal after a
    [0x] prefix, decimal otherwise. *)
Definition parse_digits (u : string) : option Z :=
  match u with
  | String z (String x r) =>
      if Ascii.eqb z "0" && (Ascii.eqb x "x" || Ascii.eqb x "X")
      then prefix_value 16 None r
      else prefix_value 10 None u
  | _ => prefix_value 10 None u
  end.

(** [parseInt(s)] with no radix argument: leading white space, an optional
    sign, an optional [0x] prefix, then the longest run of digits.  [None]
    stands for [NaN]. *)
Definition parseInt (s : string) : option Z :=
  let '(neg, u) := split_sign (trim_start s) in
  option_map (fun n => if neg then - n else n) (parse_digits u).

(** ASCII upper-casing ([String.prototype.toUpperCase] on ASCII text). *)
Definition upper_ascii (c : ascii) : ascii :=
  let n := N_of_ascii c in
  if (N.leb 97 n && N.leb n 122)%bool then ascii_of_N (n - 32) else c.

Fixpoint toUpperCase (s : string) : string :=
  match s with
  | EmptyString => EmptyString
  | String c r => String (upper_ascii c) (toUpperCase r)
  end.

Definition is_empty (s : string) : bool :=
  match s with EmptyString => true | _ => false end.

(** Decimal text of an integer, as [String(n)] gives it. *)
Definition of_Z (z : Z) : string := NilZero.string_of_int (Z.to_int z).

Fixpoint skip_digits (s : string) : string :=
  match s with
  | String c r => match digit_of c with Some _ => skip_digits r | None => s end
  | EmptyString => EmptyString
  end.

(** validator.js [isDecimal] with its default options: an optional sign,
    optional integer digits, optionally a point followed by at least one
    digit, and none of the empty string or a lone sign. *)
Definition is_decimal (s : string) : bool :=
  let body :=
    match s with
    | String c r => if Ascii.eqb c "-" || Ascii.eqb c "+" then r else s
    | EmptyString => s
    end in
  match skip_digits body with
  | EmptyString => negb (is_empty body)
  | String c r =>
      Ascii.eqb c "." && negb (is_empty r) && is_empty (skip_digits r)
  end.

End Str.

(** ** Numbers and keys

    A JavaScript number is an IEEE double and a numeric column holds
    whatever the schema declares; the handlers only add and multiply numbers,
    parse them from text and hand them to the ORM.  The interface below names
    exactly these operations, so that every statement proved over it holds
    for whichever arithmetic interprets them.  Integers (stock, quantities)
    are exact and live in [Z]. *)

Class JsNumber : Type := {
  num : Type;                          (* JavaScript numbers *)
  dec : Type;                          (* values of a price or total column *)
  num_nan : num;
  num_zero : num;
  num_add : num -> num -> num;
  num_mul : num -> num -> num;
  num_ofZ : Z -> num;                  (* an integer as a number *)
  num_truthy : num -> bool;            (* neither zero nor NaN *)
  num_isFinite : num -> bool;          (* neither NaN nor an infinity *)
  num_toString : num -> string;
  parseFloat_str : string -> num;      (* parseFloat on text *)
  dec_toString : dec -> string;        (* the text parseFloat sees for a column value *)
  dec_ofNum : num -> dec               (* a number written to a numeric column *)
}.

Definition Id := string.

(** Primary keys are drawn by the ORM ([cuid]/[uuid] defaults): all the
    handlers rely on is that a new key differs from the keys in use. *)
Class IdGen : Type := {
  genId : list Id -> Id;
  genId_fresh : forall used, ~ In (genId used) used
}.

(** ** JavaScript values of a request body *)

Section JsValues.
Context {N : JsNumber}.

(** A number of a JSON body is read as [JInt] when it is integer-valued and
    as [JNum] otherwise. *)
Inductive JsValue : Type :=
| JUndefined
| JNull
| JBool (b : bool)
| JInt (z : Z)
| JNum (n : num)
| JStr (s : string).

(** [v && ...], [!v] *)
Definition truthy (v : JsValue) : bool :=
  match v with
  | JUndefined | JNull => false
  | JBool b => b
  | JInt z => negb (z =? 0)
  | JNum n => num_truthy n
  | JStr s => negb (Str.is_empty s)
  end.

(** [v !== undefined] *)
Definition defined (v : JsValue) : bool :=
  match v with JUndefined => false | _ => true end.

(** [parseFloat(v)]: the argument is converted to text first; a number
    parses back to itself, [true], [null] and [undefined] have no numeric
    prefix. *)
Definition parseFloat (v : JsValue) : num :=
  match v with
  | JInt z => num_ofZ z
  | JNum n => n
  | JStr s => parseFloat_str s
  | JUndefined | JNull | JBool _ => num_nan
  end.

(** The text of an integer-valued number is its integer literal below
    [1e21] in magnitude; from there on it is written with an exponent. *)
Definition prints_plain (z : Z) : bool := Z.abs z <? 10 ^ 21.

(** [parseInt(v)], [None] for [NaN]: the argument is converted to text
    first, so of a number written with an exponent the digits before the
    point are read. *)
Definition parseInt (v : JsValue) : option Z :=
  match v with
  | JInt z =>
      if prints_plain z then Some z
      else Str.parseInt (num_toString (num_ofZ z))
  | JNum n => Str.parseInt (num_toString n)
  | JStr s => Str.parseInt s
  | JUndefined | JNull | JBool _ => None
  end.

(** The integer a validated value denotes: express-validator matches the
    text of the value against the integer pattern; an integer-valued number
    below [1e21] prints as its own literal, any other number prints with a
    fraction or an exponent. *)
Definition int_of (v : JsValue) : option Z :=
  match v with
  | JInt z => if prints_plain z then Some z else None
  | JStr s => Str.int_literal s
  | _ => None
  end.

(** [body(f).isInt({ min })] *)
Definition isInt_min (min : Z) (v : JsValue) : bool :=
  match int_of v with
  | Some z => min <=? z
  | None => false
  end.

(** [body(f).notEmpty()]: [null] and [undefined] are turned into the empty
    text, every other value into its text. *)
Definition notEmpty (v : JsValue) : bool :=
  match v with
  | JUndefined | JNull => false
  | JStr s => negb (Str.is_empty s)
  | JBool _ | JInt _ | JNum _ => true
  end.

(** [body(f).isDecimal({ gt: 0 })]: [isDecimal] has no [gt] option, the
    option object is read for its known keys only. *)
Definition isDecimal (v : JsValue) : bool :=
  match v with
  | JInt z => prints_plain z
  | JNum n => Str.is_decimal (num_toString n)
  | JStr s => Str.is_decimal s
  | JBool _ | JUndefined | JNull => false
  end.

(** [stock < quantity] for an integer [stock] and a body value that passed
    [isInt]: a numeric text is converted to the number it denotes. *)
Definition lt_value (stock : Z) (v : JsValue) : bool :=
  match int_of v with
  | Some z => stock <? z
  | None => false
  end.

(** [n + v] for an integer [n]: addition of numbers, concatenation as soon
    as [v] is text. *)
Definition plus_value (n : Z) (v : JsValue) : JsValue :=
  match v with
  | JInt z => JInt (n + z)
  | JNum m => JNum (num_add (num_ofZ n) m)
  | JStr s => JStr (Str.of_Z n ++ s)
  | JBool b => JInt (n + (if b then 1 else 0))
  | JNull => JInt n
  | JUndefined => JNum num_nan
  end.

(** What the ORM accepts for a column of each scalar type.  An [Int]
    column is 32 bits wide, a [Decimal] column takes a finite number. *)
Definition as_string (v : JsValue) : option string :=
  match v with JStr s => Some s | _ => None end.

Definition int32 (z : Z) : bool :=
  (- 2147483648 <=? z) && (z <=? 2147483647).

Definition int_column (z : Z) : option Z :=
  if int32 z then Some z else None.

Definition as_int (v : JsValue) : option Z :=
  match v with JInt z => int_column z | _ => None end.

Definition decimal_column (n : num) : option dec :=
  if num_isFinite n then Some (dec_ofNum n) else None.

Definition as_bool (v : JsValue) : option bool :=
  match v with JBool b => Some b | _ => None end.

End JsValues.

(** ** Tables *)

Inductive Role : Type := USER | SELLER | ADMIN.

Definition role_name (r : Role) : string :=
  match r with USER => "USER" | SELLER => "SELLER" | ADMIN => "ADMIN" end.

Inductive Gender : Type := MEN | WOMEN | KIDS | UNISEX.

Definition gender_of_string (s : string) : option Gender :=
  if String.eqb s "MEN" then Some MEN
  else if String.eqb s "WOMEN" then Some WOMEN
  else if String.eqb s "KIDS" then Some KIDS
  else if String.eqb s "UNISEX" then Some UNISEX
  else None.

(** [req.user], as the authentication middleware injects it. *)
Record ReqUser : Type := mkReqUser {
  req_id : Id;
  req_role : string
}.

Record User : Type := mkUser {
  user_id : Id;
  user_email : string;
  user_name : option string;
  user_role : Role
}.

Record Category : Type := mkCategory {
  category_id : Id;
  category_name : string;
  category_slug : string
}.

Record CartItem : Type := mkCartItem {
  cart_id : Id;
  cart_userId : Id;
  cart_productId : Id;
  cart_quantity : Z
}.

Section Store.
Context {N : JsNumber}.

Record Product : Type := mkProduct {
  product_id : Id;
  product_name : string;
  product_description : option string;
  product_price : dec;
  product_stock : Z;
  product_imageUrl : option string;
  product_categoryId : Id;
  product_sellerId : option Id;
  product_isActive : bool;
  product_brand : option string;
  product_gender : option Gender
}.

Record Order : Type := mkOrder {
  order_id : Id;
  order_userId : Id;
  order_total : dec;
  order_status : string
}.

Record OrderItem : Type := mkOrderItem {
  item_id : Id;
  item_orderId : Id;
  item_productId : Id;
  item_quantity : Z;
  item_price : dec
}.

(** The store: one list of rows per table, in insertion order. *)
Record Db : Type := mkDb {
  users : list User;
  categories : list Category;
  products : list Product;
  cartItems : list CartItem;
  orders : list Order;
  orderItems : list OrderItem
}.

Definition set_products (ps : list Product) (db : Db) : Db :=
  mkDb (users db) (categories db) ps (cartItems db) (orders db) (orderItems db).

Definition set_cartItems (cs : list CartItem) (db : Db) : Db :=
  mkDb (users db) (categories db) (products db) cs (orders db) (orderItems db).

Definition set_orders (os : list Order) (db : Db) : Db :=
  mkDb (users db) (categories db) (products db) (cartItems db) os (orderItems db).

Definition set_orderItems (ois : list OrderItem) (db : Db) : Db :=
  mkDb (users db) (categories db) (products db) (cartItems db) (orders db) ois.

Definition set_users (us : list User) (db : Db) : Db :=
  mkDb us (categories db) (products db) (cartItems db) (orders db) (orderItems db).

Definition set_stock (s : Z) (p : Product) : Product :=
  mkProduct (product_id p) (product_name p) (product_description p)
    (product_price p) s (product_imageUrl p) (product_categoryId p)
    (product_sellerId p) (product_isActive p) (product_brand p)
    (product_gender p).

Definition set_quantity (q : Z) (c : CartItem) : CartItem :=
  mkCartItem (cart_id c) (cart_userId c) (cart_productId c) q.

Definition set_role (r : Role) (u : User) : User :=
  mkUser (user_id u) (user_email u) (user_name u) r.

End Store.

(** ** Rows addressed by a predicate *)

Section Rows.
Variable R : Type.

(** The first row that satisfies [p] is replaced by its image, and returned
    with the new table; [None] when no row does (the ORM's "record to update
    not found"). *)
Fixpoint update_first (p : R -> bool) (f : R -> R) (l : list R)
  : option (R * list R) :=
  match l with
  | [] => None
  | r :: rest =>
      if p r then Some (f r, f r :: rest)
      else match update_first p f rest with
           | Some (r', rest') => Some (r', r :: rest')
           | None => None
           end
  end.

(** The first row that satisfies [p] is dropped; [None] when no row does. *)
Fixpoint delete_first (p : R -> bool) (l : list R) : option (list R) :=
  match l with
  | [] => None
  | r :: rest =>
      if p r then Some rest else option_map (cons r) (delete_first p rest)
  end.

End Rows.

(** ** The ORM client

    A call reads or writes the store and may throw.  [Thrown] keeps the store
    as it is when the exception is raised, so that writes made before it
    outside a transaction stay, and a transaction can restore the store it
    started from. *)

Section Client.
Context {N : JsNumber} {G : IdGen}.

Inductive Outcome (A : Type) : Type :=
| Done (a : A) (db : Db)
| Thrown (db : Db).

Arguments Done {A} a db.
Arguments Thrown {A} db.

Definition Prisma (A : Type) : Type := Db -> Outcome A.

Definition ret {A} (a : A) : Prisma A := fun db => Done a db.

Definition throw {A} : Prisma A := fun db => Thrown db.

Definition bind {A B} (m : Prisma A) (k : A -> Prisma B) : Prisma B :=
  fun db =>
    match m db with
    | Done a db' => k a db'
    | Thrown db' => Thrown db'
    end.

Notation "x <- m ;; k" := (bind m (fun x => k))
  (at level 61, m at next level, right associativity).
Notation "m ;;; k" := (bind m (fun _ => k))
  (at level 61, right associativity).

(** [prisma.$transaction(async (prisma) => ...)]: all the writes of the
    callback, or none of them when it throws. *)
Definition transaction {A} (m : Prisma A) : Prisma A :=
  fun db =>
    match m db with
    | Done a db' => Done a db'
    | Thrown _ => Thrown db
    end.

(** A value the ORM refuses for its column makes the call throw. *)
Definition accept {A} (o : option A) : Prisma A :=
  match o with Some a => ret a | None => throw end.

Definition has_id {R} (key : R -> Id) (id : Id) (l : list R) : bool :=
  existsb (fun r => String.eqb (key r) id) l.

Definition find_product (id : Id) (ps : list Product) : option Product :=
  find (fun p => String.eqb (product_id p) id) ps.

Definition owned_by (uid : Id) (c : CartItem) : bool :=
  String.eqb (cart_userId c) uid.

Definition cart_key (uid pid : Id) (c : CartItem) : bool :=
  String.eqb (cart_userId c) uid && String.eqb (cart_productId c) pid.

(** [cartItem.findMany({ where: { userId }, include: { product: true } })] *)
Definition cartItem_findMany (uid : Id)
  : Prisma (list (CartItem * option Product)) :=
  fun db =>
    Done (map (fun c => (c, find_product (cart_productId c) (products db)))
              (filter (owned_by uid) (cartItems db)))
         db.

(** [order.create({ data: { userId, total, status } })] *)
Definition order_create (uid : Id) (total : num) (status : string)
  : Prisma Order :=
  fun db =>
    if has_id user_id uid (users db) then
      let o := mkOrder (genId (map order_id (orders db))) uid
                       (dec_ofNum total) status in
      Done o (set_orders (orders db ++ [o]) db)
    else Thrown db.

(** [orderItem.create({ data: { orderId, productId, quantity, price } })] *)
Definition orderItem_create (oid pid : Id) (q : Z) (price : dec)
  : Prisma OrderItem :=
  fun db =>
    if has_id order_id oid (orders db) && has_id product_id pid (products db)
    then
      let i := mkOrderItem (genId (map item_id (orderItems db))) oid pid q
                           price in
      Done i (set_orderItems (orderItems db ++ [i]) db)
    else Thrown db.

(** [product.update({ where: { id }, data })], the change given as a
    function on the row. *)
Definition product_update (id : Id) (f : Product -> Product)
  : Prisma Product :=
  fun db =>
    match update_first (fun p => String.eqb (product_id p) id) f (products db)
    with
    | Some (p, ps) => Done p (set_products ps db)
    | None => Thrown db
    end.

(** [data: { stock: { decrement: q } }]; the handler lowers a stock by a
    quantity of the cart that the stock was found to cover. *)
Definition decrement (q : Z) (p : Product) : Product :=
  set_stock (product_stock p - q) p.

(** [cartItem.deleteMany({ where: { userId } })] *)
Definition cartItem_deleteMany (uid : Id) : Prisma unit :=
  fun db =>
    Done tt (set_cartItems
               (filter (fun c => negb (owned_by uid c)) (cartItems db)) db).

(** An order as the [include: { orderItems: { include: { product: true } } }]
    clause returns it. *)
Definition OrderView : Type := (Order * list (OrderItem * option Product))%type.

Definition view_order (db : Db) (o : Order) : OrderView :=
  (o, map (fun i => (i, find_product (item_productId i) (products db)))
          (filter (fun i => String.eqb (item_orderId i) (order_id o))
                  (orderItems db))).

(** [order.findUnique({ where: { id }, include })] *)
Definition order_findUnique (id : Id) : Prisma (option OrderView) :=
  fun db =>
    Done (option_map (view_order db)
            (find (fun o => String.eqb (order_id o) id) (orders db)))
         db.

(** [order.findFirst({ where: { id, userId }, include })] *)
Definition order_findFirst (id uid : Id) : Prisma (option OrderView) :=
  fun db =>
    Done (option_map (view_order db)
            (find (fun o => String.eqb (order_id o) id
                            && String.eqb (order_userId o) uid) (orders db)))
         db.

(** [user.update({ where: { id }, data: { role }, select })] *)
Definition user_update_role (id : Id) (r : Role) : Prisma User :=
  fun db =>
    match update_first (fun u => String.eqb (user_id u) id) (set_role r)
            (users db) with
    | Some (u, us) => Done u (set_users us db)
    | None => Thrown db
    end.

(** [product.findUnique({ where: { id } })] *)
Definition product_findUnique (id : Id) : Prisma (option Product) :=
  fun db => Done (find_product id (products db)) db.

(** [cartItem.findUnique({ where: { userId_productId: { userId, productId } } })] *)
Definition cartItem_findUnique (uid pid : Id) : Prisma (option CartItem) :=
  fun db => Done (find (cart_key uid pid) (cartItems db)) db.

(** A cart line as [include: { product: true }] returns it. *)
Definition view_cartItem (db : Db) (c : CartItem)
  : CartItem * option Product :=
  (c, find_product (cart_productId c) (products db)).

(** [cartItem.update({ where, data: { quantity }, include })], the row
    selected by [sel]. *)
Definition cartItem_update (sel : CartItem -> bool) (quantity : JsValue)
  : Prisma (CartItem * option Product) :=
  q <- accept (as_int quantity) ;;
  fun db =>
    match update_first sel (set_quantity q) (cartItems db) with
    | Some (c, cs) =>
        let db' := set_cartItems cs db in Done (view_cartItem db' c) db'
    | None => Thrown db
    end.

(** [cartItem.create({ data: { userId, productId, quantity }, include })]:
    the user and the product must exist and the pair must be new. *)
Definition cartItem_create (uid pid : Id) (quantity : JsValue)
  : Prisma (CartItem * option Product) :=
  q <- accept (as_int quantity) ;;
  fun db =>
    if has_id user_id uid (users db)
       && has_id product_id pid (products db)
       && negb (existsb (cart_key uid pid) (cartItems db))
    then
      let c := mkCartItem (genId (map cart_id (cartItems db))) uid pid q in
      let db' := set_cartItems (cartItems db ++ [c]) db in
      Done (view_cartItem db' c) db'
    else Thrown db.

(** [cartItem.delete({ where: { id, userId } })] *)
Definition cartItem_delete (id uid : Id) : Prisma unit :=
  fun db =>
    match delete_first
            (fun c => String.eqb (cart_id c) id && owned_by uid c)
            (cartItems db) with
    | Some cs => Done tt (set_cartItems cs db)
    | None => Thrown db
    end.

(** The [data] object of a product write.  A key is absent ([None]) or holds
    the value the handler computed for it. *)
Record ProductData : Type := mkProductData {
  d_name : option JsValue;
  d_description : option JsValue;
  d_price : option num;
  d_stock : option (option Z);       (* [Some None]: the key holds NaN *)
  d_imageUrl : option JsValue;
  d_categoryId : option JsValue;
  d_isActive : option JsValue;
  d_gender : option string;
  d_brand : option JsValue;
  d_sellerId : option JsValue
}.

(** One column of a write: absent keeps [old]; a present value must be of
    the column's type. *)
Definition column {A B} (field : option A) (conv : A -> option B) (old : B)
  : option B :=
  match field with
  | None => Some old
  | Some v => conv v
  end.

Definition opt_bind {A B} (o : option A) (k : A -> option B) : option B :=
  match o with Some a => k a | None => None end.

Definition category_ref (cats : list Category) (v : JsValue) : option Id :=
  opt_bind (as_string v) (fun id =>
    if has_id category_id id cats then Some id else None).

Definition user_ref (us : list User) (v : JsValue) : option (option Id) :=
  opt_bind (as_string v) (fun id =>
    if has_id user_id id us then Some (Some id) else None).

Definition nullable {A} (conv : JsValue -> option A) (v : JsValue)
  : option (option A) :=
  match v with
  | JNull => Some None
  | _ => option_map Some (conv v)
  end.

(** The row [old] after the columns of [d] are written; [None] when the ORM
    refuses a value or a reference has no target. *)
Definition write_product (db : Db) (d : ProductData) (old : Product)
  : option Product :=
  opt_bind (column (d_name d) as_string (product_name old)) (fun name =>
  opt_bind (column (d_description d) (nullable as_string)
              (product_description old)) (fun description =>
  opt_bind (column (d_price d) decimal_column (product_price old))
           (fun price =>
  opt_bind (column (d_stock d) (fun z => opt_bind z int_column)
              (product_stock old)) (fun stock =>
  opt_bind (column (d_imageUrl d) (nullable as_string)
              (product_imageUrl old)) (fun imageUrl =>
  opt_bind (column (d_categoryId d) (category_ref (categories db))
              (product_categoryId old)) (fun categoryId =>
  opt_bind (column (d_isActive d) as_bool (product_isActive old))
           (fun isActive =>
  opt_bind (column (d_gender d) (fun s => option_map Some (gender_of_string s))
              (product_gender old)) (fun gender =>
  opt_bind (column (d_brand d) (nullable as_string) (product_brand old))
           (fun brand =>
  opt_bind (column (d_sellerId d) (user_ref (users db))
              (product_sellerId old)) (fun sellerId =>
  Some (mkProduct (product_id old) name description price stock imageUrl
          categoryId sellerId isActive brand gender))))))))))).

(** [product.update({ where: { id }, data, include: { category: true } })] *)
Definition product_update_data (id : Id) (d : ProductData) : Prisma Product :=
  fun db =>
    match find_product id (products db) with
    | None => Thrown db
    | Some old =>
        match write_product db d old with
        | None => Thrown db
        | Some new => product_update id (fun _ => new) db
        end
    end.

(** [product.create({ data, include: { category: true } })]: name, price,
    stock and category are required columns; [isActive] takes the schema's
    default. *)
Definition product_create (d : ProductData) : Prisma Product :=
  fun db =>
    match d_name d, d_price d, d_stock d, d_categoryId d with
    | Some _, Some _, Some _, Some _ =>
        let blank :=
          mkProduct (genId (map product_id (products db))) "" None
                    (dec_ofNum num_zero) 0 None "" None true None None in
        match write_product db d blank with
        | Some p => Done p (set_products (products db ++ [p]) db)
        | None => Thrown db
        end
    | _, _, _, _ => Thrown db
    end.

Definition find_category (id : Id) (db : Db) : option Category :=
  find (fun c => String.eqb (category_id c) id) (categories db).

(** ** Responses *)

Inductive Body : Type :=
| BError (msg : string)                      (* [{ error: msg }] *)
| BValidation (msgs : list string)           (* [{ errors: errors.array() }] *)
| BOrder (o : option OrderView)
| BCartItem (c : CartItem * option Product)
| BProduct (p : Product) (c : option Category)
| BUser (u : User)                           (* [{ user: updated }] *)
| BMessage (msg : string).                   (* [{ message: msg }] *)

Record Response : Type := mkResponse {
  status : Z;
  body : Body
}.

(** [res.status(s).json(b)]; [res.json(b)] answers 200. *)
Definition res (s : Z) (b : Body) : Response := mkResponse s b.

(** The [try { ... } catch (error) { res.status(500).json(...) }] around
    every handler. *)
Definition handle (m : Prisma Response) (db : Db) : Response * Db :=
  match m db with
  | Done r db' => (r, db')
  | Thrown db' => (res 500 (BError "Server error"), db')
  end.

(** The messages of the validators that fail, in the order of the chain. *)
Definition validationResult (checks : list (bool * string)) : list string :=
  map snd (filter (fun c => negb (fst c)) checks).

Definition isEmpty (errors : list string) : bool :=
  match errors with [] => true | _ => false end.

(** ** Orders ([routes/orders.js]) *)

(** The ways out of a loop body that can [return] a response or raise. *)
Inductive Loop (A : Type) : Type :=
| Continue (a : A)
| Return (r : Response)
| Raise.

Arguments Continue {A} a.
Arguments Return {A} r.
Arguments Raise {A}.

(** The loop that checks the stock of every line and accumulates the total. *)
Fixpoint check_stock (cartItems : list (CartItem * option Product))
  (total : num) : Loop num :=
  match cartItems with
  | [] => Continue total
  | (item, product) :: rest =>
      match product with
      | None => Raise
      | Some p =>
          if product_stock p <? cart_quantity item then
            Return (res 400
                      (BError ("Insufficient stock for " ++ product_name p)))
          else
            check_stock rest
              (num_add total
                 (num_mul (parseFloat_str (dec_toString (product_price p)))
                          (num_ofZ (cart_quantity item))))
      end
  end.

(** The loop of the transaction: one order item per line, then the stock of
    its product. *)
Fixpoint place_items (order : Order)
  (cartItems : list (CartItem * option Product)) : Prisma unit :=
  match cartItems with
  | [] => ret tt
  | (item, product) :: rest =>
      p <- accept product ;;
      orderItem_create (order_id order) (cart_productId item)
        (cart_quantity item) (product_price p) ;;;
      product_update (cart_productId item) (decrement (cart_quantity item)) ;;;
      place_items order rest
  end.

(** [POST /api/orders] *)
Definition post_orders (u : ReqUser) : Db -> Response * Db :=
  handle (
    cartItems <- cartItem_findMany (req_id u) ;;
    if Nat.eqb (List.length cartItems) 0 then
      ret (res 400 (BError "Cart is empty"))
    else
      match check_stock cartItems num_zero with
      | Return r => ret r
      | Raise => throw
      | Continue total =>
          result <- transaction (
            order <- order_create (req_id u) total "PENDING" ;;
            place_items order cartItems ;;;
            cartItem_deleteMany (req_id u) ;;;
            ret order) ;;
          order <- order_findUnique (order_id result) ;;
          ret (res 201 (BOrder order))
      end).

(** [GET /api/orders/:id] *)
Definition get_order (u : ReqUser) (id : Id) : Db -> Response * Db :=
  handle (
    order <- order_findFirst id (req_id u) ;;
    match order with
    | None => ret (res 404 (BError "Order not found"))
    | Some o => ret (res 200 (BOrder (Some o)))
    end).

(** ** Users ([routes/users.js]) *)

(** The member [Role] of the [Prisma] namespace that the users file takes
    from the generated client.  The client exports the enums of the schema
    beside that namespace, not in it: the namespace has no such member and
    [Prisma.Role] is [undefined]. *)
Definition Prisma_Role : option (string -> option Role) := None.

(** [Prisma.Role.SELLER]: reading a property of [undefined] throws a
    [TypeError]. *)
Definition Prisma_Role_member (name : string) : Prisma Role :=
  match Prisma_Role with
  | Some members => accept (members name)
  | None => throw
  end.

(** [POST /api/users/become-seller]: the argument of [user.update] is
    evaluated before the call. *)
Definition become_seller (u : ReqUser) : Db -> Response * Db :=
  handle (
    if String.eqb (req_role u) "SELLER" then
      ret (res 400 (BError "User is already a seller"))
    else
      role <- Prisma_Role_member "SELLER" ;;
      updated <- user_update_role (req_id u) role ;;
      ret (res 200 (BUser updated))).

(** ** Products ([routes/products.js]) *)

Record ProductBody : Type := mkProductBody {
  b_name : JsValue;
  b_description : JsValue;
  b_price : JsValue;
  b_stock : JsValue;
  b_imageUrl : JsValue;
  b_categoryId : JsValue;
  b_isActive : JsValue;
  b_gender : JsValue;
  b_brand : JsValue;
  b_sellerId : JsValue
}.

(** [...(c && { key: v })] *)
Definition spread {A} (c : bool) (v : A) : option A :=
  if c then Some v else None.

(** [...(gender && { gender: gender.toUpperCase() })]: the method exists on
    text only. *)
Definition gender_key (gender : JsValue) : Prisma (option string) :=
  if truthy gender then
    match gender with
    | JStr s => ret (Some (Str.toUpperCase s))
    | _ => throw
    end
  else ret None.

Definition with_category (p : Product) : Prisma Body :=
  fun db => Done (BProduct p (find_category (product_categoryId p) db)) db.

(** [POST /api/products] *)
Definition post_product (u : ReqUser) (b : ProductBody)
  : Db -> Response * Db :=
  handle (
    if negb (String.eqb (req_role u) "ADMIN")
       && negb (String.eqb (req_role u) "SELLER") then
      ret (res 403 (BError "Access denied. Admin or Seller only."))
    else
      let errors := validationResult
        [ (notEmpty (b_name b), "Product name is required");
          (isDecimal (b_price b), "Price must be greater than 0");
          (notEmpty (b_categoryId b), "Category is required");
          (isInt_min 0 (b_stock b), "Stock must be a non-negative integer") ] in
      if negb (isEmpty errors) then ret (res 400 (BValidation errors))
      else
        gender <- gender_key (b_gender b) ;;
        let sellerId :=
          if String.eqb (req_role u) "SELLER" then Some (JStr (req_id u))
          else spread (truthy (b_sellerId b)) (b_sellerId b) in
        let data := mkProductData
          (spread (defined (b_name b)) (b_name b))
          (spread (defined (b_description b)) (b_description b))
          (Some (parseFloat (b_price b)))
          (Some (parseInt (b_stock b)))
          (spread (defined (b_imageUrl b)) (b_imageUrl b))
          (spread (defined (b_categoryId b)) (b_categoryId b))
          None
          gender
          (spread (truthy (b_brand b)) (b_brand b))
          sellerId in
        product <- product_create data ;;
        json <- with_category product ;;
        ret (res 201 json)).

(** [PUT /api/products/:id] *)
Definition put_product (u : ReqUser) (id : Id) (b : ProductBody)
  : Db -> Response * Db :=
  handle (
    if negb (String.eqb (req_role u) "ADMIN") then
      ret (res 403 (BError "Access denied. Admin only."))
    else
      gender <- gender_key (b_gender b) ;;
      let data := mkProductData
        (spread (truthy (b_name b)) (b_name b))
        (spread (truthy (b_description b)) (b_description b))
        (spread (truthy (b_price b)) (parseFloat (b_price b)))
        (spread (defined (b_stock b)) (parseInt (b_stock b)))
        (spread (truthy (b_imageUrl b)) (b_imageUrl b))
        (spread (truthy (b_categoryId b)) (b_categoryId b))
        (spread (defined (b_isActive b)) (b_isActive b))
        gender
        None
        None in
      product <- product_update_data id data ;;
      json <- with_category product ;;
      ret (res 200 json)).

(** ** Cart ([routes/cart.js]) *)

(** [POST /api/cart] *)
Definition post_cart (u : ReqUser) (productId quantity : JsValue)
  : Db -> Response * Db :=
  handle (
    let errors := validationResult
      [ (notEmpty productId, "Product ID is required");
        (isInt_min 1 quantity, "Quantity must be at least 1") ] in
    if negb (isEmpty errors) then ret (res 400 (BValidation errors))
    else
      pid <- accept (as_string productId) ;;
      product <- product_findUnique pid ;;
      match product with
      | None => ret (res 404 (BError "Product not found"))
      | Some p =>
          if lt_value (product_stock p) quantity then
            ret (res 400 (BError "Insufficient stock"))
          else
            existingCartItem <- cartItem_findUnique (req_id u) pid ;;
            match existingCartItem with
            | Some existing =>
                cartItem <- cartItem_update
                  (fun c => String.eqb (cart_id c) (cart_id existing))
                  (plus_value (cart_quantity existing) quantity) ;;
                ret (res 201 (BCartItem cartItem))
            | None =>
                cartItem <- cartItem_create (req_id u) pid quantity ;;
                ret (res 201 (BCartItem cartItem))
            end
      end).

(** [PUT /api/cart/:id] *)
Definition put_cart (u : ReqUser) (id : Id) (quantity : JsValue)
  : Db -> Response * Db :=
  handle (
    let errors := validationResult
      [ (isInt_min 1 quantity, "Quantity must be at least 1") ] in
    if negb (isEmpty errors) then ret (res 400 (BValidation errors))
    else
      cartItem <- cartItem_update
        (fun c => String.eqb (cart_id c) id && owned_by (req_id u) c)
        quantity ;;
      ret (res 200 (BCartItem cartItem))).

(** [DELETE /api/cart/:id] *)
Definition delete_cart (u : ReqUser) (id : Id) : Db -> Response * Db :=
  handle (
    cartItem_delete id (req_id u) ;;;
    ret (res 200 (BMessage "Item removed from cart"))).

End Client.

Arguments Done {N A} a db.
Arguments Thrown {N A} db.
Arguments Continue {N A} a.
Arguments Return {N A} r.
Arguments Raise {N A}.

(** ** The requests that change the store, and their sequential execution *)

Section Requests.
Context {N : JsNumber} {G : IdGen}.

Inductive Request : Type :=
| PostOrders (u : ReqUser)
| GetOrder (u : ReqUser) (id : Id)
| BecomeSeller (u : ReqUser)
| PostProduct (u : ReqUser) (b : ProductBody)
| PutProduct (u : ReqUser) (id : Id) (b : ProductBody)
| PostCart (u : ReqUser) (productId quantity : JsValue)
| PutCart (u : ReqUser) (id : Id) (quantity : JsValue)
| DeleteCart (u : ReqUser) (id : Id).

Definition serve (r : Request) : Db -> Response * Db :=
  match r with
  | PostOrders u => post_orders u
  | GetOrder u id => get_order u id
  | BecomeSeller u => become_seller u
  | PostProduct u b => post_product u b
  | PutProduct u id b => put_product u id b
  | PostCart u p q => post_cart u p q
  | PutCart u id q => put_cart u id q
  | DeleteCart u id => delete_cart u id
  end.

(** The store after the requests are served one after the other. *)
Fixpoint run (rs : list Request) (db : Db) : Db :=
  match rs with
  | [] => db
  | r :: rest => run rest (snd (serve r db))
  end.

End Requests.

(** ** Vocabulary of the statements *)

Section Vocabulary.
Context {N : JsNumber}.

(** The lines of a user's cart, in table order. *)
Definition cart_of (uid : Id) (db : Db) : list CartItem :=
  filter (owned_by uid) (cartItems db).

(** The lines of a cart, each with the product it refers to; [None] when a
    line refers to no product. *)
Fixpoint join (ps : list Product) (cs : list CartItem)
  : option (list (CartItem * Product)) :=
  match cs with
  | [] => Some []
  | c :: rest =>
      match find_product (cart_productId c) ps, join ps rest with
      | Some p, Some lines => Some ((c, p) :: lines)
      | _, _ => None
      end
  end.

(** [parseFloat(item.product.price) * item.quantity] *)
Definition line_amount (c : CartItem) (p : Product) : num :=
  num_mul (parseFloat_str (dec_toString (product_price p)))
          (num_ofZ (cart_quantity c)).

(** The sum of the line amounts, added from zero in the order of the
    lines. *)
Definition cart_total (lines : list (CartItem * Product)) : num :=
  fold_left (fun acc l => num_add acc (line_amount (fst l) (snd l)))
            lines num_zero.


(** A line as the handler reads it, the product included. *)
Definition with_product (l : CartItem * Product) : CartItem * option Product :=
  (fst l, Some (snd l)).




(** What the handlers take from the schema: product keys are unique, a user
    has at most one cart line per product, an order item refers to an
    order. *)
Definition product_keys_unique (db : Db) : Prop :=
  NoDup (map product_id (products db)).

Definition cart_lines_unique (db : Db) : Prop :=
  forall uid, NoDup (map cart_productId (cart_of uid db)).


Definition stock_nonneg (db : Db) : Prop :=
  forall p, In p (products db) -> 0 <= product_stock p.

(** The quantity a user's cart holds of a product. *)
Definition held (uid pid : Id) (db : Db) : Z :=
  match find (cart_key uid pid) (cartItems db) with
  | Some e => cart_quantity e
  | None => 0
  end.

Definition cart_keys_unique (db : Db) : Prop :=
  NoDup (map cart_id (cartItems db)).

(** A store that satisfies the key constraints and has no negative stock. *)
Definition consistent (db : Db) : Prop :=
  product_keys_unique db /\ cart_lines_unique db /\ stock_nonneg db.


End Vocabulary.

(** ** The read routes of the order and cart files *)

(** [Number.prototype.toFixed], the one operation of the cart route that the
    numeric interface does not have. *)
Class JsFixed (N : JsNumber) : Type := {
  num_toFixed : nat -> num -> string
}.

Section ReadRoutes.
Context {N : JsNumber} {F : JsFixed N} {G : IdGen}.

Notation "x <- m ;; k" := (bind m (fun x => k))
  (at level 61, m at next level, right associativity).

(** What a handler sends: a value, an [{ error }] object with its status, or
    the [{ errors }] array of the validators (status 400). *)
Inductive Reply (A : Type) : Type :=
| Sent (status : Z) (json : A)
| Refused (status : Z) (error : string)
| Invalid (errors : list string).

Arguments Sent {A} status json.
Arguments Refused {A} status error.
Arguments Invalid {A} errors.

Definition reply_status {A} (r : Reply A) : Z :=
  match r with
  | Sent s _ => s
  | Refused s _ => s
  | Invalid _ => 400
  end.

(** The [try]/[catch] of a handler, for a typed reply. *)
Definition answer {A} (m : Prisma (Reply A)) (db : Db) : Reply A * Db :=
  match m db with
  | Done r db' => (r, db')
  | Thrown db' => (Refused 500 "Server error", db')
  end.

(** [order.findMany({ where: { userId }, include, orderBy: { createdAt:
    'desc' } })]: rows are appended when they are created, so the newest
    come last in the table and first in the answer. *)
Definition order_findMany (uid : Id) : Prisma (list OrderView) :=
  fun db =>
    Done (map (view_order db)
              (rev (filter (fun o => String.eqb (order_userId o) uid)
                           (orders db))))
         db.

(** [GET /api/orders] *)
Definition get_orders (u : ReqUser) : Db -> Reply (list OrderView) * Db :=
  answer (
    orders <- order_findMany (req_id u) ;;
    ret (Sent 200 orders)).

(** A cart line with [include: { product: { include: { category: true } } }]. *)
Definition CartLine : Type :=
  (CartItem * option (Product * option Category))%type.

Definition cartItem_findMany_category (uid : Id) : Prisma (list CartLine) :=
  fun db =>
    Done (map (fun c =>
                 (c, option_map
                       (fun p => (p, find_category (product_categoryId p) db))
                       (find_product (cart_productId c) (products db))))
              (filter (owned_by uid) (cartItems db)))
         db.

(** [cartItems.reduce((sum, item) => sum + parseFloat(item.product.price) *
    item.quantity, 0)]; [None] when a line has no product to read. *)
Fixpoint reduce_total (cartItems : list CartLine) (sum : num) : option num :=
  match cartItems with
  | [] => Some sum
  | (item, product) :: rest =>
      match product with
      | None => None
      | Some (p, _) =>
          reduce_total rest
            (num_add sum
               (num_mul (parseFloat_str (dec_toString (product_price p)))
                        (num_ofZ (cart_quantity item))))
      end
  end.

(** [cartItems.reduce((sum, item) => sum + item.quantity, 0)] *)
Definition reduce_count (cartItems : list CartLine) : Z :=
  fold_left (fun sum item => sum + cart_quantity (fst item)) cartItems 0.

Record CartView : Type := mkCartView {
  items : list CartLine;
  total : string;
  itemCount : Z
}.

(** [GET /api/cart] *)
Definition get_cart (u : ReqUser) : Db -> Reply CartView * Db :=
  answer (
    cartItems <- cartItem_findMany_category (req_id u) ;;
    sum <- accept (reduce_total cartItems num_zero) ;;
    ret (Sent 200 (mkCartView cartItems (num_toFixed 2 sum)
                              (reduce_count cartItems)))).

End ReadRoutes.

Arguments Sent {A} status json.
Arguments Refused {A} status error.
Arguments Invalid {A} errors.

(** ** Wishlist ([routes/wishlist.js]) *)

Record WishlistItem : Type := mkWishlistItem {
  wish_id : Id;
  wish_userId : Id;
  wish_productId : Id
}.

Section Wishlist.
Context {N : JsNumber} {G : IdGen}.

(** The store with the wishlist table beside the other tables. *)
Record Shop : Type := mkShop {
  shop_db : Db;
  wishlistItems : list WishlistItem
}.

Inductive ShopOutcome (A : Type) : Type :=
| ShopDone (a : A) (s : Shop)
| ShopThrown (s : Shop).

Arguments ShopDone {A} a s.
Arguments ShopThrown {A} s.

Definition ShopClient (A : Type) : Type := Shop -> ShopOutcome A.

Definition shop_ret {A} (a : A) : ShopClient A := fun s => ShopDone a s.

Definition shop_throw {A} : ShopClient A := fun s => ShopThrown s.

Definition shop_bind {A B} (m : ShopClient A) (k : A -> ShopClient B)
  : ShopClient B :=
  fun s =>
    match m s with
    | ShopDone a s' => k a s'
    | ShopThrown s' => ShopThrown s'
    end.

Notation "x <~ m ;; k" := (shop_bind m (fun x => k))
  (at level 61, m at next level, right associativity).

(** A call on the other tables, made on the store with the wishlist. *)
Definition on_db {A} (m : Prisma A) : ShopClient A :=
  fun s =>
    match m (shop_db s) with
    | Done a db' => ShopDone a (mkShop db' (wishlistItems s))
    | Thrown db' => ShopThrown (mkShop db' (wishlistItems s))
    end.

Definition shop_answer {A} (m : ShopClient (Reply A)) (s : Shop)
  : Reply A * Shop :=
  match m s with
  | ShopDone r s' => (r, s')
  | ShopThrown s' => (Refused 500 "Server error", s')
  end.

Definition wish_key (uid pid : Id) (w : WishlistItem) : bool :=
  String.eqb (wish_userId w) uid && String.eqb (wish_productId w) pid.

(** [wishlistItem.findUnique({ where: { userId_productId } })] *)
Definition wishlistItem_findUnique (uid pid : Id)
  : ShopClient (option WishlistItem) :=
  fun s => ShopDone (find (wish_key uid pid) (wishlistItems s)) s.

(** A wishlist row with [include: { product: { include: { category: true } } }]. *)
Definition WishView : Type :=
  (WishlistItem * option (Product * option Category))%type.

Definition view_wish (s : Shop) (w : WishlistItem) : WishView :=
  (w, option_map
        (fun p => (p, find_category (product_categoryId p) (shop_db s)))
        (find_product (wish_productId w) (products (shop_db s)))).

(** [wishlistItem.create({ data: { userId, productId }, include })]: the user
    and the product must exist and the pair must be new. *)
Definition wishlistItem_create (uid pid : Id) : ShopClient WishView :=
  fun s =>
    if has_id user_id uid (users (shop_db s))
       && has_id product_id pid (products (shop_db s))
       && negb (existsb (wish_key uid pid) (wishlistItems s))
    then
      let w := mkWishlistItem (genId (map wish_id (wishlistItems s))) uid pid in
      let s' := mkShop (shop_db s) (wishlistItems s ++ [w]) in
      ShopDone (view_wish s' w) s'
    else ShopThrown s.

(** [wishlistItem.delete({ where: { userId_productId } })] *)
Definition wishlistItem_delete (uid pid : Id) : ShopClient unit :=
  fun s =>
    match delete_first (wish_key uid pid) (wishlistItems s) with
    | Some ws => ShopDone tt (mkShop (shop_db s) ws)
    | None => ShopThrown s
    end.

Inductive WishBody : Type :=
| WItem (w : WishView)
| WMessage (msg : string).

(** [POST /api/wishlist] *)
Definition post_wishlist (u : ReqUser) (productId : JsValue)
  : Shop -> Reply WishBody * Shop :=
  shop_answer (
    let errors := validationResult
      [ (notEmpty productId, "Product ID is required") ] in
    if negb (isEmpty errors) then shop_ret (Invalid errors)
    else
      pid <~ on_db (accept (as_string productId)) ;;
      product <~ on_db (product_findUnique pid) ;;
      match product with
      | None => shop_ret (Refused 404 "Product not found")
      | Some _ =>
          existingItem <~ wishlistItem_findUnique (req_id u) pid ;;
          match existingItem with
          | Some _ => shop_ret (Refused 400 "Product already in wishlist")
          | None =>
              wishlistItem <~ wishlistItem_create (req_id u) pid ;;
              shop_ret (Sent 201 (WItem wishlistItem))
          end
      end).

(** [DELETE /api/wishlist/:productId] *)
Definition delete_wishlist (u : ReqUser) (productId : Id)
  : Shop -> Reply WishBody * Shop :=
  shop_answer (
    removed <~ wishlistItem_delete (req_id u) productId ;;
    shop_ret (Sent 200 (WMessage "Item removed from wishlist"))).

(** The requests on the store with the wishlist. *)
Inductive ShopRequest : Type :=
| OnDb (r : Request)
| PostWishlist (u : ReqUser) (productId : JsValue)
| DeleteWishlist (u : ReqUser) (productId : Id).

Definition serve_shop (r : ShopRequest) (s : Shop) : Shop :=
  match r with
  | OnDb q => mkShop (snd (serve q (shop_db s))) (wishlistItems s)
  | PostWishlist u p => snd (post_wishlist u p s)
  | DeleteWishlist u p => snd (delete_wishlist u p s)
  end.

Fixpoint run_shop (rs : list ShopRequest) (s : Shop) : Shop :=
  match rs with
  | [] => s
  | r :: rest => run_shop rest (serve_shop r s)
  end.

(** A user has at most one wishlist row per product. *)
Definition wishes_unique (s : Shop) : Prop :=
  forall uid,
    NoDup (map wish_productId
               (filter (fun w => String.eqb (wish_userId w) uid)
                       (wishlistItems s))).

End Wishlist.

Arguments ShopDone {N A} a s.
Arguments ShopThrown {N A} s.

(** ** More vocabulary *)

Section MoreVocabulary.
Context {N : JsNumber}.

(** The number of articles in a user's cart. *)
Definition count_of (uid : Id) (db : Db) : Z :=
  fold_left (fun sum c => sum + cart_quantity c) (cart_of uid db) 0.

Definition quantities_positive (db : Db) : Prop :=
  forall c, In c (cartItems db) -> 1 <= cart_quantity c.

(** What a product update never writes. *)
Definition identity_of (p : Product) : Id * option Id * option string :=
  (product_id p, product_sellerId p, product_brand p).

(** Every wishlist row refers to a product of the store. *)
Definition wishes_refer (s : Shop) : Prop :=
  forall w, In w (wishlistItems s) ->
    has_id product_id (wish_productId w) (products (shop_db s)) = true.

(** The requests of a run that are made on the tables other than the
    wishlist. *)
Fixpoint db_requests (rs : list ShopRequest) : list Request :=
  match rs with
  | [] => []
  | OnDb q :: rest => q :: db_requests rest
  | _ :: rest => db_requests rest
  end.

End MoreVocabulary.

(** ** An exact interpretation of the numeric interface

    Finite decimals [mantissa / 10 ^ scale] kept in lowest scale, and [None]
    for NaN.  Sums and products are exact here; the statements below do not
    depend on that. *)

Module Exact.

Record Decimal : Type := mkDecimal {
  mantissa : Z;
  scale : nat
}.

Fixpoint normalize (m : Z) (s : nat) : Decimal :=
  match s with
  | O => mkDecimal m O
  | S s' => if m mod 10 =? 0 then normalize (m / 10) s' else mkDecimal m s
  end.

Definition add (a b : Decimal) : Decimal :=
  let s := Nat.max (scale a) (scale b) in
  normalize (mantissa a * 10 ^ Z.of_nat (s - scale a)
             + mantissa b * 10 ^ Z.of_nat (s - scale b)) s.

Definition mul (a b : Decimal) : Decimal :=
  normalize (mantissa a * mantissa b) (scale a + scale b).

Definition ltb (a b : Decimal) : bool :=
  let s := Nat.max (scale a) (scale b) in
  mantissa a * 10 ^ Z.of_nat (s - scale a)
  <? mantissa b * 10 ^ Z.of_nat (s - scale b).

Fixpoint zeros (n : nat) : string :=
  match n with O => EmptyString | S n' => String "0" (zeros n') end.

(** Digits without the zeros at their end. *)
Fixpoint strip_zeros (s : string) : string :=
  match s with
  | EmptyString => EmptyString
  | String c r =>
      match strip_zeros r with
      | EmptyString =>
          if Ascii.eqb c "0" then EmptyString else String c EmptyString
      | r' => String c r'
      end
  end.

(** The text of a decimal, as [Number.prototype.toString] and the decimal
    type of the ORM write it: with [k] significant digits and the point
    after the [n]-th of them, plain notation when [n] is between -5 and 21
    and exponent notation otherwise. *)
Definition toString (d : Decimal) : string :=
  if mantissa d =? 0 then "0"
  else
    let all := Str.of_Z (Z.abs (mantissa d)) in
    let s := strip_zeros all in
    let k := Z.of_nat (String.length s) in
    let n := Z.of_nat (String.length all) - Z.of_nat (scale d) in
    let sign := if mantissa d <? 0 then "-" else "" in
    sign ++
    (if (k <=? n) && (n <=? 21) then s ++ zeros (Z.to_nat (n - k))
     else if (0 <? n) && (n <=? 21) then
       substring 0 (Z.to_nat n) s ++ "."
         ++ substring (Z.to_nat n) (Z.to_nat (k - n)) s
     else if (-6 <? n) && (n <=? 0) then
       "0." ++ zeros (Z.to_nat (- n)) ++ s
     else
       let e := n - 1 in
       let digits :=
         match s with
         | String c (String c' r) => String c (String "." (String c' r))
         | _ => s
         end in
       digits ++ "e" ++ (if e <? 0 then "-" else "+") ++ Str.of_Z (Z.abs e)).

(** The digits at the head of a text: their value, their number, the rest. *)
Fixpoint digits (acc : Z) (n : nat) (s : string) : Z * nat * string :=
  match s with
  | String c r =>
      match Str.digit_of c with
      | Some d => digits (10 * acc + d) (S n) r
      | None => (acc, n, s)
      end
  | EmptyString => (acc, n, s)
  end.

(** The exponent part at the head of a text: [e] or [E], an optional sign
    and at least one digit. *)
Definition exponent (s : string) : option Z :=
  match s with
  | String c r =>
      if Ascii.eqb c "e" || Ascii.eqb c "E" then
        let '(neg, u) := Str.split_sign r in
        let '(v, n, _) := digits 0 O u in
        match n with
        | O => None
        | S _ => Some (if neg then - v else v)
        end
      else None
  | EmptyString => None
  end.

(** What a double holds: a decimal below [2 ^ 1024] in magnitude. *)
Definition in_range (d : Decimal) : bool :=
  Z.abs (mantissa d) <? 2 ^ 1024 * 10 ^ Z.of_nat (scale d).

(** [parseFloat]: the longest numeric prefix after leading white space
    (digits, a point and digits, an exponent), NaN when there is none.  A
    text whose value no double holds is read as an infinity, which the
    interpretation does not tell from NaN; one below every double is read
    as zero. *)
Definition parse (s : string) : option Decimal :=
  let '(neg, u) := Str.split_sign (Str.trim_start s) in
  let '(i, ni, rest) := digits 0 O u in
  let '(m, nf, total, tail) :=
    match rest with
    | String c r =>
        if Ascii.eqb c "." then
          let '(f, nf, t) := digits i O r in (f, nf, (ni + nf)%nat, t)
        else (i, O, ni, rest)
    | EmptyString => (i, O, ni, rest)
    end in
  match total with
  | O => None
  | S _ =>
      let e := match exponent tail with Some e => e | None => 0 end in
      let sc := Z.of_nat nf - e in
      let v := if neg then - m else m in
      if m =? 0 then Some (mkDecimal 0 O)
      else if 400 <? sc - Z.of_nat total then Some (mkDecimal 0 O)
      else if sc <? - 400 then None
      else
        let d := if 0 <=? sc then normalize v (Z.to_nat sc)
                 else mkDecimal (v * 10 ^ (- sc)) O in
        if in_range d then Some d else None
  end.

Definition lift2 (f : Decimal -> Decimal -> Decimal)
  (a b : option Decimal) : option Decimal :=
  match a, b with
  | Some x, Some y => Some (f x y)
  | _, _ => None
  end.

Definition text (a : option Decimal) : string :=
  match a with Some d => toString d | None => "NaN" end.

Definition nonzero (a : option Decimal) : bool :=
  match a with Some d => negb (mantissa d =? 0) | None => false end.

Definition ofZ (z : Z) : option Decimal := Some (mkDecimal z O).

#[export] Instance numbers : JsNumber := {|
  num := option Decimal;
  dec := option Decimal;
  num_nan := None;
  num_zero := ofZ 0;
  num_add := lift2 add;
  num_mul := lift2 mul;
  num_ofZ := ofZ;
  num_truthy := nonzero;
  num_isFinite := fun a => match a with Some _ => true | None => false end;
  num_toString := text;
  parseFloat_str := parse;
  dec_toString := text;
  dec_ofNum := fun n => n
|}.

(** Keys: a text longer than every key in use. *)
Definition longest (used : list Id) : nat :=
  fold_right (fun s n => Nat.max (String.length s) n) O used.

Definition next_id (used : list Id) : Id :=
  String "c" (zeros (longest used)).

End Exact.

(** [toFixed] on exact decimals: the nearest decimal with [f] digits, the
    larger one on a tie, the sign of the number kept; from [1e21] on, the
    text of the number. *)
Module ExactFixed.
Import Exact.

Definition fixed (f : nat) (d : Decimal) : string :=
  let a := Z.abs (mantissa d) in
  let p := 10 ^ Z.of_nat (scale d) in
  let q := 10 ^ Z.of_nat f in
  let n := (2 * a * q + p) / (2 * p) in
  let sign := if mantissa d <? 0 then "-" else "" in
  match f with
  | O => sign ++ Str.of_Z n
  | S _ =>
      let frac := Str.of_Z (n mod q) in
      sign ++ Str.of_Z (n / q) ++ "."
           ++ zeros (f - String.length frac) ++ frac
  end.

Definition toFixed (f : nat) (a : option Decimal) : string :=
  match a with
  | Some d =>
      if Z.abs (mantissa d) <? 10 ^ (21 + Z.of_nat (scale d)) then fixed f d
      else toString d
  | None => "NaN"
  end.

#[export] Instance fixed_numbers : JsFixed numbers := {|
  num_toFixed := toFixed
|}.

End ExactFixed.

(** * Properties *)

(** ** The concrete key generator is fresh *)

Lemma longest_bounds (used : list Id) (s : Id) :
  In s used -> (String.length s <= Exact.longest used)%nat.
Proof.
  induction used as [|x used IH]; simpl; [tauto|].
  intros [->|H]; [apply Nat.le_max_l|].
  specialize (IH H). lia.
Qed.

Lemma zeros_length (n : nat) : String.length (Exact.zeros n) = n.
Proof. induction n; simpl; congruence. Qed.

Lemma next_id_fresh (used : list Id) : ~ In (Exact.next_id used) used.
Proof.
  intros H. apply longest_bounds in H.
  unfold Exact.next_id in H. simpl in H. rewrite zeros_length in H. lia.
Qed.

#[export] Instance exact_keys : IdGen := {|
  genId := Exact.next_id;
  genId_fresh := next_id_fresh
|}.

(** ** Sample data used to run the handlers *)

Module Sample.
Import Exact.

Definition alice : ReqUser := mkReqUser "u1" "USER".
Definition bob : ReqUser := mkReqUser "u2" "USER".
Definition root : ReqUser := mkReqUser "u3" "ADMIN".

Definition price (s : string) : option Decimal := parse s.

Definition lamp : Product :=
  mkProduct "p1" "Lamp" None (price "10.00") 5 None "k1" None true None None.

Definition desk : Product :=
  mkProduct "p2" "Desk" None (price "19.99") 2 None "k1" None true None None.

Definition shop : Db :=
  mkDb [ mkUser "u1" "alice@example.com" (Some "Alice") USER;
         mkUser "u2" "bob@example.com" None USER;
         mkUser "u3" "root@example.com" None ADMIN ]
       [ mkCategory "k1" "Home" "home" ]
       [ lamp; desk ]
       []
       []
       [].

(** Alice holds two lamps and one desk. *)
Definition shop_with_cart : Db :=
  set_cartItems [ mkCartItem "c1" "u1" "p1" 2; mkCartItem "c2" "u1" "p2" 1 ]
    shop.

(** Alice asks for more desks than there are. *)
Definition shop_short : Db :=
  set_cartItems [ mkCartItem "c1" "u1" "p1" 2; mkCartItem "c2" "u1" "p2" 3 ]
    shop.

Definition no_body : ProductBody :=
  mkProductBody JUndefined JUndefined JUndefined JUndefined JUndefined
    JUndefined JUndefined JUndefined JUndefined JUndefined.

Definition with_price (v : JsValue) : ProductBody :=
  mkProductBody JUndefined JUndefined v JUndefined JUndefined
    JUndefined JUndefined JUndefined JUndefined JUndefined.

Definition with_stock (v : JsValue) : ProductBody :=
  mkProductBody JUndefined JUndefined JUndefined v JUndefined
    JUndefined JUndefined JUndefined JUndefined JUndefined.

End Sample.

Module MoreSample.
Import Exact Sample.

(** Bob as a seller. *)
Definition seller : ReqUser := mkReqUser "u2" "SELLER".

Definition market : Db :=
  set_users [ mkUser "u1" "alice@example.com" (Some "Alice") USER;
              mkUser "u2" "bob@example.com" None SELLER;
              mkUser "u3" "root@example.com" None ADMIN ] shop.

(** A stool that the body assigns to Alice. *)
Definition stool : ProductBody :=
  mkProductBody (JStr "Stool") JUndefined (JStr "7.25") (JInt 4) JUndefined
    (JStr "k1") JUndefined JUndefined JUndefined (JStr "u1").

(** A body of falsy values: no name, an empty description, a price of 0. *)
Definition falsy : ProductBody :=
  mkProductBody JUndefined (JStr "") (JInt 0) JUndefined JNull
    JUndefined JUndefined (JStr "") JUndefined JUndefined.

(** The shop with an empty wishlist table. *)
Definition wishes : Shop := mkShop shop [].

End MoreSample.

Open Scope list_scope.
Unset Implicit Arguments.

(** ** Rows addressed by a predicate *)

Section RowFacts.
Variable R : Type.
Implicit Types (p : R -> bool) (f : R -> R) (l : list R).

(** [find] returns the first match: the rows before it do not match. *)
Lemma find_split p l r :
  find p l = Some r ->
  exists before after,
    l = before ++ r :: after /\ p r = true
    /\ Forall (fun x => p x = false) before.
Proof.
  induction l as [|x l IH]; simpl; [discriminate|].
  destruct (p x) eqn:Hx.
  - intros [= ->]. exists [], l. auto.
  - intros H. destruct (IH H) as (b & a & -> & Hr & Hb).
    exists (x :: b), a. auto.
Qed.

Lemma find_first p before r after :
  Forall (fun x => p x = false) before -> p r = true ->
  find p (before ++ r :: after) = Some r.
Proof.
  induction 1 as [|x b Hx _ IH]; simpl; intros Hr.
  - now rewrite Hr.
  - rewrite Hx. auto.
Qed.

Lemma find_none_forall p l :
  find p l = None <-> Forall (fun x => p x = false) l.
Proof.
  induction l as [|x l IH]; simpl.
  - split; auto.
  - destruct (p x) eqn:Hx; split.
    + discriminate.
    + inversion 1; congruence.
    + intros H. constructor; [assumption | now apply IH].
    + inversion 1; now apply IH.
Qed.

(** [update_first] rewrites exactly the row that [find] returns. *)
Lemma update_first_first p f before r after :
  Forall (fun x => p x = false) before -> p r = true ->
  update_first p f (before ++ r :: after)
  = Some (f r, before ++ f r :: after).
Proof.
  induction 1 as [|x b Hx _ IH]; simpl; intros Hr.
  - now rewrite Hr.
  - rewrite Hx, (IH Hr). reflexivity.
Qed.

Lemma update_first_none p f l :
  find p l = None -> update_first p f l = None.
Proof.
  induction l as [|x l IH]; simpl; [reflexivity|].
  destruct (p x); [discriminate|]. intros H. now rewrite (IH H).
Qed.

Lemma update_first_some p f l r' l' :
  update_first p f l = Some (r', l') ->
  exists before r after,
    l = before ++ r :: after /\ l' = before ++ f r :: after /\ r' = f r
    /\ find p l = Some r.
Proof.
  destruct (find p l) as [r|] eqn:Hf.
  - destruct (find_split p l r Hf) as (b & a & -> & Hr & Hb).
    rewrite (update_first_first p f b r a Hb Hr). intros [= <- <-].
    exists b, r, a. auto.
  - now rewrite (update_first_none p f l Hf).
Qed.

Lemma delete_first_incl p l l' :
  delete_first p l = Some l' ->
  exists before r after, l = before ++ r :: after /\ l' = before ++ after.
Proof.
  revert l'. induction l as [|x l IH]; simpl; [discriminate|]. intros l'.
  destruct (p x).
  - intros [= <-]. exists [], x, l. auto.
  - destruct (delete_first p l) as [t|]; [|discriminate].
    intros [= <-]. destruct (IH _ eq_refl) as (b & r & a & -> & ->).
    exists (x :: b), r, a. auto.
Qed.

Lemma filter_none p l :
  Forall (fun x => p x = false) l -> filter p l = [].
Proof.
  induction 1 as [|x l Hx _ IH]; simpl; [reflexivity|]. now rewrite Hx.
Qed.

End RowFacts.

Section Properties.
Context {N : JsNumber} {G : IdGen}.

(** ** Orders *)

(** C4. An authenticated user whose cart holds no line gets 400 with the
    error "Cart is empty" from [POST /api/orders], and the store is the one
    the request found: no order, no order item, no other row is written. *)
Theorem post_orders_empty_cart (u : ReqUser) (db : Db) :
  filter (owned_by (req_id u)) (cartItems db) = [] ->
  post_orders u db = (res 400 (BError "Cart is empty"), db).
Proof.
  intros H. unfold post_orders, handle, bind, cartItem_findMany.
  rewrite H. reflexivity.
Qed.

(** C8. [GET /api/orders/:id] never writes, and answers in one of two ways:
    with an order of the store whose id is the requested one and whose owner
    is the requesting user, or, when no order has both that id and that
    owner (the id is unknown, or the order belongs to someone else), with
    the same 404 "Order not found". *)
Theorem get_order_scoped (u : ReqUser) (id : Id) (db : Db) :
  snd (get_order u id db) = db
  /\ ((exists o,
         In o (orders db) /\ order_id o = id /\ order_userId o = req_id u
         /\ fst (get_order u id db) = res 200 (BOrder (Some (view_order db o))))
      \/ ((forall o, In o (orders db) -> order_id o = id ->
                     order_userId o <> req_id u)
          /\ fst (get_order u id db) = res 404 (BError "Order not found"))).
Proof.
  unfold get_order, handle, bind, order_findFirst, ret.
  destruct (find _ (orders db)) as [o|] eqn:Hf; simpl.
  - split; [reflexivity|]. left. exists o.
    destruct (find_split _ _ _ _ Hf) as (b & a & Hl & Ho & _).
    apply andb_true_iff in Ho as [Hi Hu].
    apply String.eqb_eq in Hi, Hu.
    repeat split; auto. rewrite Hl. apply in_elt.
  - split; [reflexivity|]. right. split; [|reflexivity].
    intros o Ho Hi Hu.
    apply find_none_forall in Hf. rewrite Forall_forall in Hf.
    specialize (Hf o Ho). simpl in Hf.
    apply andb_false_iff in Hf as [Hf|Hf]; apply String.eqb_neq in Hf;
      congruence.
Qed.

Lemma set_products_same (db : Db) : set_products (products db) db = db.
Proof. now destruct db. Qed.

Lemma set_cartItems_same (db : Db) : set_cartItems (cartItems db) db = db.
Proof. now destruct db. Qed.

Lemma set_users_same (db : Db) : set_users (users db) db = db.
Proof. now destruct db. Qed.

(** ** Products *)

(** A product update writes the product table and nothing else. *)
Lemma product_update_data_frame (id : Id) (d : ProductData) (db : Db) :
  match product_update_data id d db with
  | Done _ db' => exists ps, db' = set_products ps db
  | Thrown db' => db' = db
  end.
Proof.
  unfold product_update_data, product_update.
  destruct (find_product id (products db)); [|reflexivity].
  destruct (write_product db d p); [|reflexivity].
  destruct (update_first _ _ _) as [[q ps]|]; [|reflexivity].
  now exists ps.
Qed.

Lemma gender_key_pure (v : JsValue) (db : Db) :
  (exists g, gender_key v db = Done g db) \/ gender_key v db = Thrown db.
Proof.
  unfold gender_key. destruct (truthy v).
  - destruct v; (right; reflexivity) || (left; eexists; reflexivity).
  - left. eexists. reflexivity.
Qed.

Lemma put_product_frame (u : ReqUser) (id : Id) (b : ProductBody) (db : Db) :
  exists ps, snd (put_product u id b db) = set_products ps db.
Proof.
  unfold put_product, handle, bind.
  destruct (negb _).
  - exists (products db). simpl. now rewrite set_products_same.
  - destruct (gender_key_pure (b_gender b) db) as [[g ->]| ->].
    + match goal with |- context [product_update_data ?i ?d ?s] =>
        pose proof (product_update_data_frame i d s) as H;
        destruct (product_update_data i d s) end.
      * destruct H as [ps ->]. now exists ps.
      * subst. exists (products db). simpl. now rewrite set_products_same.
    + exists (products db). simpl. now rewrite set_products_same.
Qed.

(** C6. The price of an order item and the total of an order are taken when
    the order is created: whatever [PUT /api/products/:id] is asked to change
    (a price among other columns), the tables of orders and of order items
    are afterwards what they were, so every existing [OrderItem.price] and
    every existing [Order.total] is unchanged. *)
Theorem put_product_keeps_orders
  (u : ReqUser) (id : Id) (b : ProductBody) (db : Db) :
  orders (snd (put_product u id b db)) = orders db
  /\ orderItems (snd (put_product u id b db)) = orderItems db.
Proof.
  destruct (put_product_frame u id b db) as [ps ->]. split; reflexivity.
Qed.

(** C7. A user whose role is not 'ADMIN' gets 403 with the error
    "Access denied. Admin only." from [PUT /api/products/:id]; the product
    and the rest of the store are unchanged. *)
Theorem put_product_admin_only
  (u : ReqUser) (id : Id) (b : ProductBody) (db : Db) :
  req_role u <> "ADMIN" ->
  put_product u id b db = (res 403 (BError "Access denied. Admin only."), db).
Proof.
  intros H. apply String.eqb_neq in H.
  unfold put_product, handle. now rewrite H.
Qed.

(** ** Users *)

(** [POST /api/users/become-seller] answers 400 "User is already a seller"
    exactly when the role of the requesting user is 'SELLER'.  For every
    other role the role to write cannot be read and the answer is 500
    "Server error".  Nothing is written either way. *)
Lemma become_seller_outcome (u : ReqUser) (db : Db) :
  (fst (become_seller u db) = res 400 (BError "User is already a seller")
   <-> req_role u = "SELLER")
  /\ (req_role u <> "SELLER" ->
      fst (become_seller u db) = res 500 (BError "Server error"))
  /\ snd (become_seller u db) = db.
Proof.
  unfold become_seller, handle, bind, Prisma_Role_member, Prisma_Role, throw.
  destruct (String.eqb (req_role u) "SELLER") eqn:E.
  - apply String.eqb_eq in E. simpl. repeat split; auto. congruence.
  - apply String.eqb_neq in E. simpl. repeat split; try congruence.
    discriminate.
Qed.

(** ** Order placement: the stock check *)


(** The cart as the handler reads it is the joined cart. *)
Lemma join_lines (ps : list Product) (cs : list CartItem)
  (lines : list (CartItem * Product)) :
  join ps cs = Some lines ->
  map (fun c => (c, find_product (cart_productId c) ps)) cs
  = map with_product lines
  /\ map fst lines = cs.
Proof.
  revert lines. induction cs as [|c cs IH]; simpl; intros lines.
  - intros [= <-]. auto.
  - destruct (find_product (cart_productId c) ps) as [p|] eqn:Hp;
      [|discriminate].
    destruct (join ps cs) as [ls|]; [|discriminate].
    intros [= <-]. destruct (IH ls eq_refl) as [-> <-].
    split; reflexivity.
Qed.

Lemma join_total (ps : list Product) (cs : list CartItem) :
  (forall c, In c cs -> find_product (cart_productId c) ps <> None) ->
  exists lines, join ps cs = Some lines.
Proof.
  induction cs as [|c cs IH]; simpl; intros H.
  - now exists [].
  - destruct (find_product (cart_productId c) ps) as [p|] eqn:Hp.
    + destruct IH as [ls ->]; [intros; apply H; auto|]. now eexists.
    + exfalso. apply (H c); auto.
Qed.

Lemma join_find (ps : list Product) (cs : list CartItem)
  (lines : list (CartItem * Product)) (c : CartItem) (p : Product) :
  join ps cs = Some lines -> In (c, p) lines ->
  In c cs /\ find_product (cart_productId c) ps = Some p.
Proof.
  revert lines. induction cs as [|x cs IH]; simpl; intros lines.
  - intros [= <-] [].
  - destruct (find_product (cart_productId x) ps) as [q|] eqn:Hq;
      [|discriminate].
    destruct (join ps cs) as [ls|]; [|discriminate].
    intros [= <-] [[= <- <-]|Hin]; [auto|].
    destruct (IH ls eq_refl Hin). auto.
Qed.

Lemma join_in (ps : list Product) (cs : list CartItem)
  (lines : list (CartItem * Product)) (c : CartItem) (p : Product) :
  join ps cs = Some lines -> In c cs ->
  find_product (cart_productId c) ps = Some p -> In (c, p) lines.
Proof.
  revert lines. induction cs as [|x cs IH]; simpl; intros lines; [tauto|].
  destruct (find_product (cart_productId x) ps) as [q|] eqn:Hq;
    [|discriminate].
  destruct (join ps cs) as [ls|]; [|discriminate].
  intros [= <-] [->|Hin] Hp.
  - left. congruence.
  - right. now apply IH.
Qed.

(** With enough stock on every line the loop runs to its end, and the total
    is the sum of the line amounts. *)
Lemma check_stock_enough (lines : list (CartItem * Product)) (total : num) :
  Forall (fun l => cart_quantity (fst l) <= product_stock (snd l)) lines ->
  check_stock (map with_product lines) total
  = Continue (fold_left (fun acc l => num_add acc (line_amount (fst l) (snd l)))
                        lines total).
Proof.
  intros H. revert total.
  induction H as [|[c p] ls Hc _ IH]; simpl; intros total; [reflexivity|].
  simpl in Hc. destruct (Z.ltb_spec (product_stock p) (cart_quantity c)); [lia|].
  apply IH.
Qed.

(** With a line short of stock the loop returns 400 and names a product of
    such a line. *)
Lemma check_stock_short (lines : list (CartItem * Product)) (total : num) :
  Exists (fun l => product_stock (snd l) < cart_quantity (fst l)) lines ->
  exists c p,
    In (c, p) lines /\ product_stock p < cart_quantity c
    /\ check_stock (map with_product lines) total
       = Return (res 400
                   (BError ("Insufficient stock for " ++ product_name p)%string)).
Proof.
  revert total. induction lines as [|[c p] ls IH]; intros total H.
  - inversion H.
  - simpl. destruct (Z.ltb_spec (product_stock p) (cart_quantity c)) as [Hlt|Hge].
    + exists c, p. simpl. auto.
    + inversion H as [? ? Hh|? ? Ht]; subst; [simpl in Hh; lia|].
      destruct (IH (num_add total
                      (num_mul (parseFloat_str (dec_toString (product_price p)))
                               (num_ofZ (cart_quantity c)))) Ht)
        as (c' & p' & Hin & Hlt & Heq).
      exists c', p'. simpl. auto.
Qed.

(** C2. When every line of the user's cart refers to a product and at least
    one line asks for more than the stock of its product,
    [POST /api/orders] answers 400 (naming a product that is short) and
    writes nothing: the store after the request is the store before it, so
    no order or order item is created, no stock changes and the cart is
    as it was. *)
Theorem post_orders_insufficient_stock (u : ReqUser) (db : Db) :
  (forall c, In c (cart_of (req_id u) db) ->
             find_product (cart_productId c) (products db) <> None) ->
  (exists c p,
      In c (cart_of (req_id u) db)
      /\ find_product (cart_productId c) (products db) = Some p
      /\ product_stock p < cart_quantity c) ->
  exists c p,
    In c (cart_of (req_id u) db)
    /\ find_product (cart_productId c) (products db) = Some p
    /\ product_stock p < cart_quantity c
    /\ post_orders u db
       = (res 400 (BError ("Insufficient stock for " ++ product_name p)%string),
          db).
Proof.
  intros Hfk (c & p & Hc & Hp & Hlt).
  destruct (join_total (products db) _ Hfk) as [lines Hj].
  destruct (join_lines _ _ _ Hj) as [Hview Hfst].
  pose proof (join_in _ _ _ _ _ Hj Hc Hp) as Hin.
  destruct (check_stock_short lines num_zero) as (c' & p' & Hin' & Hlt' & Hck).
  { apply Exists_exists. exists (c, p). auto. }
  destruct (join_find _ _ _ _ _ Hj Hin') as [Hc' Hp'].
  exists c', p'. repeat split; auto.
  unfold post_orders, handle, bind, cartItem_findMany.
  fold (cart_of (req_id u) db). rewrite Hview, Hck.
  destruct lines; [destruct Hin|]. reflexivity.
Qed.

(** ** Order placement: the transaction *)


Lemma has_id_find_product (id : Id) (ps : list Product) :
  find_product id ps <> None -> has_id product_id id ps = true.
Proof.
  unfold has_id, find_product. intros H.
  destruct (find _ ps) as [p|] eqn:Hf; [|congruence].
  apply find_some in Hf as [Hin He].
  apply existsb_exists. now exists p.
Qed.






Lemma cart_of_cleared (uid : Id) (cs : list CartItem) :
  filter (owned_by uid) (filter (fun c => negb (owned_by uid c)) cs) = [].
Proof.
  induction cs as [|c cs IH]; simpl; [reflexivity|].
  destruct (owned_by uid c) eqn:E; simpl; [assumption|].
  now rewrite E.
Qed.



(** ** Cart *)

(** A number that passes for an integer is its own value. *)
Lemma int_of_number (z q : Z) :
  int_of (JInt z) = Some q -> q = z /\ prints_plain z = true.
Proof.
  unfold int_of. destruct (prints_plain z); [|discriminate].
  intros [= <-]. auto.
Qed.

Lemma int32_bounds (z : Z) :
  int32 z = true <-> - 2147483648 <= z <= 2147483647.
Proof.
  unfold int32. rewrite andb_true_iff, !Z.leb_le. tauto.
Qed.

(** What fits an [Int] column prints as an integer literal. *)
Lemma int32_plain (z : Z) : int32 z = true -> prints_plain z = true.
Proof.
  intros H. apply int32_bounds in H. unfold prints_plain.
  apply Z.ltb_lt. change (10 ^ 21) with 1000000000000000000000. lia.
Qed.

Lemma isInt_min_number (min z : Z) :
  int32 z = true -> min <= z -> isInt_min min (JInt z) = true.
Proof.
  intros H Hm. unfold isInt_min, int_of. rewrite (int32_plain z H).
  now apply Z.leb_le.
Qed.

Lemma isInt_min_least (min z : Z) :
  isInt_min min (JInt z) = true -> min <= z.
Proof.
  unfold isInt_min, int_of. destruct (prints_plain z); [|discriminate].
  apply Z.leb_le.
Qed.

Lemma int_column_some (z q : Z) :
  int_column z = Some q -> q = z /\ int32 z = true.
Proof.
  unfold int_column. destruct (int32 z); [|discriminate].
  intros [= <-]. auto.
Qed.

(** What an accepted [POST /api/cart] has checked and written: the product
    id is text, the quantity is an integer number of at least 1 and within
    the stock of the product, and either the line of the pair is rewritten
    with the added quantity or a new line is appended. *)
Lemma post_cart_accepted (u : ReqUser) (pv qv : JsValue) (db : Db)
  (r : Response) (db' : Db) :
  post_cart u pv qv db = (r, db') ->
  status r = 201 ->
  exists pid z p,
    pv = JStr pid /\ qv = JInt z /\ 1 <= z
    /\ find_product pid (products db) = Some p
    /\ z <= product_stock p
    /\ match find (cart_key (req_id u) pid) (cartItems db) with
       | Some e =>
           exists c' cs',
             update_first (fun c => String.eqb (cart_id c) (cart_id e))
               (set_quantity (cart_quantity e + z)) (cartItems db)
             = Some (c', cs')
             /\ db' = set_cartItems cs' db
       | None =>
           has_id user_id (req_id u) (users db) = true
           /\ db' = set_cartItems
                      (cartItems db
                       ++ [mkCartItem (genId (map cart_id (cartItems db)))
                             (req_id u) pid z]) db
       end.
Proof.
  intros E Hs.
  unfold post_cart, handle, validationResult in E. simpl filter in E.
  destruct (notEmpty pv) eqn:Hp, (isInt_min 1 qv) eqn:Hq; simpl in E;
    try (injection E as <- <-; discriminate).
  destruct pv as [| | | | |pid];
    try (injection E as <- <-; discriminate). clear Hp.
  unfold bind at 1 in E. simpl accept in E. unfold ret at 1 in E.
  unfold bind at 1 in E. unfold product_findUnique in E.
  destruct (find_product pid (products db)) as [p|] eqn:Hprod;
    [|injection E as <- <-; discriminate].
  unfold isInt_min in Hq. unfold lt_value in E.
  destruct (int_of qv) as [z|] eqn:Hz; [|discriminate].
  apply Z.leb_le in Hq.
  destruct (Z.ltb_spec (product_stock p) z) as [Hlt|Hge];
    [injection E as <- <-; discriminate|].
  exists pid, z, p.
  unfold bind at 1 in E. unfold cartItem_findUnique in E.
  destruct (find (cart_key (req_id u) pid) (cartItems db)) as [e|] eqn:He.
  - unfold bind at 1 in E. unfold cartItem_update in E.
    unfold bind at 1 in E.
    destruct qv as [| | |z0| |]; try discriminate Hz;
      cbn [plus_value as_int accept] in E; unfold throw, ret in E;
      try (injection E as <- <-; discriminate).
    destruct (int_of_number _ _ Hz) as [-> _]. clear Hz.
    destruct (int_column (cart_quantity e + z0)) as [q|] eqn:Hcol;
      cbn [accept] in E; unfold throw, ret in E;
      [|injection E as <- <-; discriminate].
    destruct (int_column_some _ _ Hcol) as [-> _].
    destruct (update_first _ _ (cartItems db)) as [[c' cs']|] eqn:Hup;
      [|injection E as <- <-; discriminate].
    injection E as <- <-. repeat split; auto.
    exists c', cs'. auto.
  - unfold bind at 1 in E. unfold cartItem_create in E.
    unfold bind at 1 in E.
    destruct qv as [| | |z0| |]; try discriminate Hz;
      cbn [as_int accept] in E; unfold throw, ret in E;
      try (injection E as <- <-; discriminate).
    destruct (int_of_number _ _ Hz) as [-> _]. clear Hz.
    destruct (int_column z0) as [q|] eqn:Hcol;
      cbn [accept] in E; unfold throw, ret in E;
      [|injection E as <- <-; discriminate].
    destruct (int_column_some _ _ Hcol) as [-> _].
    destruct (has_id user_id (req_id u) (users db)) eqn:Hu;
      [|injection E as <- <-; discriminate].
    destruct (has_id product_id pid (products db));
      [|injection E as <- <-; discriminate].
    destruct (existsb _ (cartItems db)); simpl in E;
      [injection E as <- <-; discriminate|].
    injection E as <- <-. repeat split; auto.
Qed.

(** The answer "Insufficient stock" comes from the stock check only. *)
Lemma post_cart_insufficient_only (u : ReqUser) (pv qv : JsValue) (db : Db) :
  fst (post_cart u pv qv db) = res 400 (BError "Insufficient stock") ->
  exists pid p q,
    pv = JStr pid /\ find_product pid (products db) = Some p
    /\ int_of qv = Some q /\ product_stock p < q.
Proof.
  unfold post_cart, handle, validationResult. simpl filter.
  destruct (notEmpty pv) eqn:Hp, (isInt_min 1 qv) eqn:Hq; simpl;
    try discriminate.
  destruct pv as [| | | | |pid]; try discriminate. clear Hp.
  unfold bind at 1. simpl accept. unfold ret at 1.
  unfold bind at 1. unfold product_findUnique.
  destruct (find_product pid (products db)) as [p|] eqn:Hprod;
    [|simpl; discriminate].
  unfold lt_value.
  destruct (int_of qv) as [z|] eqn:Hz.
  - destruct (Z.ltb_spec (product_stock p) z) as [Hlt|Hge].
    + intros _. exists pid, p, z. auto.
    + unfold bind at 1. unfold cartItem_findUnique.
      destruct (find _ (cartItems db)) as [e|].
      * unfold bind at 1. unfold cartItem_update. unfold bind at 1.
        destruct (accept _ db); [|simpl; discriminate].
        destruct (update_first _ _ _) as [[c cs]|]; simpl; discriminate.
      * unfold bind at 1. unfold cartItem_create. unfold bind at 1.
        destruct (accept _ db); [|simpl; discriminate].
        destruct (_ && _); simpl; discriminate.
  - unfold isInt_min in Hq. rewrite Hz in Hq. discriminate.
Qed.

(** ** What each request can do to the store *)

(** When the stock loop runs to its end every line had a product with
    enough stock. *)
Lemma check_stock_continue (cs : list CartItem) (ps : list Product)
  (total total' : num) :
  check_stock (map (fun c => (c, find_product (cart_productId c) ps)) cs) total
  = Continue total' ->
  exists lines,
    join ps cs = Some lines
    /\ Forall (fun l => cart_quantity (fst l) <= product_stock (snd l)) lines.
Proof.
  revert total. induction cs as [|c cs IH]; simpl; intros total.
  - intros _. exists []. auto.
  - destruct (find_product (cart_productId c) ps) as [p|]; [|discriminate].
    destruct (Z.ltb_spec (product_stock p) (cart_quantity c)); [discriminate|].
    intros Hrest. destruct (IH _ Hrest) as (ls & -> & Hls).
    exists ((c, p) :: ls). split; [reflexivity|]. constructor; auto.
Qed.


(** X3. No partial order: [POST /api/orders] answers 201, or the store is
    the one the request found (the transaction restores it when a write
    throws). *)
Theorem post_orders_all_or_nothing (u : ReqUser) (db : Db) :
  status (fst (post_orders u db)) = 201 \/ snd (post_orders u db) = db.
Proof.
  destruct (post_orders u db) as [r db'] eqn:E. simpl.
  unfold post_orders, handle in E. unfold bind at 1 in E.
  unfold cartItem_findMany in E.
  destruct (Nat.eqb _ 0); [right; now inversion E|].
  destruct (check_stock _ num_zero) as [total|r0|];
    [|right; now inversion E|right; now inversion E].
  unfold bind at 1 in E. unfold transaction in E. unfold bind at 1 in E.
  destruct (order_create _ _ _ db) as [o db1|db1]; [|right; now inversion E].
  unfold bind at 1 in E.
  destruct (place_items o _ db1) as [[] db2|db2]; [|right; now inversion E].
  left. unfold bind, cartItem_deleteMany, order_findUnique, ret in E.
  now inversion E.
Qed.

(** [POST /api/cart] leaves the store alone, rewrites the quantity of one
    line, or appends a line for a pair that had none. *)
Lemma post_cart_outcome (u : ReqUser) (pv qv : JsValue) (db : Db) :
  snd (post_cart u pv qv db) = db
  \/ (exists before r after q,
        cartItems db = before ++ r :: after
        /\ snd (post_cart u pv qv db)
           = set_cartItems (before ++ set_quantity q r :: after) db)
  \/ (exists id pid q,
        existsb (cart_key (req_id u) pid) (cartItems db) = false
        /\ snd (post_cart u pv qv db)
           = set_cartItems (cartItems db ++ [mkCartItem id (req_id u) pid q])
               db).
Proof.
  destruct (post_cart u pv qv db) as [r0 db'] eqn:E. simpl.
  unfold post_cart, handle, validationResult in E. simpl filter in E.
  destruct (notEmpty pv), (isInt_min 1 qv); simpl in E;
    try (left; now inversion E).
  unfold bind at 1 in E.
  destruct (as_string pv) as [pid|]; [|left; now inversion E].
  simpl accept in E. unfold ret at 1 in E.
  unfold bind at 1 in E. unfold product_findUnique in E.
  destruct (find_product pid (products db)) as [p|]; [|left; now inversion E].
  destruct (lt_value _ _); [left; now inversion E|].
  unfold bind at 1 in E. unfold cartItem_findUnique in E.
  destruct (find _ (cartItems db)) as [e|].
  - unfold bind at 1 in E. unfold cartItem_update in E.
    unfold bind at 1 in E.
    destruct (as_int _) as [q|]; [|left; now inversion E].
    simpl accept in E. unfold ret at 1 in E.
    destruct (update_first _ _ _) as [[c cs]|] eqn:Hup;
      [|left; now inversion E].
    right. left.
    destruct (update_first_some _ _ _ _ _ _ Hup) as (b & r & a & Hl & -> & _).
    exists b, r, a, q. split; [assumption|now inversion E].
  - unfold bind at 1 in E. unfold cartItem_create in E.
    unfold bind at 1 in E.
    destruct (as_int _) as [q|]; [|left; now inversion E].
    simpl accept in E. unfold ret at 1 in E.
    destruct (has_id user_id _ _); [|left; now inversion E].
    destruct (has_id product_id _ _); [|left; now inversion E].
    destruct (existsb _ (cartItems db)) eqn:Hex; [left; now inversion E|].
    right. right. simpl in E. eexists _, pid, q.
    split; [exact Hex|now inversion E].
Qed.

Lemma put_cart_outcome (u : ReqUser) (id : Id) (qv : JsValue) (db : Db) :
  snd (put_cart u id qv db) = db
  \/ exists before r after q,
       cartItems db = before ++ r :: after
       /\ snd (put_cart u id qv db)
          = set_cartItems (before ++ set_quantity q r :: after) db.
Proof.
  destruct (put_cart u id qv db) as [r0 db'] eqn:E. simpl.
  unfold put_cart, handle, validationResult in E. simpl filter in E.
  destruct (isInt_min 1 qv); simpl in E; [|left; now inversion E].
  unfold bind at 1 in E. unfold cartItem_update in E. unfold bind at 1 in E.
  destruct (as_int _) as [q|]; [|left; now inversion E].
  simpl accept in E. unfold ret at 1 in E.
  destruct (update_first _ _ _) as [[c cs]|] eqn:Hup; [|left; now inversion E].
  right. destruct (update_first_some _ _ _ _ _ _ Hup) as (b & r & a & Hl & -> & _).
  exists b, r, a, q. split; [assumption|now inversion E].
Qed.

Lemma delete_cart_outcome (u : ReqUser) (id : Id) (db : Db) :
  snd (delete_cart u id db) = db
  \/ exists before r after,
       cartItems db = before ++ r :: after
       /\ snd (delete_cart u id db) = set_cartItems (before ++ after) db.
Proof.
  destruct (delete_cart u id db) as [r0 db'] eqn:E. simpl.
  unfold delete_cart, handle, bind, cartItem_delete in E.
  destruct (delete_first _ _) as [cs|] eqn:Hd; [|left; now inversion E].
  right. destruct (delete_first_incl _ _ _ _ Hd) as (b & r & a & Hl & ->).
  exists b, r, a. split; [assumption|now inversion E].
Qed.

(** ** Integer literals and [parseInt] *)

Lemma radix_digit_decimal (c : ascii) (d : Z) :
  Str.digit_of c = Some d -> Str.radix_digit 10 c = Some d.
Proof.
  unfold Str.digit_of, Str.radix_digit.
  destruct ((48 <=? Z.of_N (N_of_ascii c)) && (Z.of_N (N_of_ascii c) <=? 57))
    eqn:E; [|discriminate].
  intros [= <-]. apply andb_true_iff in E as [_ E]. apply Z.leb_le in E.
  destruct (Z.ltb_spec (Z.of_N (N_of_ascii c) - 48) 10); [reflexivity|lia].
Qed.

Lemma digits_prefix (s : string) :
  forall acc v,
    Str.digits_value acc s = Some v ->
    Str.prefix_value 10 (Some acc) s = Some v.
Proof.
  induction s as [|c s IH]; simpl; intros acc v H; [assumption|].
  destruct (Str.digit_of c) as [d|] eqn:E; [|discriminate].
  rewrite (radix_digit_decimal c d E). now apply IH.
Qed.

Lemma digits_prefix_start (c : ascii) (s : string) (v : Z) :
  Str.digits_value 0 (String c s) = Some v ->
  Str.prefix_value 10 None (String c s) = Some v.
Proof.
  simpl. destruct (Str.digit_of c) as [d|] eqn:E; [|discriminate].
  rewrite (radix_digit_decimal c d E). apply digits_prefix.
Qed.

(** Decimal digits after a zero are no hexadecimal literal: the letter of
    the prefix is no digit. *)
Lemma unsigned_parse (s : string) (v : Z) :
  Str.unsigned_literal s = Some v -> Str.parse_digits s = Some v.
Proof.
  destruct s as [|c r]; [discriminate|]. unfold Str.unsigned_literal.
  intros H. unfold Str.parse_digits.
  destruct r as [|x r']; [now apply digits_prefix_start|].
  destruct (Ascii.eqb c "0" && (Ascii.eqb x "x" || Ascii.eqb x "X")) eqn:E;
    [|now apply digits_prefix_start].
  exfalso. apply andb_true_iff in E as [E0 Ex].
  apply Ascii.eqb_eq in E0. subst c.
  apply orb_true_iff in Ex as [Ex|Ex]; apply Ascii.eqb_eq in Ex; subst x;
    discriminate H.
Qed.

Lemma digit_not_space (c : ascii) (d : Z) :
  Str.digit_of c = Some d -> Str.is_space c = false.
Proof.
  unfold Str.digit_of, Str.is_space. intros H.
  repeat match goal with
         | |- context [N.eqb (N_of_ascii c) ?k] =>
             destruct (N.eqb_spec (N_of_ascii c) k) as [E|_];
             [rewrite E in H; discriminate H|]
         end.
  reflexivity.
Qed.

Lemma unsigned_starts_with_digit (c : ascii) (r : string) (v : Z) :
  Str.unsigned_literal (String c r) = Some v -> exists d, Str.digit_of c = Some d.
Proof.
  unfold Str.unsigned_literal. simpl.
  destruct (Str.digit_of c) as [d|]; [|discriminate]. now exists d.
Qed.

(** A text that [isInt] accepts is read by [parseInt] as the same integer. *)
Lemma int_literal_parseInt (s : string) (z : Z) :
  Str.int_literal s = Some z -> Str.parseInt s = Some z.
Proof.
  destruct s as [|c r]; [discriminate|]. unfold Str.int_literal, Str.parseInt.
  destruct (Ascii.eqb c "-") eqn:Em.
  - apply Ascii.eqb_eq in Em. subst c. simpl.
    destruct (Str.unsigned_literal r) as [v|] eqn:Hv; [|discriminate].
    intros [= <-]. now rewrite (unsigned_parse r v Hv).
  - destruct (Ascii.eqb c "+") eqn:Ep.
    + apply Ascii.eqb_eq in Ep. subst c. simpl. intros Hv.
      now rewrite (unsigned_parse r z Hv).
    + intros Hv. destruct (unsigned_starts_with_digit c r z Hv) as [d Hd].
      simpl Str.trim_start. rewrite (digit_not_space c d Hd).
      simpl Str.split_sign. rewrite Em, Ep.
      now rewrite (unsigned_parse _ z Hv).
Qed.

Lemma parseInt_int_of (v : JsValue) (z : Z) :
  int_of v = Some z -> parseInt v = Some z.
Proof.
  destruct v as [| | |z0| |s]; simpl; try discriminate;
    [|apply int_literal_parseInt].
  now destruct (prints_plain z0).
Qed.

(** ** Product writes *)

(** A product write keeps the key; the stock is the old one when the key
    [stock] is absent, and the integer the data holds otherwise. *)
Lemma write_product_stock (db : Db) (d : ProductData) (old new : Product) :
  write_product db d old = Some new ->
  product_id new = product_id old
  /\ match d_stock d with
     | None => product_stock new = product_stock old
     | Some z => z = Some (product_stock new)
                 /\ int32 (product_stock new) = true
     end.
Proof.
  unfold write_product.
  repeat match goal with
         | |- opt_bind ?c _ = Some _ -> _ =>
             destruct c eqn:?; [|discriminate]; cbn [opt_bind]
         end.
  intros [= <-]. simpl. split; [reflexivity|].
  match goal with H : column (d_stock d) _ _ = Some _ |- _ =>
    unfold column in H; destruct (d_stock d) as [[n|]|]; cbn [opt_bind] in H
  end.
  - match goal with H : int_column n = Some _ |- _ =>
      destruct (int_column_some _ _ H) as [-> ?] end.
    auto.
  - discriminate.
  - congruence.
Qed.

(** [PUT /api/products/:id] leaves the store alone or rewrites one product
    under its key; the stock of that product changes only to the integer
    that the admin's request gives. *)
Lemma put_product_outcome (u : ReqUser) (id : Id) (b : ProductBody) (db : Db) :
  snd (put_product u id b db) = db
  \/ exists before old after new,
       products db = before ++ old :: after
       /\ snd (put_product u id b db)
          = set_products (before ++ new :: after) db
       /\ product_id new = product_id old
       /\ (product_stock new = product_stock old
           \/ (defined (b_stock b) = true
               /\ parseInt (b_stock b) = Some (product_stock new))).
Proof.
  destruct (put_product u id b db) as [r0 db'] eqn:E. simpl.
  unfold put_product, handle in E.
  destruct (negb _); [left; now inversion E|].
  unfold bind at 1 in E.
  destruct (gender_key_pure (b_gender b) db) as [[g Hg]|Hg]; rewrite Hg in E;
    [|left; now inversion E].
  unfold bind at 1 in E. unfold product_update_data in E.
  destruct (find_product id (products db)) as [old|] eqn:Hold;
    [|left; now inversion E].
  destruct (write_product db _ old) as [new|] eqn:Hw; [|left; now inversion E].
  unfold product_update in E.
  destruct (update_first _ _ _) as [[q ps]|] eqn:Hup; [|left; now inversion E].
  destruct (update_first_some _ _ _ _ _ _ Hup)
    as (bf & r & af & Hl & -> & _ & Hr).
  unfold find_product in Hold. rewrite Hold in Hr. injection Hr as <-.
  destruct (write_product_stock _ _ _ _ Hw) as [Hid Hst]. simpl in Hst.
  right. exists bf, old, af, new. split; [assumption|].
  split; [unfold bind, with_category, ret in E; now inversion E|].
  split; [assumption|].
  unfold spread in Hst.
  destruct (defined (b_stock b)); [right; destruct Hst|left]; auto.
Qed.

(** [POST /api/products] leaves the store alone or appends one product under
    a new key, with the stock that passed the validator. *)
Lemma post_product_outcome (u : ReqUser) (b : ProductBody) (db : Db) :
  snd (post_product u b db) = db
  \/ exists p,
       snd (post_product u b db) = set_products (products db ++ [p]) db
       /\ product_id p = genId (map product_id (products db))
       /\ 0 <= product_stock p.
Proof.
  destruct (post_product u b db) as [r0 db'] eqn:E. simpl.
  unfold post_product, handle, validationResult in E.
  destruct (negb _ && negb _); [left; now inversion E|].
  simpl filter in E.
  destruct (notEmpty (b_name b)), (isDecimal (b_price b)),
    (notEmpty (b_categoryId b)), (isInt_min 0 (b_stock b)) eqn:Hstock;
    simpl in E; try (left; now inversion E).
  unfold bind at 1 in E.
  destruct (gender_key_pure (b_gender b) db) as [[g Hg]|Hg]; rewrite Hg in E;
    [|left; now inversion E].
  unfold bind at 1 in E. unfold product_create in E. simpl d_name in E.
  simpl d_price in E. simpl d_stock in E. simpl d_categoryId in E.
  destruct (spread (defined (b_name b)) _); [|left; now inversion E].
  destruct (spread (defined (b_categoryId b)) _); [|left; now inversion E].
  destruct (write_product db _ _) as [p|] eqn:Hw; [|left; now inversion E].
  destruct (write_product_stock _ _ _ _ Hw) as [Hid Hst]. simpl in Hid, Hst.
  right. exists p. split; [unfold bind, with_category, ret in E; now inversion E|].
  split; [assumption|].
  unfold isInt_min in Hstock.
  destruct (int_of (b_stock b)) as [z|] eqn:Hz; [|discriminate].
  apply Z.leb_le in Hstock.
  rewrite (parseInt_int_of _ _ Hz) in Hst. destruct Hst as [Hst _].
  injection Hst as <-. assumption.
Qed.

Lemma become_seller_frame (u : ReqUser) (db : Db) :
  exists us, snd (become_seller u db) = set_users us db.
Proof.
  exists (users db). destruct (become_seller_outcome u db) as (_ & _ & ->).
  now destruct db.
Qed.

Lemma get_order_frame (u : ReqUser) (id : Id) (db : Db) :
  snd (get_order u id db) = db.
Proof.
  unfold get_order, handle, bind, order_findFirst.
  now destruct (find _ (orders db)).
Qed.

(** ** Constraints kept by the requests *)

Lemma NoDup_snoc {A : Type} (l : list A) (x : A) :
  NoDup l -> ~ In x l -> NoDup (l ++ [x]).
Proof.
  intros Hl Hx. apply NoDup_app. repeat split; auto.
  - constructor; [intros []|constructor].
  - intros y Hy [<-|[]]. auto.
Qed.



Lemma cart_unique_quantity (db : Db) (before after : list CartItem)
  (r : CartItem) (q : Z) :
  cartItems db = before ++ r :: after ->
  cart_lines_unique db ->
  cart_lines_unique (set_cartItems (before ++ set_quantity q r :: after) db).
Proof.
  intros Hl H uid. specialize (H uid). unfold cart_of in *. simpl.
  rewrite Hl in H. rewrite filter_app in *. simpl in *.
  unfold owned_by in *. simpl. destruct (String.eqb (cart_userId r) uid);
    rewrite map_app in *; exact H.
Qed.


Lemma cart_unique_append (db : Db) (id uid pid : Id) (q : Z) :
  existsb (cart_key uid pid) (cartItems db) = false ->
  cart_lines_unique db ->
  cart_lines_unique
    (set_cartItems (cartItems db ++ [mkCartItem id uid pid q]) db).
Proof.
  intros Hex H uid'. specialize (H uid'). unfold cart_of in *. simpl.
  rewrite filter_app. simpl. unfold owned_by at 2. simpl.
  destruct (String.eqb_spec uid uid') as [<-|_];
    [|now rewrite app_nil_r].
  rewrite map_app. simpl. apply NoDup_snoc; [assumption|].
  intros Hin. apply in_map_iff in Hin as (c & Hc & Hin).
  apply filter_In in Hin as [Hin Hown].
  assert (existsb (cart_key uid pid) (cartItems db) = true); [|congruence].
  apply existsb_exists. exists c. split; [assumption|].
  unfold cart_key. unfold owned_by in Hown. rewrite Hown, Hc.
  now rewrite String.eqb_refl.
Qed.





(** ** Additions to a cart that holds the product already *)

Lemma later_lines_differ (db : Db) (before after : list CartItem)
  (e : CartItem) (uid pid : Id) :
  cart_lines_unique db ->
  cartItems db = before ++ e :: after ->
  cart_key uid pid e = true ->
  Forall (fun x => cart_key uid pid x = false) after.
Proof.
  intros Hu Hl He. apply Forall_forall. intros x Hx.
  destruct (cart_key uid pid x) eqn:Hk; [exfalso|reflexivity].
  specialize (Hu uid). unfold cart_of in Hu. rewrite Hl, filter_app in Hu.
  unfold cart_key in He, Hk.
  apply andb_true_iff in He as [Heu Hep], Hk as [Hxu Hxp].
  simpl in Hu. unfold owned_by at 2 in Hu. rewrite Heu in Hu.
  rewrite map_app in Hu. simpl in Hu. apply NoDup_remove_2 in Hu.
  apply Hu. apply in_or_app. right.
  apply String.eqb_eq in Hep, Hxp. rewrite Hep, <- Hxp.
  apply in_map. apply filter_In. auto.
Qed.

(** An accepted addition leaves exactly one line for the pair, holding what
    the cart held before plus the requested quantity. *)
Lemma post_cart_adds (u : ReqUser) (pv qv : JsValue) (db db' : Db)
  (r : Response) :
  cart_keys_unique db -> cart_lines_unique db ->
  post_cart u pv qv db = (r, db') -> status r = 201 ->
  exists pid z line,
    pv = JStr pid /\ qv = JInt z
    /\ filter (cart_key (req_id u) pid) (cartItems db') = [line]
    /\ cart_quantity line = held (req_id u) pid db + z
    /\ cart_keys_unique db' /\ cart_lines_unique db'.
Proof.
  intros Hids Hlines E S.
  destruct (post_cart_accepted _ _ _ _ _ _ E S)
    as (pid & z & p & -> & -> & _ & _ & _ & Hw).
  exists pid, z. unfold held.
  destruct (find (cart_key (req_id u) pid) (cartItems db)) as [e|] eqn:He.
  - destruct Hw as (c' & cs' & Hup & ->).
    destruct (find_split _ _ _ _ He) as (bf & af & Hl & Hk & Hbf).
    assert (Hbid : Forall (fun x => String.eqb (cart_id x) (cart_id e) = false)
                          bf).
    { unfold cart_keys_unique in Hids. rewrite Hl, map_app in Hids.
      simpl in Hids. apply NoDup_remove_2 in Hids.
      apply Forall_forall. intros x Hx. apply String.eqb_neq. intros Heq.
      apply Hids. apply in_or_app. left. rewrite <- Heq. now apply in_map. }
    rewrite Hl in Hup.
    rewrite (update_first_first _ _ _ bf e af Hbid (String.eqb_refl _)) in Hup.
    injection Hup as <- <-.
    exists (set_quantity (cart_quantity e + z) e). repeat split.
    + simpl cartItems. rewrite filter_app. simpl.
      rewrite (filter_none _ _ bf Hbf).
      change (cart_key (req_id u) pid (set_quantity (cart_quantity e + z) e))
        with (cart_key (req_id u) pid e). rewrite Hk.
      now rewrite (filter_none _ _ af
                     (later_lines_differ db bf af e _ _ Hlines Hl Hk)).
    + unfold cart_keys_unique in *. simpl. rewrite Hl in Hids.
      rewrite map_app in *. exact Hids.
    + now apply cart_unique_quantity.
  - destruct Hw as [_ ->].
    exists (mkCartItem (genId (map cart_id (cartItems db))) (req_id u) pid z).
    assert (Hnone : Forall (fun x => cart_key (req_id u) pid x = false)
                           (cartItems db)) by (now apply find_none_forall).
    repeat split.
    + simpl cartItems. rewrite filter_app, (filter_none _ _ _ Hnone). simpl.
      unfold cart_key. simpl. now rewrite !String.eqb_refl.
    + unfold cart_keys_unique in *. simpl. rewrite map_app. simpl.
      apply NoDup_snoc; [assumption|apply genId_fresh].
    + apply cart_unique_append; [|assumption].
      destruct (existsb _ (cartItems db)) eqn:Hex; [|reflexivity].
      apply existsb_exists in Hex as (x & Hx & Hkx).
      rewrite Forall_forall in Hnone. rewrite (Hnone x Hx) in Hkx.
      discriminate.
Qed.

(** X2. Two accepted additions of the same product, whatever the cart held:
    one line for the pair, with the quantity held before plus the two
    requested quantities. *)
Theorem post_cart_twice_adds
  (u : ReqUser) (productId quantity1 quantity2 : JsValue) (db db1 db2 : Db)
  (r1 r2 : Response) :
  cart_keys_unique db -> cart_lines_unique db ->
  post_cart u productId quantity1 db = (r1, db1) -> status r1 = 201 ->
  post_cart u productId quantity2 db1 = (r2, db2) -> status r2 = 201 ->
  exists pid z1 z2 line,
    productId = JStr pid /\ quantity1 = JInt z1 /\ quantity2 = JInt z2
    /\ filter (cart_key (req_id u) pid) (cartItems db2) = [line]
    /\ cart_quantity line = held (req_id u) pid db + z1 + z2.
Proof.
  intros Hids Hlines E1 S1 E2 S2.
  destruct (post_cart_adds _ _ _ _ _ _ Hids Hlines E1 S1)
    as (pid & z1 & l1 & -> & -> & Hf1 & Hq1 & Hids1 & Hlines1).
  destruct (post_cart_adds _ _ _ _ _ _ Hids1 Hlines1 E2 S2)
    as (pid' & z2 & l2 & Hpid & -> & Hf2 & Hq2 & _ & _).
  injection Hpid as <-.
  exists pid, z1, z2, l2. repeat split; [assumption|].
  rewrite Hq2, <- Hq1. f_equal. unfold held.
  destruct (find _ (cartItems db1)) as [e|] eqn:He.
  - destruct (find_split _ _ _ _ He) as (bf & af & Hl & Hk & Hbf).
    rewrite Hl, filter_app, (filter_none _ _ bf Hbf) in Hf1.
    simpl in Hf1. rewrite Hk in Hf1. now injection Hf1 as <-.
  - apply find_none_forall in He. rewrite (filter_none _ _ _ He) in Hf1.
    discriminate.
Qed.

(** ** Two additions of the same product *)

Lemma existsb_find_none {A : Type} (p : A -> bool) (l : list A) :
  find p l = None -> existsb p l = false.
Proof.
  induction l as [|x l IH]; simpl; [reflexivity|].
  destruct (p x); [discriminate|auto].
Qed.

Lemma update_first_found {A : Type} (p : A -> bool) (f : A -> A)
  (l : list A) (x : A) :
  In x l -> p x = true -> update_first p f l <> None.
Proof.
  induction l as [|y l IH]; simpl; [tauto|].
  intros Hin Hx. destruct (p y) eqn:Hy; [discriminate|].
  destruct Hin as [->|Hin]; [congruence|].
  specialize (IH Hin Hx).
  destruct (update_first p f l) as [[r' l']|]; [discriminate|congruence].
Qed.

(** The quantity held is the quantity of the one line of the pair. *)
Lemma held_single (uid pid : Id) (db : Db) (line : CartItem) :
  filter (cart_key uid pid) (cartItems db) = [line] ->
  held uid pid db = cart_quantity line.
Proof.
  intros Hf. unfold held.
  destruct (find _ (cartItems db)) as [e|] eqn:He.
  - destruct (find_split _ _ _ _ He) as (bf & af & Hl & Hk & Hbf).
    rewrite Hl, filter_app, (filter_none _ _ bf Hbf) in Hf.
    simpl in Hf. rewrite Hk in Hf. now injection Hf as <-.
  - apply find_none_forall in He. rewrite (filter_none _ _ _ He) in Hf.
    discriminate.
Qed.

Lemma held_nonneg (uid pid : Id) (db : Db) :
  quantities_positive db -> 0 <= held uid pid db.
Proof.
  intros H. unfold held.
  destruct (find _ (cartItems db)) as [e|] eqn:He; [|lia].
  apply find_some in He as [He _]. specialize (H e He). lia.
Qed.

(** [POST /api/cart] writes cart lines only. *)
Lemma post_cart_frame (u : ReqUser) (pv qv : JsValue) (db : Db) :
  users (snd (post_cart u pv qv db)) = users db
  /\ products (snd (post_cart u pv qv db)) = products db.
Proof.
  destruct (post_cart_outcome u pv qv db)
    as [->|[(bf & r & af & q & _ & ->)|(id & pid & q & _ & ->)]]; auto.
Qed.

(** Two accepted additions, with what the handler checked on the way. *)
Lemma post_cart_adds_twice (u : ReqUser) (pv q1 q2 : JsValue)
  (db db1 db2 : Db) (r1 r2 : Response) :
  cart_keys_unique db -> cart_lines_unique db ->
  post_cart u pv q1 db = (r1, db1) -> status r1 = 201 ->
  post_cart u pv q2 db1 = (r2, db2) -> status r2 = 201 ->
  exists pid z1 z2 p line,
    pv = JStr pid /\ q1 = JInt z1 /\ q2 = JInt z2
    /\ find_product pid (products db) = Some p
    /\ 1 <= z1 <= product_stock p /\ 1 <= z2 <= product_stock p
    /\ products db2 = products db
    /\ filter (cart_key (req_id u) pid) (cartItems db2) = [line]
    /\ cart_quantity line = held (req_id u) pid db + z1 + z2.
Proof.
  intros Hids Hlines E1 S1 E2 S2.
  destruct (post_cart_adds _ _ _ _ _ _ Hids Hlines E1 S1)
    as (pid & z1 & l1 & -> & -> & Hf1 & Hq1 & Hids1 & Hlines1).
  destruct (post_cart_adds _ _ _ _ _ _ Hids1 Hlines1 E2 S2)
    as (pid' & z2 & l2 & Hpid & -> & Hf2 & Hq2 & _ & _).
  injection Hpid as <-.
  destruct (post_cart_accepted _ _ _ _ _ _ E1 S1)
    as (pid1 & y1 & p & Hp1 & Hy1 & Hz1 & Hp & Hs1 & _).
  injection Hp1 as <-. injection Hy1 as <-.
  destruct (post_cart_accepted _ _ _ _ _ _ E2 S2)
    as (pid2 & y2 & p' & Hp2 & Hy2 & Hz2 & Hp' & Hs2 & _).
  injection Hp2 as <-. injection Hy2 as <-.
  pose proof (post_cart_frame u (JStr pid) (JInt z1) db) as [_ Hps1].
  rewrite E1 in Hps1. simpl in Hps1.
  pose proof (post_cart_frame u (JStr pid) (JInt z2) db1) as [_ Hps2].
  rewrite E2 in Hps2. simpl in Hps2.
  rewrite Hps1, Hp in Hp'. injection Hp' as <-.
  exists pid, z1, z2, p, l2. repeat split; try assumption.
  - congruence.
  - rewrite Hq2, (held_single _ _ _ _ Hf1), Hq1. reflexivity.
Qed.

(** A request with a product id, for a product of the store, by a user of
    the store, with an integer number of at least 1 within the stock that
    leaves the line within the 32-bit column, is accepted. *)
Lemma post_cart_accepts (u : ReqUser) (pid : Id) (z : Z) (db : Db)
  (p : Product) :
  has_id user_id (req_id u) (users db) = true ->
  pid <> "" ->
  find_product pid (products db) = Some p ->
  1 <= z <= product_stock p ->
  0 <= held (req_id u) pid db ->
  held (req_id u) pid db + z <= 2147483647 ->
  exists r db',
    post_cart u (JStr pid) (JInt z) db = (r, db') /\ status r = 201.
Proof.
  intros Hu Hpid Hp [Hz Hs] Hh Hmax.
  assert (H32 : int32 z = true) by (apply int32_bounds; lia).
  assert (H32' : int32 (held (req_id u) pid db + z) = true)
    by (apply int32_bounds; lia).
  unfold post_cart, handle, validationResult. simpl filter.
  rewrite (isInt_min_number 1 z H32 Hz).
  replace (notEmpty (JStr pid)) with true
    by (destruct pid; [congruence|reflexivity]).
  simpl. unfold bind at 1. unfold ret at 1.
  unfold bind at 1. unfold product_findUnique. rewrite Hp.
  unfold lt_value, int_of. rewrite (int32_plain z H32).
  destruct (Z.ltb_spec (product_stock p) z); [lia|].
  unfold bind at 1. unfold cartItem_findUnique. unfold held in H32'.
  destruct (find (cart_key (req_id u) pid) (cartItems db)) as [e|] eqn:He.
  - unfold bind at 1. unfold cartItem_update. unfold bind at 1.
    cbn [plus_value as_int]. unfold int_column. rewrite H32'.
    cbn [accept]. unfold ret at 1.
    destruct (update_first _ (set_quantity _) (cartItems db))
      as [[c cs]|] eqn:Hup.
    + eexists _, _. split; reflexivity.
    + exfalso. apply find_some in He as [Hin _].
      apply (update_first_found _ _ _ e Hin (String.eqb_refl _) Hup).
  - unfold bind at 1. unfold cartItem_create. unfold bind at 1.
    cbn [as_int]. unfold int_column. rewrite H32.
    cbn [accept]. unfold ret at 1.
    rewrite Hu, (existsb_find_none _ _ He).
    rewrite has_id_find_product by (rewrite Hp; discriminate).
    simpl. eexists _, _. split; reflexivity.
Qed.

(** C5.  Two additions of the same product through [POST /api/cart] that
    are both answered 201 (both quantities were then integer numbers) leave
    exactly one line for that user and product, never two; its quantity is
    the quantity that the cart held for the pair before the two calls (0
    when it held none) plus the two requested quantities.  Both calls are
    answered 201 when the user and the product are in the store, each
    quantity is an integer number of at least 1 within the stock, and the
    quantity of the line stays within the 32-bit column. *)
Theorem post_cart_merges_quantity :
  (forall (u : ReqUser) (productId quantity1 quantity2 : JsValue)
          (db db1 db2 : Db) (r1 r2 : Response),
     cart_keys_unique db -> cart_lines_unique db ->
     post_cart u productId quantity1 db = (r1, db1) -> status r1 = 201 ->
     post_cart u productId quantity2 db1 = (r2, db2) -> status r2 = 201 ->
     exists pid z1 z2 line,
       productId = JStr pid /\ quantity1 = JInt z1 /\ quantity2 = JInt z2
       /\ filter (cart_key (req_id u) pid) (cartItems db2) = [line]
       /\ cart_userId line = req_id u /\ cart_productId line = pid
       /\ cart_quantity line = held (req_id u) pid db + z1 + z2)
  /\ (forall (u : ReqUser) (pid : Id) (z1 z2 : Z) (db : Db) (p : Product),
        cart_keys_unique db -> cart_lines_unique db ->
        quantities_positive db ->
        has_id user_id (req_id u) (users db) = true ->
        pid <> "" ->
        find_product pid (products db) = Some p ->
        1 <= z1 <= product_stock p -> 1 <= z2 <= product_stock p ->
        held (req_id u) pid db + z1 + z2 <= 2147483647 ->
        exists r1 db1 r2 db2,
          post_cart u (JStr pid) (JInt z1) db = (r1, db1)
          /\ status r1 = 201
          /\ post_cart u (JStr pid) (JInt z2) db1 = (r2, db2)
          /\ status r2 = 201).
Proof.
  split.
  - intros u pv q1 q2 db db1 db2 r1 r2 Hids Hlines E1 S1 E2 S2.
    destruct (post_cart_adds_twice _ _ _ _ _ _ _ _ _ Hids Hlines E1 S1 E2 S2)
      as (pid & z1 & z2 & p & line & -> & -> & -> & _ & _ & _ & _ & Hf & Hq).
    exists pid, z1, z2, line. repeat split; try assumption.
    + assert (Hin : In line (filter (cart_key (req_id u) pid) (cartItems db2)))
        by (rewrite Hf; simpl; auto).
      apply filter_In in Hin as [_ Hk]. unfold cart_key in Hk.
      apply andb_true_iff in Hk as [Hk _]. now apply String.eqb_eq.
    + assert (Hin : In line (filter (cart_key (req_id u) pid) (cartItems db2)))
        by (rewrite Hf; simpl; auto).
      apply filter_In in Hin as [_ Hk]. unfold cart_key in Hk.
      apply andb_true_iff in Hk as [_ Hk]. now apply String.eqb_eq.
  - intros u pid z1 z2 db p Hids Hlines Hpos Hu Hpid Hp Hz1 Hz2 Hmax.
    pose proof (held_nonneg (req_id u) pid db Hpos) as Hh.
    destruct (post_cart_accepts u pid z1 db p Hu Hpid Hp Hz1 Hh)
      as (r1 & db1 & E1 & S1); [lia|].
    destruct (post_cart_adds _ _ _ _ _ _ Hids Hlines E1 S1)
      as (pid' & y1 & l1 & Hpid' & Hy1 & Hf1 & Hq1 & _ & _).
    injection Hpid' as <-. injection Hy1 as <-.
    pose proof (post_cart_frame u (JStr pid) (JInt z1) db) as [Hus Hps].
    rewrite E1 in Hus, Hps. simpl in Hus, Hps.
    destruct (post_cart_accepts u pid z2 db1 p) as (r2 & db2 & E2 & S2).
    + now rewrite Hus.
    + assumption.
    + now rewrite Hps.
    + assumption.
    + rewrite (held_single _ _ _ _ Hf1), Hq1. lia.
    + rewrite (held_single _ _ _ _ Hf1), Hq1. lia.
    + exists r1, db1, r2, db2. auto.
Qed.

(** C9, as the handler has it.  First, [POST /api/cart] answers 400
    "Insufficient stock" only when the product exists and its stock is below
    the requested quantity.  Second, a request that passes the validators
    of the route (a product id that is not empty, a quantity that is an
    integer of at least 1) gets that answer, and nothing is written,
    whenever the product exists and its stock is below the requested
    quantity; a request that fails a validator gets 400 with the validation
    errors, whatever the stock.  Third, the quantity already in the cart is
    not counted: after two accepted additions of [q] with a stock below
    [q + q], the single line of the pair holds what the cart held before
    plus [q + q], more than the stock, while [q] alone is within it. *)
Theorem post_cart_stock_check :
  (forall (u : ReqUser) (pv qv : JsValue) (db : Db),
     fst (post_cart u pv qv db) = res 400 (BError "Insufficient stock") ->
     exists pid p q,
       pv = JStr pid /\ find_product pid (products db) = Some p
       /\ int_of qv = Some q /\ product_stock p < q)
  /\ (forall (u : ReqUser) (pv qv : JsValue) (db : Db) pid p q,
        notEmpty pv = true -> isInt_min 1 qv = true ->
        pv = JStr pid -> find_product pid (products db) = Some p ->
        int_of qv = Some q -> product_stock p < q ->
        post_cart u pv qv db
        = (res 400 (BError "Insufficient stock"), db))
  /\ (forall (u : ReqUser) (pv qv : JsValue) (db : Db),
        notEmpty pv && isInt_min 1 qv = false ->
        exists msgs, post_cart u pv qv db = (res 400 (BValidation msgs), db))
  /\ (forall (u : ReqUser) (pid : Id) (q : Z) (db db1 db2 : Db)
             (r1 r2 : Response) (p : Product),
        cart_keys_unique db -> cart_lines_unique db ->
        quantities_positive db ->
        find_product pid (products db) = Some p ->
        product_stock p < q + q ->
        post_cart u (JStr pid) (JInt q) db = (r1, db1) -> status r1 = 201 ->
        post_cart u (JStr pid) (JInt q) db1 = (r2, db2) -> status r2 = 201 ->
        exists line,
          filter (cart_key (req_id u) pid) (cartItems db2) = [line]
          /\ cart_quantity line = held (req_id u) pid db + q + q
          /\ find_product pid (products db2) = Some p
          /\ q <= product_stock p
          /\ product_stock p < cart_quantity line).
Proof.
  split; [exact post_cart_insufficient_only|]. split.
  - intros u pv qv db pid p q Hp Hq -> Hprod Hz Hlt.
    unfold post_cart, handle, validationResult. simpl filter.
    rewrite Hp, Hq. simpl.
    unfold bind at 1. unfold ret at 1.
    unfold bind at 1. unfold product_findUnique. rewrite Hprod.
    unfold lt_value. rewrite Hz.
    destruct (Z.ltb_spec (product_stock p) q); [reflexivity|lia].
  - split.
    { intros u pv qv db Hv.
      unfold post_cart, handle, validationResult. simpl filter.
      destruct (notEmpty pv), (isInt_min 1 qv); try discriminate Hv;
        simpl; eexists; reflexivity. }
    intros u pid q db db1 db2 r1 r2 p Hids Hlines Hpos Hprod Hlt E1 S1 E2 S2.
    destruct (post_cart_adds_twice _ _ _ _ _ _ _ _ _ Hids Hlines E1 S1 E2 S2)
      as (pid' & z1 & z2 & p' & line & Hpid & Hq1 & Hq2 & Hp' & Hs & _ & Hps
          & Hf & Hq).
    injection Hpid as <-. injection Hq1 as <-. injection Hq2 as <-.
    rewrite Hprod in Hp'. injection Hp' as <-.
    pose proof (held_nonneg (req_id u) pid db Hpos) as Hh.
    exists line. repeat split; try assumption.
    + now rewrite Hps.
    + lia.
    + lia.
Qed.



End Properties.

(** * The handlers on sample data *)

Section Runs.
Import Exact Sample.

Lemma shop_keys_unique (cs : list CartItem) :
  product_keys_unique (set_cartItems cs shop).
Proof.
  unfold product_keys_unique. simpl.
  constructor; [intros [H|[]]; discriminate H|].
  constructor; [intros []|constructor].
Defined.

Lemma shop_with_cart_unique : cart_lines_unique shop_with_cart.
Proof.
  intros uid. unfold cart_of, shop_with_cart.
  cbn [cartItems set_cartItems filter]. unfold owned_by.
  cbn [cart_userId].
  destruct (String.eqb "u1" uid); simpl.
  - constructor; [intros [H|[]]; discriminate H|].
    constructor; [intros []|constructor].
  - constructor.
Defined.

Lemma shop_with_cart_keys : cart_keys_unique shop_with_cart.
Proof.
  unfold cart_keys_unique. simpl.
  constructor; [intros [H|[]]; discriminate H|].
  constructor; [intros []|constructor].
Defined.



(** Alice asks for three desks when two are left. *)
Lemma post_orders_insufficient_stock_witness :
  exists c p,
    In c (cart_of "u1" shop_short)
    /\ find_product (cart_productId c) (products shop_short) = Some p
    /\ product_stock p < cart_quantity c
    /\ post_orders alice shop_short
       = (res 400 (BError ("Insufficient stock for " ++ product_name p)%string),
          shop_short).
Proof.
  apply (post_orders_insufficient_stock alice shop_short).
  - intros c [<-|[<-|[]]]; discriminate.
  - exists (mkCartItem "c2" "u1" "p2" 3), desk.
    repeat split; simpl; auto.
Defined.

(** Bob has no line in the cart table, Alice has two. *)
Lemma post_orders_empty_cart_witness :
  post_orders bob shop_with_cart
  = (res 400 (BError "Cart is empty"), shop_with_cart).
Proof.
  apply (post_orders_empty_cart bob shop_with_cart). reflexivity.
Defined.

(** Alice holds one desk and adds one, then one more: both calls are
    answered 201 and her one line of desks holds three. *)
Lemma post_cart_merges_quantity_witness :
  exists r1 db1 r2 db2 line,
    post_cart alice (JStr "p2") (JInt 1) shop_with_cart = (r1, db1)
    /\ status r1 = 201
    /\ post_cart alice (JStr "p2") (JInt 1) db1 = (r2, db2)
    /\ status r2 = 201
    /\ filter (cart_key "u1" "p2") (cartItems db2) = [line]
    /\ cart_quantity line = 3.
Proof.
  destruct post_cart_merges_quantity as [Hrow Haccept].
  destruct (Haccept alice "p2" 1 1 shop_with_cart desk)
    as (r1 & db1 & r2 & db2 & E1 & S1 & E2 & S2).
  - exact shop_with_cart_keys.
  - exact shop_with_cart_unique.
  - intros c [<-|[<-|[]]]; simpl; lia.
  - reflexivity.
  - discriminate.
  - reflexivity.
  - simpl. lia.
  - simpl. lia.
  - simpl. lia.
  - destruct (Hrow alice (JStr "p2") (JInt 1) (JInt 1) shop_with_cart db1 db2
                r1 r2 shop_with_cart_keys shop_with_cart_unique E1 S1 E2 S2)
      as (pid & z1 & z2 & line & Hp & Hz1 & Hz2 & Hf & _ & _ & Hq).
    injection Hp as <-. injection Hz1 as <-. injection Hz2 as <-.
    exists r1, db1, r2, db2, line. repeat split; assumption.
Defined.

(** C5 as it is worded, at two inputs.  Alice holds one desk and adds one
    twice: both calls pass every check and are answered 201, and the one
    line holds 3, not the sum 1 + 1.  Alice sends the quantity as the text
    "1", twice: each call passes the validators, the product exists and
    its stock covers the quantity, yet the answer is 500 and the cart has
    no line for the pair. *)
Lemma post_cart_sum_not_kept :
  (status (fst (post_cart alice (JStr "p2") (JInt 1) shop_with_cart)) = 201
   /\ status (fst (post_cart alice (JStr "p2") (JInt 1)
                     (snd (post_cart alice (JStr "p2") (JInt 1)
                             shop_with_cart)))) = 201
   /\ map cart_quantity
        (filter (cart_key "u1" "p2")
           (cartItems
              (snd (post_cart alice (JStr "p2") (JInt 1)
                      (snd (post_cart alice (JStr "p2") (JInt 1)
                              shop_with_cart))))))
      = [3]
   /\ 3 <> 1 + 1)
  /\ (notEmpty (JStr "p2") = true
      /\ isInt_min 1 (JStr "1") = true
      /\ find_product "p2" (products shop) = Some desk
      /\ lt_value (product_stock desk) (JStr "1") = false
      /\ post_cart alice (JStr "p2") (JStr "1") shop
         = (res 500 (BError "Server error"), shop)
      /\ filter (cart_key "u1" "p2")
           (cartItems
              (snd (post_cart alice (JStr "p2") (JStr "1")
                      (snd (post_cart alice (JStr "p2") (JStr "1") shop)))))
         = []).
Proof.
  repeat split. discriminate.
Qed.

(** Alice is no admin. *)
Lemma put_product_admin_only_witness :
  put_product alice "p1" (with_price (JStr "1.00")) shop
  = (res 403 (BError "Access denied. Admin only."), shop).
Proof.
  apply (put_product_admin_only alice "p1" (with_price (JStr "1.00")) shop).
  discriminate.
Defined.

(** Three desks are refused when two are left; Alice, who holds one desk,
    adds two desks twice: both are accepted and leave a line of five. *)
Lemma post_cart_stock_check_witness :
  post_cart alice (JStr "p2") (JInt 3) shop
  = (res 400 (BError "Insufficient stock"), shop)
  /\ exists line,
       filter (cart_key "u1" "p2")
         (cartItems
            (snd (post_cart alice (JStr "p2") (JInt 2)
                    (snd (post_cart alice (JStr "p2") (JInt 2)
                            shop_with_cart)))))
       = [line]
       /\ cart_quantity line = 5
       /\ product_stock desk < cart_quantity line.
Proof.
  destruct post_cart_stock_check as (_ & Hcheck & _ & Htwice). split.
  - apply (Hcheck alice (JStr "p2") (JInt 3) shop "p2" desk 3);
      reflexivity.
  - destruct (Htwice alice "p2" 2 shop_with_cart
                (snd (post_cart alice (JStr "p2") (JInt 2) shop_with_cart))
                (snd (post_cart alice (JStr "p2") (JInt 2)
                        (snd (post_cart alice (JStr "p2") (JInt 2)
                                shop_with_cart))))
                (fst (post_cart alice (JStr "p2") (JInt 2) shop_with_cart))
                (fst (post_cart alice (JStr "p2") (JInt 2)
                        (snd (post_cart alice (JStr "p2") (JInt 2)
                                shop_with_cart))))
                desk)
      as (line & Hline & Hq & _ & _ & Hlt); try reflexivity.
    + exact shop_with_cart_keys.
    + exact shop_with_cart_unique.
    + intros c [<-|[<-|[]]]; simpl; lia.
    + exists line. auto.
Defined.

(** C10, at the input that breaks it.  The admin of the shop asks to
    become a seller: the answer is 500 "Server error" and the row of the
    admin keeps the role ADMIN, where the claim has it set to SELLER.  The
    same holds for every user whose role is not 'SELLER', in every store:
    no request to this route writes anything. *)
Theorem become_seller_never_sets_role :
  find (fun x => String.eqb (user_id x) (req_id root)) (users shop)
  = Some (mkUser "u3" "root@example.com" None ADMIN)
  /\ become_seller root shop = (res 500 (BError "Server error"), shop)
  /\ map user_role (users (snd (become_seller root shop)))
     = [USER; USER; ADMIN]
  /\ (forall (u : ReqUser) (db : Db),
        req_role u <> "SELLER" ->
        fst (become_seller u db) = res 500 (BError "Server error")
        /\ users (snd (become_seller u db)) = users db).
Proof.
  repeat split.
  - now apply become_seller_outcome.
  - destruct (become_seller_outcome u db) as (_ & _ & ->). reflexivity.
Qed.

(** Alice holds one desk already and adds one, then one more: her line of
    desks holds three. *)
Lemma post_cart_twice_adds_witness :
  exists line,
    filter (cart_key "u1" "p2")
      (cartItems
         (snd (post_cart alice (JStr "p2") (JInt 1)
                 (snd (post_cart alice (JStr "p2") (JInt 1) shop_with_cart)))))
    = [line]
    /\ cart_quantity line = 3.
Proof.
  destruct (post_cart_twice_adds alice (JStr "p2") (JInt 1) (JInt 1)
              shop_with_cart
              (snd (post_cart alice (JStr "p2") (JInt 1) shop_with_cart))
              (snd (post_cart alice (JStr "p2") (JInt 1)
                      (snd (post_cart alice (JStr "p2") (JInt 1)
                              shop_with_cart))))
              (fst (post_cart alice (JStr "p2") (JInt 1) shop_with_cart))
              (fst (post_cart alice (JStr "p2") (JInt 1)
                      (snd (post_cart alice (JStr "p2") (JInt 1)
                              shop_with_cart)))))
    as (pid & z1 & z2 & line & Hp & Hz1 & Hz2 & Hline & Hq);
    try reflexivity.
  - unfold cart_keys_unique. simpl.
    constructor; [intros [H|[]]; discriminate H|].
    constructor; [intros []|constructor].
  - apply shop_with_cart_unique.
  - injection Hp as <-. injection Hz1 as <-. injection Hz2 as <-.
    exists line. split; [exact Hline|exact Hq].
Defined.

(** A quantity of 2.5 against a stock of 2: the product exists and the stock
    is below the requested quantity, yet the answer is the validation error
    of the route, not "Insufficient stock". *)
Lemma post_cart_fraction_rejected :
  find_product "p2" (products shop) = Some desk
  /\ product_stock desk = 2
  /\ ltb (mkDecimal 2 0) (mkDecimal 25 1) = true
  /\ post_cart alice (JStr "p2") (JNum (Some (mkDecimal 25 1))) shop
     = (res 400 (BValidation ["Quantity must be at least 1"]), shop)
  /\ fst (post_cart alice (JStr "p2") (JNum (Some (mkDecimal 25 1))) shop)
     <> res 400 (BError "Insufficient stock").
Proof.
  repeat split. discriminate.
Qed.

Definition chair (stock : JsValue) : ProductBody :=
  mkProductBody (JStr "Chair") JUndefined (JStr "12.50") stock JUndefined
    (JStr "k1") JUndefined JUndefined JUndefined JUndefined.

(** C3, at the input that breaks it.  The shop starts with no negative
    stock.  An admin's [PUT /api/products/p1] with [stock: -1] is answered
    200 and leaves the lamp with a stock of -1, although the same stock is
    refused with 400 by the validator of [POST /api/products]. *)
Theorem put_product_negative_stock :
  consistent shop
  /\ put_product root "p1" (with_stock (JInt (-1))) shop
     = (res 200 (BProduct (set_stock (-1) lamp)
                          (Some (mkCategory "k1" "Home" "home"))),
        set_products [set_stock (-1) lamp; desk] shop)
  /\ products (run [PutProduct root "p1" (with_stock (JInt (-1)))] shop)
     = [set_stock (-1) lamp; desk]
  /\ post_product root (chair (JInt (-1))) shop
     = (res 400 (BValidation ["Stock must be a non-negative integer"]), shop).
Proof.
  split; [|repeat split].
  split; [apply (shop_keys_unique [])|]. split.
  - intros uid. constructor.
  - intros p [<-|[<-|[]]]; simpl; lia.
Qed.


(** The same run, computed: Alice's order takes two lamps, Bob's the three
    that are left. *)
Example run_stock_values :
  map product_stock
    (products
       (run [ PostCart bob (JStr "p1") (JInt 3);
              PostOrders alice;
              PostOrders bob;
              PutProduct root "p2" (with_stock (JInt 0)) ]
            shop_with_cart))
  = [0; 0].
Proof. reflexivity. Qed.

(** After Alice's order the admin raises the price of the lamp: the product
    shows the new price, the order item and the order the old ones. *)
Example price_snapshot_run :
  let db1 := snd (post_orders alice shop_with_cart) in
  let db2 := snd (put_product root "p1" (with_price (JStr "99.00")) db1) in
  map product_price (products db2) = [price "99.00"; price "19.99"]
  /\ map item_price (orderItems db2) = [price "10.00"; price "19.99"]
  /\ map order_total (orders db2) = [price "39.99"].
Proof. repeat split. Qed.

(** Bob asks for Alice's order and for an order that does not exist: the
    two answers are the same. *)
Example get_order_other_user :
  let db1 := snd (post_orders alice shop_with_cart) in
  map order_id (orders db1) = ["c"]
  /\ status (fst (get_order alice "c" db1)) = 200
  /\ fst (get_order bob "c" db1) = res 404 (BError "Order not found")
  /\ fst (get_order bob "none" db1) = res 404 (BError "Order not found").
Proof. repeat split. Qed.

(** A quantity sent as text passes the validator and the stock check, and
    is then refused by the ORM: the answer is 500 and nothing is written. *)
Example post_cart_text_quantity :
  post_cart alice (JStr "p2") (JStr "2") shop
  = (res 500 (BError "Server error"), shop).
Proof. reflexivity. Qed.

(** A quantity text with leading zeroes passes the validator and is
    compared by its value: seven desks against a stock of two. *)
Example post_cart_leading_zeroes :
  post_cart alice (JStr "p2") (JStr "007") shop
  = (res 400 (BError "Insufficient stock"), shop).
Proof. reflexivity. Qed.

(** The text "0" is truthy: as a price it is written, where the number 0
    is ignored. *)
Example put_product_price_zero :
  map product_price
    (products (snd (put_product root "p1" (with_price (JStr "0")) shop)))
  = [price "0"; price "19.99"]
  /\ map product_price
       (products (snd (put_product root "p1" (with_price (JInt 0)) shop)))
     = [price "10.00"; price "19.99"].
Proof. split; reflexivity. Qed.

(** A number from [1e21] on is written with an exponent: [isInt] refuses
    it, and [parseInt] reads the digit before the exponent. *)
Example number_with_exponent :
  put_cart alice "c1" (JInt (10 ^ 21)) shop_with_cart
  = (res 400 (BValidation ["Quantity must be at least 1"]), shop_with_cart)
  /\ map product_stock
       (products
          (snd (put_product root "p1" (with_stock (JInt (10 ^ 21))) shop)))
     = [1; 2]
  /\ put_product root "p1" (with_stock (JInt 2147483648)) shop
     = (res 500 (BError "Server error"), shop).
Proof. repeat split. Qed.

(** A price that is no number is refused by the ORM. *)
Example put_product_price_text :
  put_product root "p1" (with_price (JStr "abc")) shop
  = (res 500 (BError "Server error"), shop).
Proof. reflexivity. Qed.

(** A stock sent as text with leading zeroes is created as its value. *)
Example post_product_text_stock :
  map product_stock
    (products (snd (post_product root (chair (JStr "007")) shop)))
  = [5; 2; 7].
Proof. reflexivity. Qed.

End Runs.

(** ** The validators and [parseInt] on sample texts *)

Example int_literal_plain : Str.int_literal "42" = Some 42.
Proof. reflexivity. Qed.

Example int_literal_sign : Str.int_literal "-7" = Some (-7).
Proof. reflexivity. Qed.

Example int_literal_leading_zero : Str.int_literal "007" = Some 7.
Proof. reflexivity. Qed.

Example parseInt_prefix : Str.parseInt "  12px" = Some 12.
Proof. reflexivity. Qed.

Example parseInt_hex : Str.parseInt "0x1f" = Some 31.
Proof. reflexivity. Qed.

Example parseInt_nan : Str.parseInt "abc" = None.
Proof. reflexivity. Qed.

Example is_decimal_samples :
  map Str.is_decimal ["19.99"; ".5"; "-3"; "5."; "-"; "1e5"; ""]
  = [true; true; true; false; false; false; false].
Proof. reflexivity. Qed.

(** * The other routes: reading back what was written *)

Section MoreProperties.
Context {N : JsNumber} {F : JsFixed N} {G : IdGen}.

(** ** Orders, read back *)

(** The loop of the transaction writes products and order items only. *)
Lemma place_items_frame (o : Order)
  (lines : list (CartItem * option Product)) :
  forall db db',
    place_items o lines db = Done tt db' ->
    users db' = users db /\ categories db' = categories db
    /\ cartItems db' = cartItems db /\ orders db' = orders db.
Proof.
  induction lines as [|[c p] ls IH]; intros db db'; simpl.
  - unfold ret. intros [= <-]. auto.
  - unfold bind at 1. destruct p as [p|]; simpl accept;
      [unfold ret at 1|discriminate].
    unfold bind at 1. unfold orderItem_create.
    destruct (has_id order_id _ _ && has_id product_id _ _); [|discriminate].
    unfold bind at 1. unfold product_update. simpl products.
    destruct (update_first _ _ _) as [[q ps]|]; [|discriminate].
    intros H. destruct (IH _ _ H) as (Hu & Hc & Hci & Ho). simpl in *. auto.
Qed.

(** What an accepted [POST /api/orders] ran through. *)
Lemma post_orders_created (u : ReqUser) (db db' : Db) (r : Response) :
  post_orders u db = (r, db') -> status r = 201 ->
  exists lines o,
    join (products db) (cart_of (req_id u) db) = Some lines
    /\ o = mkOrder (genId (map order_id (orders db))) (req_id u)
                   (dec_ofNum (cart_total lines)) "PENDING"
    /\ orders db' = orders db ++ [o]
    /\ cartItems db'
       = filter (fun c => negb (owned_by (req_id u) c)) (cartItems db)
    /\ users db' = users db
    /\ r = res 201 (BOrder (Some (view_order db' o))).
Proof.
  intros E S.
  unfold post_orders, handle in E. unfold bind at 1 in E.
  unfold cartItem_findMany in E. fold (cart_of (req_id u) db) in E.
  destruct (Nat.eqb _ 0); [injection E as <- <-; discriminate|].
  destruct (check_stock _ num_zero) as [sum|r0|] eqn:Hck;
    [| |injection E as <- <-; discriminate].
  2:{ injection E as <- <-.
      clear - Hck S. exfalso. revert Hck. generalize num_zero.
      induction (cart_of (req_id u) db) as [|c cs IH]; simpl; intros t;
        [discriminate|].
      destruct (find_product _ _) as [p|]; [|discriminate].
      destruct (_ <? _); [intros [= <-]; discriminate|apply IH]. }
  destruct (check_stock_continue _ _ _ _ Hck) as (lines & Hj & Hstock).
  destruct (join_lines _ _ _ Hj) as [Hview _].
  rewrite Hview, (check_stock_enough lines num_zero Hstock) in Hck.
  fold (cart_total lines) in Hck. injection Hck as <-.
  unfold bind at 1 in E. unfold transaction in E. unfold bind at 1 in E.
  unfold order_create in E.
  destruct (has_id user_id (req_id u) (users db));
    [|injection E as <- <-; discriminate].
  cbv beta iota in E.
  set (o := mkOrder _ _ _ _) in E. set (db1 := set_orders _ db) in E.
  unfold bind at 1 in E.
  destruct (place_items o _ db1) as [[] db2|db2] eqn:Hrun;
    [|injection E as <- <-; discriminate].
  destruct (place_items_frame _ _ _ _ Hrun) as (Hu & _ & Hci & Ho).
  unfold bind, cartItem_deleteMany, order_findUnique, ret in E.
  simpl in E. rewrite Ho in E. simpl in E.
  replace (find _ (orders db ++ [o])) with (Some o) in E.
  - injection E as <- <-. exists lines, o. simpl.
    rewrite Ho, Hci, Hu. repeat split. assumption.
  - symmetry.
    apply (find_first _ (fun x => String.eqb (order_id x) (order_id o))
             (orders db) o []); [|apply String.eqb_refl].
    apply Forall_forall. intros x Hx. apply String.eqb_neq. intros Heq.
    apply (genId_fresh (map order_id (orders db))).
    change (genId (map order_id (orders db))) with (order_id o).
    rewrite <- Heq. now apply in_map.
Qed.

(** The sum of [GET /api/cart] over the joined cart is the sum of the
    checkout. *)
Lemma reduce_total_join (db : Db) (cs : list CartItem)
  (lines : list (CartItem * Product)) :
  join (products db) cs = Some lines ->
  forall sum,
    reduce_total
      (map (fun c =>
              (c, option_map
                    (fun p => (p, find_category (product_categoryId p) db))
                    (find_product (cart_productId c) (products db))))
           cs) sum
    = Some (fold_left (fun acc l => num_add acc (line_amount (fst l) (snd l)))
                      lines sum).
Proof.
  revert lines. induction cs as [|c cs IH]; simpl; intros lines.
  - intros [= <-] sum. reflexivity.
  - destruct (find_product (cart_productId c) (products db)) as [p|];
      [|discriminate].
    destruct (join (products db) cs) as [ls|]; [|discriminate].
    intros [= <-] sum. simpl. now apply IH.
Qed.

(** X4. The total that [GET /api/cart] shows is [toFixed(2)] of the very
    number that a checkout accepted right after it writes as the total of
    the order: both routes add the same line amounts in the same order. *)
Theorem cart_total_is_order_total
  (u : ReqUser) (db db' : Db) (r : Response) :
  post_orders u db = (r, db') -> status r = 201 ->
  exists lines view o,
    join (products db) (cart_of (req_id u) db) = Some lines
    /\ get_cart u db = (Sent 200 view, db)
    /\ total view = num_toFixed 2 (cart_total lines)
    /\ orders db' = orders db ++ [o]
    /\ order_total o = dec_ofNum (cart_total lines).
Proof.
  intros E S.
  destruct (post_orders_created u db db' r E S)
    as (lines & o & Hj & -> & Ho & _).
  exists lines. eexists. eexists.
  split; [exact Hj|]. split; [|split; [|split]].
  - unfold get_cart, answer. unfold bind at 1.
    unfold cartItem_findMany_category. fold (cart_of (req_id u) db).
    unfold bind at 1.
    rewrite (reduce_total_join db _ lines Hj num_zero).
    fold (cart_total lines). simpl. reflexivity.
  - reflexivity.
  - exact Ho.
  - reflexivity.
Qed.

(** X5. After an accepted checkout the cart of the user reads empty:
    [GET /api/cart] answers no item, a count of 0 and the text of zero. *)
Theorem get_cart_after_order (u : ReqUser) (db db' : Db) (r : Response) :
  post_orders u db = (r, db') -> status r = 201 ->
  get_cart u db' = (Sent 200 (mkCartView [] (num_toFixed 2 num_zero) 0), db').
Proof.
  intros E S.
  destruct (post_orders_created u db db' r E S)
    as (lines & o & _ & _ & _ & Hc & _).
  unfold get_cart, answer. unfold bind at 1.
  unfold cartItem_findMany_category. rewrite Hc, cart_of_cleared.
  reflexivity.
Qed.

(** X6. The order that an accepted checkout answers with can be read back:
    [GET /api/orders/:id] with its id gives the same order to the user who
    placed it and 404 to every other user, and [GET /api/orders] of that
    user lists it first, before the orders the user had. *)
Theorem placed_order_is_readable
  (u : ReqUser) (db db' : Db) (r : Response) :
  post_orders u db = (r, db') -> status r = 201 ->
  exists o,
    r = res 201 (BOrder (Some (view_order db' o)))
    /\ get_order u (order_id o) db'
       = (res 200 (BOrder (Some (view_order db' o))), db')
    /\ (forall v, req_id v <> req_id u ->
          get_order v (order_id o) db'
          = (res 404 (BError "Order not found"), db'))
    /\ get_orders u db'
       = (Sent 200
            (view_order db' o
             :: map (view_order db')
                  (rev (filter (fun x => String.eqb (order_userId x) (req_id u))
                               (orders db)))),
          db').
Proof.
  intros E S.
  destruct (post_orders_created u db db' r E S)
    as (lines & o & _ & Ho & Hos & _ & _ & ->).
  assert (Hfresh : Forall (fun x => String.eqb (order_id x) (order_id o) = false)
                          (orders db)).
  { apply Forall_forall. intros x Hx. apply String.eqb_neq. intros Heq.
    apply (genId_fresh (map order_id (orders db))).
    replace (genId (map order_id (orders db))) with (order_id o)
      by (now rewrite Ho).
    rewrite <- Heq. now apply in_map. }
  assert (Hown : order_userId o = req_id u) by (now rewrite Ho).
  exists o. split; [reflexivity|]. split; [|split].
  - unfold get_order, handle, bind, order_findFirst, ret. rewrite Hos.
    rewrite (find_first _ _ (orders db) o []); [reflexivity| |].
    + apply Forall_forall. intros x Hx. rewrite Forall_forall in Hfresh.
      now rewrite (Hfresh x Hx).
    + now rewrite String.eqb_refl, Hown, String.eqb_refl.
  - intros v Hv. unfold get_order, handle, bind, order_findFirst, ret.
    rewrite Hos.
    replace (find _ (orders db ++ [o])) with (@None Order); [reflexivity|].
    symmetry. apply find_none_forall. apply Forall_app. split.
    + apply Forall_forall. intros x Hx. rewrite Forall_forall in Hfresh.
      now rewrite (Hfresh x Hx).
    + constructor; [|constructor]. rewrite Hown.
      destruct (String.eqb_spec (req_id u) (req_id v)) as [Heq|_];
        [congruence|apply andb_false_r].
  - unfold get_orders, answer, bind, order_findMany, ret. rewrite Hos.
    rewrite filter_app. simpl. rewrite Hown, String.eqb_refl.
    rewrite rev_app_distr. reflexivity.
Qed.

(** ** Cart lines *)

Definition sum_quantities (cs : list CartItem) : Z :=
  fold_left (fun sum c => sum + cart_quantity c) cs 0.

Lemma fold_quantities_acc (cs : list CartItem) (a : Z) :
  fold_left (fun sum c => sum + cart_quantity c) cs a = a + sum_quantities cs.
Proof.
  unfold sum_quantities. revert a.
  induction cs as [|c cs IH]; simpl; intros a; [lia|].
  rewrite (IH (a + cart_quantity c)), (IH (cart_quantity c)). lia.
Qed.

Lemma sum_quantities_app (l1 l2 : list CartItem) :
  sum_quantities (l1 ++ l2) = sum_quantities l1 + sum_quantities l2.
Proof.
  unfold sum_quantities at 1. rewrite fold_left_app.
  fold (sum_quantities l1). now rewrite fold_quantities_acc.
Qed.

Lemma sum_quantities_cons (c : CartItem) (l : list CartItem) :
  sum_quantities (c :: l) = cart_quantity c + sum_quantities l.
Proof. apply (sum_quantities_app [c] l). Qed.

(** The count that [GET /api/cart] sends is the number of articles of the
    user's lines. *)
Lemma get_cart_count (u : ReqUser) (db db' : Db) (view : CartView) :
  get_cart u db = (Sent 200 view, db') ->
  itemCount view = count_of (req_id u) db.
Proof.
  unfold get_cart, answer. unfold bind at 1.
  unfold cartItem_findMany_category. fold (cart_of (req_id u) db).
  unfold bind at 1.
  destruct (reduce_total _ num_zero) as [sum|]; simpl; [|discriminate].
  intros [= <- _]. simpl. unfold reduce_count, count_of.
  generalize 0. induction (cart_of (req_id u) db) as [|c cs IH]; simpl;
    intros a; [reflexivity|apply IH].
Qed.

(** With unique keys, the line that [find] returns is the first of its key. *)
Lemma first_of_key (cs before after : list CartItem) (e : CartItem) :
  NoDup (map cart_id cs) -> cs = before ++ e :: after ->
  Forall (fun x => String.eqb (cart_id x) (cart_id e) = false) before.
Proof.
  intros Hnd ->. rewrite map_app in Hnd. simpl in Hnd.
  apply NoDup_remove_2 in Hnd. apply Forall_forall. intros x Hx.
  apply String.eqb_neq. intros Heq. apply Hnd. apply in_or_app. left.
  rewrite <- Heq. now apply in_map.
Qed.

Lemma count_of_sum (uid : Id) (db : Db) :
  count_of uid db = sum_quantities (filter (owned_by uid) (cartItems db)).
Proof. reflexivity. Qed.

Lemma filter_middle {A : Type} (p : A -> bool) (b a : list A) (x : A) :
  filter p (b ++ x :: a)
  = filter p b ++ (if p x then [x] else []) ++ filter p a.
Proof.
  rewrite filter_app. cbn [filter]. now destruct (p x).
Qed.

(** X7. An accepted [POST /api/cart] raises the number of articles in the
    user's cart, as [GET /api/cart] counts them, by exactly the requested
    quantity, and leaves the cart of every other user as it was. *)
Theorem post_cart_raises_item_count
  (u : ReqUser) (pv qv : JsValue) (db db' : Db) (r : Response) :
  cart_keys_unique db ->
  post_cart u pv qv db = (r, db') -> status r = 201 ->
  exists z,
    qv = JInt z /\ 1 <= z
    /\ count_of (req_id u) db' = count_of (req_id u) db + z
    /\ (forall v, v <> req_id u -> cart_of v db' = cart_of v db)
    /\ (forall view view' d d',
          get_cart u db = (Sent 200 view, d) ->
          get_cart u db' = (Sent 200 view', d') ->
          itemCount view' = itemCount view + z).
Proof.
  intros Hids E S.
  destruct (post_cart_accepted _ _ _ _ _ _ E S)
    as (pid & z & p & -> & -> & Hz & _ & _ & Hw).
  exists z. split; [reflexivity|]. split; [assumption|].
  assert (Hmain : count_of (req_id u) db' = count_of (req_id u) db + z
                  /\ (forall v, v <> req_id u -> cart_of v db' = cart_of v db)).
  { rewrite !count_of_sum. unfold cart_of.
    destruct (find (cart_key (req_id u) pid) (cartItems db)) as [e|] eqn:He.
    - destruct Hw as (c' & cs' & Hup & ->).
      destruct (find_split _ _ _ _ He) as (bf & af & Hl & Hk & _).
      pose proof (first_of_key _ _ _ _ Hids Hl) as Hbid.
      rewrite Hl in Hup.
      rewrite (update_first_first _ _ _ bf e af Hbid (String.eqb_refl _)) in Hup.
      injection Hup as <- <-. cbn [cartItems set_cartItems]. rewrite Hl.
      unfold cart_key in Hk. apply andb_true_iff in Hk as [Hu _].
      split.
      + rewrite !filter_middle.
        change (owned_by (req_id u) (set_quantity (cart_quantity e + z) e))
          with (owned_by (req_id u) e).
        unfold owned_by at 2 5. rewrite Hu.
        rewrite !sum_quantities_app, !sum_quantities_cons.
        cbn [cart_quantity set_quantity]. unfold sum_quantities at 2 5.
        simpl fold_left. lia.
      + intros v Hv. rewrite !filter_middle.
        change (owned_by v (set_quantity (cart_quantity e + z) e))
          with (owned_by v e).
        unfold owned_by at 2 5. apply String.eqb_eq in Hu. rewrite Hu.
        destruct (String.eqb_spec (req_id u) v) as [Heq|_]; [congruence|].
        reflexivity.
    - destruct Hw as [_ ->]. cbn [cartItems set_cartItems].
      rewrite !filter_app. cbn [filter]. unfold owned_by at 2.
      cbn [cart_userId]. split.
      + rewrite String.eqb_refl.
        rewrite sum_quantities_app, sum_quantities_cons.
        change (sum_quantities []) with 0. cbn [cart_quantity]. lia.
      + intros v Hv. rewrite filter_app. cbn [filter].
        unfold owned_by at 2. cbn [cart_userId].
        destruct (String.eqb_spec (req_id u) v) as [Heq|_]; [congruence|].
        now rewrite app_nil_r. }
  destruct Hmain as [Hcount Hothers]. repeat split; auto.
  intros view view' d d' Hv Hv'.
  rewrite (get_cart_count _ _ _ _ Hv), (get_cart_count _ _ _ _ Hv'). exact Hcount.
Qed.

Lemma delete_first_last {A : Type} (p : A -> bool) (l : list A) (r : A) :
  Forall (fun x => p x = false) l -> p r = true ->
  delete_first p (l ++ [r]) = Some l.
Proof.
  induction 1 as [|x l Hx _ IH]; simpl; intros Hr.
  - now rewrite Hr.
  - rewrite Hx, (IH Hr). reflexivity.
Qed.

Lemma delete_first_none {A : Type} (p : A -> bool) (l : list A) :
  find p l = None -> delete_first p l = None.
Proof.
  induction l as [|x l IH]; simpl; [reflexivity|].
  destruct (p x); [discriminate|]. intros H. now rewrite (IH H).
Qed.

(** X8. Adding a product that is not in the cart and then deleting the line
    that the answer of [POST /api/cart] carries gives back the store as it
    was: [DELETE /api/cart/:id] answers 200 and removes that line only. *)
Theorem post_cart_delete_round_trip
  (u : ReqUser) (pv qv : JsValue) (db db1 : Db) (r : Response) :
  (forall pid, pv = JStr pid ->
               find (cart_key (req_id u) pid) (cartItems db) = None) ->
  post_cart u pv qv db = (r, db1) -> status r = 201 ->
  exists c,
    r = res 201 (BCartItem (view_cartItem db1 c))
    /\ cartItems db1 = cartItems db ++ [c]
    /\ delete_cart u (cart_id c) db1
       = (res 200 (BMessage "Item removed from cart"), db).
Proof.
  intros Hnew E S.
  destruct (post_cart_accepted _ _ _ _ _ _ E S)
    as (pid & z & p & -> & -> & Hz & Hp & _ & Hw).
  pose proof (Hnew pid eq_refl) as Hnone. rewrite Hnone in Hw.
  destruct Hw as [Huser ->].
  set (c := mkCartItem (genId (map cart_id (cartItems db))) (req_id u) pid z).
  exists c. split; [|split; [reflexivity|]].
  - unfold post_cart, handle, validationResult in E. simpl filter in E.
    destruct (notEmpty (JStr pid)), (isInt_min 1 (JInt z)); simpl in E;
      try (inversion E; subst r; discriminate).
    unfold bind at 1 in E. unfold ret at 1 in E.
    unfold bind at 1 in E. unfold product_findUnique in E. rewrite Hp in E.
    destruct (lt_value _ _); [inversion E; subst r; discriminate|].
    unfold bind at 1 in E. unfold cartItem_findUnique in E.
    rewrite Hnone in E.
    unfold bind at 1 in E. unfold cartItem_create in E.
    unfold bind at 1 in E. cbn [as_int] in E.
    destruct (int_column z) as [q|] eqn:Hcol; cbn [accept] in E;
      [|inversion E; subst r; discriminate].
    destruct (int_column_some _ _ Hcol) as [-> _]. unfold ret at 1 in E.
    rewrite Huser, (existsb_find_none _ _ Hnone) in E.
    rewrite has_id_find_product in E by (rewrite Hp; discriminate).
    simpl in E. now inversion E.
  - unfold delete_cart, handle, bind, cartItem_delete. simpl cartItems.
    rewrite delete_first_last.
    + f_equal. now destruct db.
    + apply Forall_forall. intros x Hx.
      apply andb_false_iff. left. apply String.eqb_neq. intros Heq.
      apply (genId_fresh (map cart_id (cartItems db))).
      change (genId (map cart_id (cartItems db))) with (cart_id c).
      rewrite <- Heq. now apply in_map.
    + unfold owned_by. simpl. now rewrite !String.eqb_refl.
Qed.

(** X9. A cart line is reached through its owner only: when no line has
    both the requested id and the requesting user as owner,
    [DELETE /api/cart/:id] answers 500 and [PUT /api/cart/:id] answers 500
    or the validation error, and neither writes anything. *)
Theorem cart_line_scoped (u : ReqUser) (id : Id) (db : Db) :
  (forall c, In c (cartItems db) -> cart_id c = id ->
             cart_userId c <> req_id u) ->
  delete_cart u id db = (res 500 (BError "Server error"), db)
  /\ forall qv,
       put_cart u id qv db = (res 500 (BError "Server error"), db)
       \/ put_cart u id qv db
          = (res 400 (BValidation ["Quantity must be at least 1"]), db).
Proof.
  intros Hscope.
  assert (Hnone : find (fun c => String.eqb (cart_id c) id
                                 && owned_by (req_id u) c) (cartItems db)
                  = None).
  { apply find_none_forall. apply Forall_forall. intros c Hc.
    destruct (String.eqb_spec (cart_id c) id) as [Hid|_]; [|reflexivity].
    simpl. apply String.eqb_neq. now apply Hscope. }
  split.
  - unfold delete_cart, handle, bind, cartItem_delete.
    replace (delete_first _ (cartItems db)) with (@None (list CartItem));
      [reflexivity|].
    symmetry. now apply delete_first_none.
  - intros qv. unfold put_cart, handle, validationResult. simpl filter.
    destruct (isInt_min 1 qv); simpl; [left|now right].
    unfold bind at 1. unfold cartItem_update. unfold bind at 1.
    destruct (as_int qv); simpl accept; unfold ret, throw; [|reflexivity].
    now rewrite (update_first_none _ _ _ _ Hnone).
Qed.


(** ** Quantities in the cart *)

Lemma positive_rewritten (db : Db) (before after : list CartItem)
  (r : CartItem) (q : Z) :
  quantities_positive db -> cartItems db = before ++ r :: after -> 1 <= q ->
  quantities_positive
    (set_cartItems (before ++ set_quantity q r :: after) db).
Proof.
  intros H Hl Hq c Hc. simpl in Hc.
  apply in_app_iff in Hc as [Hc|[<-|Hc]].
  - apply H. rewrite Hl. apply in_or_app. auto.
  - exact Hq.
  - apply H. rewrite Hl. apply in_or_app. simpl. auto.
Qed.

Lemma post_orders_cart (u : ReqUser) (db : Db) :
  cartItems (snd (post_orders u db)) = cartItems db
  \/ cartItems (snd (post_orders u db))
     = filter (fun c => negb (owned_by (req_id u) c)) (cartItems db).
Proof.
  destruct (post_orders u db) as [r db'] eqn:E. simpl.
  unfold post_orders, handle in E. unfold bind at 1 in E.
  unfold cartItem_findMany in E.
  destruct (Nat.eqb _ 0); [left; now inversion E|].
  destruct (check_stock _ num_zero) as [sum|r0|];
    [|left; now inversion E|left; now inversion E].
  unfold bind at 1 in E. unfold transaction in E. unfold bind at 1 in E.
  unfold order_create in E.
  destruct (has_id user_id _ _); [|left; now inversion E].
  cbv beta iota in E. unfold bind at 1 in E.
  destruct (place_items _ _ _) as [[] db2|db2] eqn:Hrun;
    [|left; now inversion E].
  destruct (place_items_frame _ _ _ _ Hrun) as (_ & _ & Hci & _).
  unfold bind, cartItem_deleteMany, order_findUnique, ret in E.
  right. inversion E. simpl. now rewrite Hci.
Qed.

Lemma post_cart_positive (u : ReqUser) (pv qv : JsValue) (db : Db) :
  quantities_positive db -> quantities_positive (snd (post_cart u pv qv db)).
Proof.
  intros H. destruct (post_cart u pv qv db) as [r0 db'] eqn:E. simpl.
  unfold post_cart, handle, validationResult in E. simpl filter in E.
  destruct (notEmpty pv), (isInt_min 1 qv) eqn:Hq; simpl in E;
    try (inversion E; subst; assumption).
  unfold bind at 1 in E.
  destruct (as_string pv) as [pid|]; [|inversion E; subst; assumption].
  simpl accept in E. unfold ret at 1 in E.
  unfold bind at 1 in E. unfold product_findUnique in E.
  destruct (find_product pid (products db)) as [p|]; [|inversion E; subst; assumption].
  destruct (lt_value _ _); [inversion E; subst; assumption|].
  unfold bind at 1 in E. unfold cartItem_findUnique in E.
  destruct (find _ (cartItems db)) as [e|] eqn:He.
  - unfold bind at 1 in E. unfold cartItem_update in E.
    unfold bind at 1 in E.
    destruct qv as [| | |z| |]; try discriminate Hq;
      cbn [plus_value as_int accept] in E;
      unfold throw, ret in E; try (inversion E; subst; assumption).
    destruct (int_column _) as [q|] eqn:Hcol; cbn [accept] in E;
      unfold throw, ret in E; [|inversion E; subst; assumption].
    destruct (int_column_some _ _ Hcol) as [-> _].
    destruct (update_first _ _ _) as [[c cs]|] eqn:Hup; [|inversion E; subst; assumption].
    destruct (update_first_some _ _ _ _ _ _ Hup) as (b & r & a & Hl & -> & _).
    inversion E. apply positive_rewritten; auto.
    apply isInt_min_least in Hq.
    apply find_some in He as [He _]. specialize (H e He). lia.
  - unfold bind at 1 in E. unfold cartItem_create in E.
    unfold bind at 1 in E.
    destruct qv as [| | |z| |]; try discriminate Hq;
      cbn [as_int accept] in E;
      unfold throw, ret in E; try (inversion E; subst; assumption).
    destruct (int_column _) as [q|] eqn:Hcol; cbn [accept] in E;
      unfold throw, ret in E; [|inversion E; subst; assumption].
    destruct (int_column_some _ _ Hcol) as [-> _].
    destruct (_ && _); [|inversion E; subst; assumption].
    inversion E. intros c Hc. simpl in Hc.
    apply in_app_iff in Hc as [Hc|[<-|[]]]; [now apply H|].
    now apply isInt_min_least in Hq.
Qed.

Lemma put_cart_positive (u : ReqUser) (id : Id) (qv : JsValue) (db : Db) :
  quantities_positive db -> quantities_positive (snd (put_cart u id qv db)).
Proof.
  intros H. destruct (put_cart u id qv db) as [r0 db'] eqn:E. simpl.
  unfold put_cart, handle, validationResult in E. simpl filter in E.
  destruct (isInt_min 1 qv) eqn:Hq; simpl in E; [|inversion E; subst; assumption].
  unfold bind at 1 in E. unfold cartItem_update in E. unfold bind at 1 in E.
  destruct qv as [| | |z| |]; try discriminate Hq;
    cbn [as_int accept] in E;
    unfold throw, ret in E; try (inversion E; subst; assumption).
  destruct (int_column _) as [q|] eqn:Hcol; cbn [accept] in E;
    unfold throw, ret in E; [|inversion E; subst; assumption].
  destruct (int_column_some _ _ Hcol) as [-> _].
  destruct (update_first _ _ _) as [[c cs]|] eqn:Hup; [|inversion E; subst; assumption].
  destruct (update_first_some _ _ _ _ _ _ Hup) as (b & r & a & Hl & -> & _).
  inversion E. apply positive_rewritten; auto.
  now apply isInt_min_least in Hq.
Qed.

(** X11. Whatever requests are served one after the other, a cart that
    held only quantities of at least 1 still does: the two routes that
    write a quantity validate it ([isInt] with [min: 1]) and the addition
    adds a validated quantity to a stored one. *)
Theorem run_keeps_quantities_positive (rs : list Request) (db : Db) :
  quantities_positive db -> quantities_positive (run rs db).
Proof.
  revert db. induction rs as [|r rs IH]; simpl; intros db H; [assumption|].
  apply IH. clear IH.
  destruct r as [u|u id|u|u b|u id b|u pv qv|u id qv|u id]; simpl serve.
  - destruct (post_orders_cart u db) as [Hc|Hc]; intros c Hin;
      rewrite Hc in Hin; [now apply H|].
    apply filter_In in Hin as [Hin _]. now apply H.
  - now rewrite get_order_frame.
  - destruct (become_seller_frame u db) as [us ->]. exact H.
  - destruct (post_product_outcome u b db) as [->|(p & -> & _)]; exact H.
  - destruct (put_product_frame u id b db) as [ps ->]. exact H.
  - now apply post_cart_positive.
  - now apply put_cart_positive.
  - destruct (delete_cart_outcome u id db)
      as [->|(bf & c & af & Hl & ->)]; [assumption|].
    intros x Hx. simpl in Hx. apply H. rewrite Hl.
    apply in_app_iff in Hx as [Hx|Hx]; apply in_or_app; simpl; auto.
Qed.

(** ** Products, column by column *)

(** A product write gives every column the value its key converts to, or
    leaves it when the key is absent. *)
Lemma write_product_columns (db : Db) (d : ProductData) (old new : Product) :
  write_product db d old = Some new ->
  product_id new = product_id old
  /\ column (d_name d) as_string (product_name old) = Some (product_name new)
  /\ column (d_price d) decimal_column (product_price old)
     = Some (product_price new)
  /\ column (d_stock d) (fun z => opt_bind z int_column) (product_stock old)
     = Some (product_stock new)
  /\ column (d_categoryId d) (category_ref (categories db))
       (product_categoryId old) = Some (product_categoryId new)
  /\ column (d_brand d) (nullable as_string) (product_brand old)
     = Some (product_brand new)
  /\ column (d_sellerId d) (user_ref (users db)) (product_sellerId old)
     = Some (product_sellerId new).
Proof.
  unfold write_product, opt_bind.
  repeat match goal with
         | |- match ?c with Some _ => _ | None => None end = Some _ -> _ =>
             destruct c eqn:?; [|discriminate]
         end.
  intros [= <-]. simpl. repeat split; assumption.
Qed.

(** X12. [POST /api/products] is for admins and sellers: any other role gets
    403 "Access denied. Admin or Seller only." and nothing is written,
    whatever the body. *)
Theorem post_product_role_gate (u : ReqUser) (b : ProductBody) (db : Db) :
  req_role u <> "ADMIN" -> req_role u <> "SELLER" ->
  post_product u b db
  = (res 403 (BError "Access denied. Admin or Seller only."), db).
Proof.
  intros Ha Hs. apply String.eqb_neq in Ha, Hs.
  unfold post_product, handle. now rewrite Ha, Hs.
Qed.

(** X13. A product created by a seller belongs to that seller: when a user
    with role SELLER gets 201 from [POST /api/products], the one product
    appended has the seller's own id as [sellerId], whatever [sellerId] the
    body carries, and a key that no product had. *)
Theorem post_product_seller_owns
  (u : ReqUser) (b : ProductBody) (db db' : Db) (r : Response) :
  req_role u = "SELLER" ->
  post_product u b db = (r, db') -> status r = 201 ->
  exists p,
    db' = set_products (products db ++ [p]) db
    /\ r = res 201 (BProduct p (find_category (product_categoryId p) db))
    /\ product_sellerId p = Some (req_id u)
    /\ ~ In (product_id p) (map product_id (products db)).
Proof.
  intros Hrole E S.
  unfold post_product, handle, validationResult in E. rewrite Hrole in E.
  simpl String.eqb in E. simpl negb in E. simpl andb in E. cbv iota in E.
  simpl filter in E.
  destruct (notEmpty (b_name b)), (isDecimal (b_price b)),
    (notEmpty (b_categoryId b)), (isInt_min 0 (b_stock b));
    simpl in E; try (inversion E; subst r; discriminate).
  unfold bind at 1 in E.
  destruct (gender_key_pure (b_gender b) db) as [[g Hg]|Hg]; rewrite Hg in E;
    [|inversion E; subst r; discriminate].
  unfold bind at 1 in E. unfold product_create in E. simpl d_name in E.
  simpl d_price in E. simpl d_stock in E. simpl d_categoryId in E.
  destruct (spread (defined (b_name b)) _);
    [|inversion E; subst r; discriminate].
  destruct (spread (defined (b_categoryId b)) _);
    [|inversion E; subst r; discriminate].
  destruct (write_product db _ _) as [p|] eqn:Hw;
    [|inversion E; subst r; discriminate].
  destruct (write_product_columns _ _ _ _ Hw)
    as (Hid & _ & _ & _ & _ & _ & Hseller).
  simpl in Hid, Hseller. unfold user_ref, opt_bind in Hseller.
  simpl in Hseller.
  destruct (has_id user_id (req_id u) (users db)); [|discriminate].
  injection Hseller as Hseller.
  exists p. unfold bind, with_category, ret in E.
  inversion E. repeat split; auto.
  rewrite Hid. apply genId_fresh.
Qed.


(** X15. [PUT /api/products/:id] for an id that no product has: an admin
    gets 500 "Server error", not 404, and nothing is written. *)
Theorem put_product_unknown_id
  (u : ReqUser) (id : Id) (b : ProductBody) (db : Db) :
  req_role u = "ADMIN" ->
  find_product id (products db) = None ->
  put_product u id b db = (res 500 (BError "Server error"), db).
Proof.
  intros Hrole Hnone. unfold put_product, handle. rewrite Hrole.
  change (String.eqb "ADMIN" "ADMIN") with true. cbn [negb].
  unfold bind at 1.
  destruct (gender_key_pure (b_gender b) db) as [[g ->]| ->]; [|reflexivity].
  unfold bind at 1. unfold product_update_data. now rewrite Hnone.
Qed.

Lemma update_first_same {R : Type} (p : R -> bool) (l : list R) (r : R) :
  find p l = Some r -> update_first p (fun _ => r) l = Some (r, l).
Proof.
  intros Hf. destruct (find_split _ p l r Hf) as (b & a & -> & Hr & Hb).
  apply (update_first_first _ p (fun _ => r) b r a Hb Hr).
Qed.

Lemma write_product_nothing (db : Db) (p : Product) :
  write_product db (mkProductData None None None None None None None None
                      None None) p = Some p.
Proof. now destruct p. Qed.

(** X16. [PUT /api/products/:id] reads a falsy value as no value: when an
    admin sends a body whose name, description, price, image, category and
    gender are falsy (missing, [null], the empty text, the number 0,
    [false]) and that has no stock and no active flag, the answer is 200
    with the product as it was and nothing changes. *)
Theorem put_product_ignores_falsy
  (u : ReqUser) (id : Id) (b : ProductBody) (db : Db) (p : Product) :
  req_role u = "ADMIN" ->
  find_product id (products db) = Some p ->
  truthy (b_name b) = false -> truthy (b_description b) = false ->
  truthy (b_price b) = false -> truthy (b_imageUrl b) = false ->
  truthy (b_categoryId b) = false -> truthy (b_gender b) = false ->
  b_stock b = JUndefined -> b_isActive b = JUndefined ->
  put_product u id b db
  = (res 200 (BProduct p (find_category (product_categoryId p) db)), db).
Proof.
  intros Hrole Hf Hn Hd Hp Hi Hc Hg Hs Ha.
  unfold put_product, handle. rewrite Hrole.
  change (String.eqb "ADMIN" "ADMIN") with true. cbn [negb].
  unfold gender_key. rewrite Hn, Hd, Hp, Hi, Hc, Hg, Hs, Ha.
  cbn [defined spread]. unfold bind at 1. unfold ret at 1.
  unfold bind at 1. unfold product_update_data.
  rewrite Hf, write_product_nothing. unfold product_update.
  unfold find_product in Hf. rewrite (update_first_same _ _ _ Hf).
  unfold bind, with_category, ret. now rewrite set_products_same.
Qed.

(** X17. No [PUT /api/products/:id] changes which products there are, whose
    they are or their brand: after any such request the table has the same
    rows in the same order as to key, seller and brand. *)
Theorem put_product_keeps_identity
  (u : ReqUser) (id : Id) (b : ProductBody) (db : Db) :
  map identity_of (products (snd (put_product u id b db)))
  = map identity_of (products db).
Proof.
  destruct (put_product u id b db) as [r0 db'] eqn:E. simpl.
  unfold put_product, handle in E.
  destruct (negb _); [now inversion E|].
  unfold bind at 1 in E.
  destruct (gender_key_pure (b_gender b) db) as [[g Hg]|Hg]; rewrite Hg in E;
    [|now inversion E].
  unfold bind at 1 in E. unfold product_update_data in E.
  destruct (find_product id (products db)) as [old|] eqn:Hold;
    [|now inversion E].
  destruct (write_product db _ old) as [new|] eqn:Hw; [|now inversion E].
  unfold product_update in E.
  destruct (update_first _ _ _) as [[q ps]|] eqn:Hup; [|now inversion E].
  destruct (update_first_some _ _ _ _ _ _ Hup)
    as (bf & r & af & Hl & -> & _ & Hr).
  unfold find_product in Hold. rewrite Hold in Hr. injection Hr as <-.
  destruct (write_product_columns _ _ _ _ Hw)
    as (Hid & _ & _ & _ & _ & Hbrand & Hseller).
  simpl in Hbrand, Hseller. injection Hbrand as Hbrand.
  injection Hseller as Hseller.
  unfold bind, with_category, ret in E. inversion E. subst db'.
  cbn [products set_products]. rewrite Hl, !map_app. simpl.
  unfold identity_of. now rewrite Hid, Hbrand, Hseller.
Qed.

(** ** The wishlist *)

Lemma find_last {A : Type} (p : A -> bool) (l : list A) (x : A) :
  find p l = None -> p x = true -> find p (l ++ [x]) = Some x.
Proof.
  induction l as [|y l IH]; simpl; intros H Hx; [now rewrite Hx|].
  destruct (p y); [discriminate|auto].
Qed.

(** [POST /api/wishlist] leaves the store alone, or appends one row for a
    product that exists and that the user had not listed. *)
Lemma post_wishlist_cases (u : ReqUser) (pv : JsValue) (s s' : Shop)
  (r : Reply WishBody) :
  post_wishlist u pv s = (r, s') ->
  (s' = s /\ reply_status r <> 201)
  \/ exists pid w p,
       pv = JStr pid /\ pid <> ""
       /\ find_product pid (products (shop_db s)) = Some p
       /\ find (wish_key (req_id u) pid) (wishlistItems s) = None
       /\ w = mkWishlistItem (genId (map wish_id (wishlistItems s)))
                (req_id u) pid
       /\ s' = mkShop (shop_db s) (wishlistItems s ++ [w])
       /\ r = Sent 201 (WItem (view_wish s' w)).
Proof.
  intros E. destruct s as [db ws].
  unfold post_wishlist, shop_answer, validationResult in E.
  cbn [filter fst snd map] in E.
  destruct (notEmpty pv) eqn:Hn; cbn [negb map snd isEmpty] in E;
    [|left; inversion E; split; [reflexivity|discriminate]].
  unfold shop_bind at 1 in E. unfold on_db at 1 in E.
  destruct pv as [| | | | |pid]; cbn [as_string accept shop_db] in E;
    unfold throw, ret in E;
    try (left; inversion E; split; [reflexivity|discriminate]).
  unfold shop_bind at 1 in E. unfold on_db, product_findUnique in E.
  cbn [shop_db wishlistItems] in E.
  destruct (find_product pid (products db)) as [p|] eqn:Hp;
    [|left; inversion E; split; [reflexivity|discriminate]].
  unfold shop_bind at 1 in E. unfold wishlistItem_findUnique in E.
  cbn [shop_db wishlistItems] in E.
  destruct (find (wish_key (req_id u) pid) ws) as [w0|] eqn:Hw;
    [left; inversion E; split; [reflexivity|discriminate]|].
  unfold shop_bind, wishlistItem_create, shop_ret in E.
  cbn [shop_db wishlistItems] in E.
  destruct (has_id user_id (req_id u) (users db)
            && has_id product_id pid (products db)
            && negb (existsb (wish_key (req_id u) pid) ws));
    [|left; inversion E; split; [reflexivity|discriminate]].
  right. exists pid, (mkWishlistItem (genId (map wish_id ws)) (req_id u) pid), p.
  inversion E. cbn [shop_db wishlistItems]. repeat split; auto.
  intros ->. discriminate Hn.
Qed.

Lemma post_wishlist_created (u : ReqUser) (pv : JsValue) (s s' : Shop)
  (r : Reply WishBody) :
  post_wishlist u pv s = (r, s') -> reply_status r = 201 ->
  exists pid w p,
    pv = JStr pid /\ pid <> ""
    /\ find_product pid (products (shop_db s)) = Some p
    /\ find (wish_key (req_id u) pid) (wishlistItems s) = None
    /\ w = mkWishlistItem (genId (map wish_id (wishlistItems s)))
             (req_id u) pid
    /\ s' = mkShop (shop_db s) (wishlistItems s ++ [w])
    /\ r = Sent 201 (WItem (view_wish s' w)).
Proof.
  intros E S. destruct (post_wishlist_cases _ _ _ _ _ E) as [[_ H]|H];
    [contradiction|exact H].
Qed.

Lemma wish_key_own (id uid pid : Id) :
  wish_key uid pid (mkWishlistItem id uid pid) = true.
Proof. unfold wish_key. simpl. now rewrite !String.eqb_refl. Qed.

(** X18. A product is listed once: after an accepted [POST /api/wishlist],
    the same request again answers 400 "Product already in wishlist" and
    writes nothing. *)
Theorem post_wishlist_twice
  (u : ReqUser) (pv : JsValue) (s s1 : Shop) (r : Reply WishBody) :
  post_wishlist u pv s = (r, s1) -> reply_status r = 201 ->
  post_wishlist u pv s1 = (Refused 400 "Product already in wishlist", s1).
Proof.
  intros E S.
  destruct (post_wishlist_created _ _ _ _ _ E S)
    as (pid & w & p & -> & Hne & Hp & Hw & -> & -> & _).
  destruct s as [db ws]. cbn [shop_db wishlistItems] in *.
  unfold post_wishlist, shop_answer, validationResult.
  cbn [filter fst snd map notEmpty].
  destruct pid as [|a pid]; [congruence|].
  cbn [Str.is_empty negb map snd isEmpty filter].
  unfold shop_bind at 1. unfold on_db at 1.
  cbn [as_string accept shop_db wishlistItems]. unfold ret at 1.
  unfold shop_bind at 1. unfold on_db, product_findUnique.
  cbn [shop_db wishlistItems]. rewrite Hp.
  unfold shop_bind at 1. unfold wishlistItem_findUnique.
  cbn [shop_db wishlistItems].
  now rewrite (find_last _ _ _ Hw (wish_key_own _ _ _)).
Qed.

(** X19. Listing a product and removing it again gives back the store as
    it was: after an accepted [POST /api/wishlist] for a product,
    [DELETE /api/wishlist/:productId] for it answers 200 and removes the
    row that was added, and no other. *)
Theorem wishlist_round_trip
  (u : ReqUser) (pid : Id) (s s1 : Shop) (r : Reply WishBody) :
  post_wishlist u (JStr pid) s = (r, s1) -> reply_status r = 201 ->
  delete_wishlist u pid s1
  = (Sent 200 (WMessage "Item removed from wishlist"), s).
Proof.
  intros E S.
  destruct (post_wishlist_created _ _ _ _ _ E S)
    as (pid' & w & p & [= <-] & Hne & Hp & Hw & -> & -> & _).
  destruct s as [db ws]. cbn [shop_db wishlistItems] in *.
  unfold delete_wishlist, shop_answer, shop_bind, wishlistItem_delete.
  cbn [shop_db wishlistItems].
  apply find_none_forall in Hw.
  now rewrite (delete_first_last _ _ _ Hw (wish_key_own _ _ _)).
Qed.

(** X20. [DELETE /api/wishlist/:productId] for a product that the user has
    not listed (also one that another user has listed) answers 500
    "Server error", not 404, and writes nothing. *)
Theorem delete_wishlist_missing (u : ReqUser) (pid : Id) (s : Shop) :
  (forall w, In w (wishlistItems s) -> wish_userId w = req_id u ->
             wish_productId w <> pid) ->
  delete_wishlist u pid s = (Refused 500 "Server error", s).
Proof.
  intros H.
  assert (Hf : find (wish_key (req_id u) pid) (wishlistItems s) = None).
  { apply find_none_forall, Forall_forall. intros w Hin.
    unfold wish_key. destruct (String.eqb_spec (wish_userId w) (req_id u));
      [|reflexivity].
    destruct (String.eqb_spec (wish_productId w) pid); [|reflexivity].
    now destruct (H w Hin). }
  unfold delete_wishlist, shop_answer, shop_bind, wishlistItem_delete.
  now rewrite (delete_first_none _ _ Hf).
Qed.

Lemma delete_wishlist_cases (u : ReqUser) (pid : Id) (s : Shop) :
  snd (delete_wishlist u pid s) = s
  \/ exists before w after,
       wishlistItems s = before ++ w :: after
       /\ snd (delete_wishlist u pid s) = mkShop (shop_db s) (before ++ after).
Proof.
  unfold delete_wishlist, shop_answer, shop_bind, wishlistItem_delete.
  destruct (delete_first _ (wishlistItems s)) as [ws|] eqn:Hd;
    [|left; reflexivity].
  destruct (delete_first_incl _ _ _ _ Hd) as (b & w & a & Hl & ->).
  right. exists b, w, a. split; [assumption|reflexivity].
Qed.

Lemma serve_shop_unique (q : ShopRequest) (s : Shop) :
  wishes_unique s -> wishes_unique (serve_shop q s).
Proof.
  intros H. destruct q as [q|u pv|u pid]; simpl.
  - exact H.
  - destruct (post_wishlist u pv s) as [r s'] eqn:E. simpl.
    destruct (post_wishlist_cases _ _ _ _ _ E)
      as [[-> _]|(pid & w & p & _ & _ & _ & Hw & -> & -> & _)];
      [exact H|].
    intros uid. specialize (H uid). cbn [wishlistItems].
    rewrite filter_app. cbn [filter wish_userId].
    destruct (String.eqb_spec (req_id u) uid) as [<-|_];
      [|now rewrite app_nil_r].
    rewrite map_app. cbn [map wish_productId].
    apply NoDup_snoc; [assumption|].
    intros Hin. apply in_map_iff in Hin as (c & Hc & Hin).
    apply filter_In in Hin as [Hin Hown].
    apply find_none_forall in Hw. rewrite Forall_forall in Hw.
    specialize (Hw c Hin). unfold wish_key in Hw.
    rewrite Hown, Hc, String.eqb_refl in Hw. discriminate Hw.
  - destruct (delete_wishlist_cases u pid s)
      as [->|(b & w & a & Hl & ->)]; [exact H|].
    intros uid. specialize (H uid). cbn [wishlistItems].
    rewrite Hl in H. rewrite filter_app in *. cbn [filter] in H.
    destruct (String.eqb (wish_userId w) uid); [|exact H].
    rewrite map_app in *. cbn [map] in H. now apply NoDup_remove_1 in H.
Qed.

(** X21. Whatever requests are served one after the other, on the wishlist
    or on the other tables, a wishlist in which no user lists a product
    twice stays one: the compound key of the table is never violated. *)
Theorem run_shop_keeps_wishes_unique (rs : list ShopRequest) (s : Shop) :
  wishes_unique s -> wishes_unique (run_shop rs s).
Proof.
  revert s. induction rs as [|q rs IH]; simpl; intros s H; [exact H|].
  apply IH. now apply serve_shop_unique.
Qed.

Lemma post_wishlist_frame (u : ReqUser) (pv : JsValue) (s : Shop) :
  shop_db (snd (post_wishlist u pv s)) = shop_db s.
Proof.
  destruct (post_wishlist u pv s) as [r s'] eqn:E. simpl.
  destruct (post_wishlist_cases _ _ _ _ _ E)
    as [[-> _]|(pid & w & p & _ & _ & _ & _ & _ & -> & _)]; reflexivity.
Qed.

Lemma delete_wishlist_frame (u : ReqUser) (pid : Id) (s : Shop) :
  shop_db (snd (delete_wishlist u pid s)) = shop_db s.
Proof.
  destruct (delete_wishlist_cases u pid s) as [->|(b & w & a & _ & ->)];
    reflexivity.
Qed.

(** X22. The wishlist routes write the wishlist only: the orders, carts,
    products and users after a run of requests are those after the run
    without its wishlist requests. *)
Theorem wishlist_leaves_tables (rs : list ShopRequest) (s : Shop) :
  shop_db (run_shop rs s) = run (db_requests rs) (shop_db s).
Proof.
  revert s. induction rs as [|q rs IH]; simpl; intros s; [reflexivity|].
  rewrite IH. destruct q as [q|u pv|u pid]; simpl.
  - reflexivity.
  - now rewrite post_wishlist_frame.
  - now rewrite delete_wishlist_frame.
Qed.

(** *** Product keys are never removed *)

Lemma has_id_in {R : Type} (key : R -> Id) (id : Id) (l : list R) :
  has_id key id l = true <-> In id (map key l).
Proof.
  unfold has_id. rewrite existsb_exists, in_map_iff.
  split; intros (r & H1 & H2).
  - exists r. apply String.eqb_eq in H2. auto.
  - exists r. split; [assumption|]. now apply String.eqb_eq.
Qed.

Lemma place_items_keys (o : Order)
  (lines : list (CartItem * option Product)) :
  forall db db',
    place_items o lines db = Done tt db' ->
    map product_id (products db') = map product_id (products db).
Proof.
  induction lines as [|[c p] ls IH]; intros db db'; simpl.
  - unfold ret. now intros [= <-].
  - unfold bind at 1. destruct p as [p|]; simpl accept;
      [unfold ret at 1|discriminate].
    unfold bind at 1. unfold orderItem_create.
    destruct (has_id order_id _ _ && has_id product_id _ _); [|discriminate].
    unfold bind at 1. unfold product_update. simpl products.
    destruct (update_first _ _ _) as [[q ps]|] eqn:Hup; [|discriminate].
    destruct (update_first_some _ _ _ _ _ _ Hup)
      as (bf & r & af & Hl & -> & _ & _).
    intros H. rewrite (IH _ _ H). simpl. rewrite Hl, !map_app. reflexivity.
Qed.

Lemma post_orders_keys (u : ReqUser) (db : Db) :
  map product_id (products (snd (post_orders u db)))
  = map product_id (products db).
Proof.
  destruct (post_orders u db) as [r db'] eqn:E. simpl.
  unfold post_orders, handle in E. unfold bind at 1 in E.
  unfold cartItem_findMany in E.
  destruct (Nat.eqb _ 0); [now inversion E|].
  destruct (check_stock _ num_zero) as [sum|r0|];
    [|now inversion E|now inversion E].
  unfold bind at 1 in E. unfold transaction in E. unfold bind at 1 in E.
  unfold order_create in E.
  destruct (has_id user_id (req_id u) (users db)); [|now inversion E].
  cbv beta iota in E.
  set (o := mkOrder _ _ _ _) in E. set (db1 := set_orders _ db) in E.
  unfold bind at 1 in E.
  destruct (place_items o _ db1) as [[] db2|db2] eqn:Hrun;
    [|now inversion E].
  apply place_items_keys in Hrun.
  unfold bind, cartItem_deleteMany, order_findUnique, ret in E.
  simpl in E. inversion E. simpl. exact Hrun.
Qed.

(** Serving a request keeps the product keys in their order and adds at
    most new ones behind them. *)
Lemma serve_keys (q : Request) (db : Db) :
  exists more,
    map product_id (products (snd (serve q db)))
    = map product_id (products db) ++ more.
Proof.
  destruct q as [u|u id|u|u b|u id b|u pv qv|u id qv|u id]; simpl.
  - exists []. now rewrite post_orders_keys, app_nil_r.
  - exists []. now rewrite get_order_frame, app_nil_r.
  - destruct (become_seller_frame u db) as [us ->].
    exists []. now rewrite app_nil_r.
  - destruct (post_product_outcome u b db) as [->|(p & -> & _)].
    + exists []. now rewrite app_nil_r.
    + exists [product_id p]. simpl. now rewrite map_app.
  - destruct (put_product_outcome u id b db)
      as [->|(bf & old & af & new & Hl & -> & Hid & _)].
    + exists []. now rewrite app_nil_r.
    + exists []. simpl. rewrite Hl, !map_app, app_nil_r. simpl.
      now rewrite Hid.
  - destruct (post_cart_outcome u pv qv db)
      as [->|[(bf & r & af & z & _ & ->)|(id & pid & z & _ & ->)]];
      exists []; now rewrite app_nil_r.
  - destruct (put_cart_outcome u id qv db)
      as [->|(bf & r & af & z & _ & ->)];
      exists []; now rewrite app_nil_r.
  - destruct (delete_cart_outcome u id db)
      as [->|(bf & r & af & _ & ->)];
      exists []; now rewrite app_nil_r.
Qed.

Lemma serve_shop_refer (q : ShopRequest) (s : Shop) :
  wishes_refer s -> wishes_refer (serve_shop q s).
Proof.
  intros H. destruct q as [q|u pv|u pid]; simpl.
  - intros w Hin. cbn [wishlistItems shop_db] in *.
    destruct (serve_keys q (shop_db s)) as [more Hk].
    apply has_id_in. rewrite Hk. apply in_or_app. left.
    apply has_id_in. now apply H.
  - destruct (post_wishlist u pv s) as [r s'] eqn:E. simpl.
    destruct (post_wishlist_cases _ _ _ _ _ E)
      as [[-> _]|(pid & w & p & _ & _ & Hp & _ & -> & -> & _)];
      [exact H|].
    intros w Hin. cbn [wishlistItems shop_db] in *.
    apply in_app_or in Hin as [Hin|[<-|[]]]; [now apply H|].
    cbn [wish_productId]. unfold has_id. apply existsb_exists.
    apply find_some in Hp. now exists p.
  - destruct (delete_wishlist_cases u pid s)
      as [->|(b & w & a & Hl & ->)]; [exact H|].
    intros x Hin. cbn [wishlistItems shop_db] in *.
    apply H. rewrite Hl. apply in_app_or in Hin as [Hin|Hin];
      apply in_or_app; [left|right; right]; assumption.
Qed.

(** X23. Whatever requests are served one after the other, every wishlist
    row keeps referring to a product of the store: a row is added for a
    product that was found only, and no request removes a product or
    changes its key (an order lowers stocks, an update rewrites columns,
    a creation appends). *)
Theorem run_shop_keeps_references (rs : list ShopRequest) (s : Shop) :
  wishes_refer s -> wishes_refer (run_shop rs s).
Proof.
  revert s. induction rs as [|q rs IH]; simpl; intros s H; [exact H|].
  apply IH. now apply serve_shop_refer.
Qed.

End MoreProperties.

(** ** The properties above at concrete requests *)

Section MoreRuns.
Import Exact ExactFixed Sample MoreSample.

(** Alice's cart shows the total that her order gets. *)
Lemma cart_total_is_order_total_witness :
  exists view o,
    get_cart alice shop_with_cart = (Sent 200 view, shop_with_cart)
    /\ total view = "39.99"%string
    /\ orders (snd (post_orders alice shop_with_cart)) = [o]
    /\ order_total o = price "39.99".
Proof.
  destruct (cart_total_is_order_total alice shop_with_cart
              (snd (post_orders alice shop_with_cart))
              (fst (post_orders alice shop_with_cart)))
    as (lines & view & o & Hj & Hg & Ht & Ho & Hto); [reflexivity..|].
  injection Hj as <-. exists view, o. repeat split; assumption.
Defined.

(** After her order Alice's cart is empty. *)
Lemma get_cart_after_order_witness :
  get_cart alice (snd (post_orders alice shop_with_cart))
  = (Sent 200 (mkCartView [] "0.00" 0), snd (post_orders alice shop_with_cart)).
Proof.
  rewrite (get_cart_after_order alice shop_with_cart
             (snd (post_orders alice shop_with_cart))
             (fst (post_orders alice shop_with_cart)));
    reflexivity.
Defined.

(** Alice reads her order back; Bob gets 404 for it. *)
Lemma placed_order_is_readable_witness :
  exists o,
    fst (post_orders alice shop_with_cart)
    = res 201
        (BOrder (Some (view_order (snd (post_orders alice shop_with_cart)) o)))
    /\ get_order alice (order_id o) (snd (post_orders alice shop_with_cart))
       = (res 200
            (BOrder
               (Some (view_order (snd (post_orders alice shop_with_cart)) o))),
          snd (post_orders alice shop_with_cart))
    /\ get_order bob (order_id o) (snd (post_orders alice shop_with_cart))
       = (res 404 (BError "Order not found"),
          snd (post_orders alice shop_with_cart))
    /\ get_orders alice (snd (post_orders alice shop_with_cart))
       = (Sent 200 [view_order (snd (post_orders alice shop_with_cart)) o],
          snd (post_orders alice shop_with_cart)).
Proof.
  destruct (placed_order_is_readable alice shop_with_cart
              (snd (post_orders alice shop_with_cart))
              (fst (post_orders alice shop_with_cart)))
    as (o & Hr & Hown & Hother & Hlist); [reflexivity..|].
  exists o. split; [exact Hr|]. split; [exact Hown|]. split.
  - apply Hother. discriminate.
  - exact Hlist.
Defined.

(** Bob adds three lamps: his cart counts three articles more. *)
Lemma post_cart_raises_item_count_witness :
  count_of "u2" (snd (post_cart bob (JStr "p1") (JInt 3) shop_with_cart))
  = count_of "u2" shop_with_cart + 3
  /\ cart_of "u1" (snd (post_cart bob (JStr "p1") (JInt 3) shop_with_cart))
     = cart_of "u1" shop_with_cart.
Proof.
  destruct (post_cart_raises_item_count bob (JStr "p1") (JInt 3)
              shop_with_cart
              (snd (post_cart bob (JStr "p1") (JInt 3) shop_with_cart))
              (fst (post_cart bob (JStr "p1") (JInt 3) shop_with_cart))
              shop_with_cart_keys)
    as (z & Hq & _ & Hc & Hrest & _); [reflexivity..|].
  injection Hq as <-. split; [exact Hc|].
  apply Hrest. discriminate.
Defined.

(** Bob adds a lamp and deletes the line again. *)
Lemma post_cart_delete_round_trip_witness :
  exists c,
    cartItems (snd (post_cart bob (JStr "p1") (JInt 1) shop_with_cart))
    = cartItems shop_with_cart ++ [c]
    /\ delete_cart bob (cart_id c)
         (snd (post_cart bob (JStr "p1") (JInt 1) shop_with_cart))
       = (res 200 (BMessage "Item removed from cart"), shop_with_cart).
Proof.
  destruct (post_cart_delete_round_trip bob (JStr "p1") (JInt 1)
              shop_with_cart
              (snd (post_cart bob (JStr "p1") (JInt 1) shop_with_cart))
              (fst (post_cart bob (JStr "p1") (JInt 1) shop_with_cart)))
    as (c & _ & Hc & Hd).
  - intros pid H. injection H as <-. reflexivity.
  - reflexivity.
  - reflexivity.
  - exists c. split; assumption.
Defined.

(** Bob cannot delete or change a line of Alice. *)
Lemma cart_line_scoped_witness :
  delete_cart bob "c1" shop_with_cart
  = (res 500 (BError "Server error"), shop_with_cart)
  /\ (put_cart bob "c1" (JInt 9) shop_with_cart
      = (res 500 (BError "Server error"), shop_with_cart)
      \/ put_cart bob "c1" (JInt 9) shop_with_cart
         = (res 400 (BValidation ["Quantity must be at least 1"%string]),
            shop_with_cart)).
Proof.
  destruct (cart_line_scoped bob "c1" shop_with_cart) as [Hd Hp].
  - intros c [<-|[<-|[]]] _; discriminate.
  - split; [exact Hd|exact (Hp (JInt 9))].
Defined.


(** Additions, a refused change to zero and an order: the quantities stay
    positive. *)
Lemma run_keeps_quantities_positive_witness :
  quantities_positive
    (run [ PostCart bob (JStr "p1") (JInt 3);
           PutCart alice "c1" (JInt 0);
           PostCart alice (JStr "p1") (JInt 1);
           PostOrders bob ]
         shop_with_cart).
Proof.
  apply (run_keeps_quantities_positive _ shop_with_cart).
  intros c [<-|[<-|[]]]; simpl; lia.
Defined.

(** Alice is neither admin nor seller. *)
Lemma post_product_role_gate_witness :
  post_product alice stool shop
  = (res 403 (BError "Access denied. Admin or Seller only."), shop).
Proof.
  apply (post_product_role_gate alice stool shop); discriminate.
Defined.

(** The seller's stool is the seller's, although the body names Alice. *)
Lemma post_product_seller_owns_witness :
  exists p,
    snd (post_product seller stool market)
    = set_products (products market ++ [p]) market
    /\ product_sellerId p = Some "u2"
    /\ ~ In (product_id p) (map product_id (products market)).
Proof.
  destruct (post_product_seller_owns seller stool market
              (snd (post_product seller stool market))
              (fst (post_product seller stool market)))
    as (p & Hdb & _ & Hs & Hfresh); [reflexivity..|].
  exists p. repeat split; assumption.
Defined.


(** No product has the key p9. *)
Lemma put_product_unknown_id_witness :
  put_product root "p9" (with_price (JStr "1.00")) shop
  = (res 500 (BError "Server error"), shop).
Proof.
  apply (put_product_unknown_id root "p9" (with_price (JStr "1.00")) shop);
    reflexivity.
Defined.

(** A price of 0 and an empty description are not written. *)
Lemma put_product_ignores_falsy_witness :
  put_product root "p1" falsy shop
  = (res 200 (BProduct lamp (Some (mkCategory "k1" "Home" "home"))), shop).
Proof.
  apply (put_product_ignores_falsy root "p1" falsy shop lamp); reflexivity.
Defined.

(** Alice lists the lamp twice. *)
Lemma post_wishlist_twice_witness :
  post_wishlist alice (JStr "p1") (snd (post_wishlist alice (JStr "p1") wishes))
  = (Refused 400 "Product already in wishlist",
     snd (post_wishlist alice (JStr "p1") wishes)).
Proof.
  apply (post_wishlist_twice alice (JStr "p1") wishes
           (snd (post_wishlist alice (JStr "p1") wishes))
           (fst (post_wishlist alice (JStr "p1") wishes)));
    reflexivity.
Defined.

(** Alice lists the lamp and removes it. *)
Lemma wishlist_round_trip_witness :
  delete_wishlist alice "p1" (snd (post_wishlist alice (JStr "p1") wishes))
  = (Sent 200 (WMessage "Item removed from wishlist"), wishes).
Proof.
  apply (wishlist_round_trip alice "p1" wishes
           (snd (post_wishlist alice (JStr "p1") wishes))
           (fst (post_wishlist alice (JStr "p1") wishes)));
    reflexivity.
Defined.

(** Bob removes the lamp that Alice has listed. *)
Lemma delete_wishlist_missing_witness :
  delete_wishlist bob "p1" (snd (post_wishlist alice (JStr "p1") wishes))
  = (Refused 500 "Server error",
     snd (post_wishlist alice (JStr "p1") wishes)).
Proof.
  apply (delete_wishlist_missing bob "p1"
           (snd (post_wishlist alice (JStr "p1") wishes))).
  intros w [<-|[]]; discriminate.
Defined.

(** Both users list products, one twice, one is removed, an order is
    placed in between. *)
Lemma run_shop_keeps_wishes_unique_witness :
  wishes_unique
    (run_shop [ PostWishlist alice (JStr "p1");
                PostWishlist bob (JStr "p1");
                PostWishlist alice (JStr "p1");
                OnDb (PostCart alice (JStr "p2") (JInt 1));
                OnDb (PostOrders alice);
                DeleteWishlist bob "p1";
                PostWishlist alice (JStr "p2") ]
              wishes).
Proof.
  apply (run_shop_keeps_wishes_unique _ wishes).
  intros uid. constructor.
Defined.

(** Alice lists the lamp; it is ordered and rewritten and more products
    come: her row still has its product. *)
Lemma run_shop_keeps_references_witness :
  wishes_refer
    (run_shop [ PostWishlist alice (JStr "p1");
                PostWishlist alice (JStr "p9");
                OnDb (PostCart bob (JStr "p1") (JInt 5));
                OnDb (PostOrders bob);
                OnDb (PutProduct root "p1" (with_price (JStr "1.00")));
                OnDb (PostProduct root (chair (JInt 4))) ]
              wishes).
Proof.
  apply (run_shop_keeps_references _ wishes).
  intros w [].
Defined.

(** The same runs, computed. *)
Example get_cart_values :
  get_cart alice shop_with_cart
  = (Sent 200
       (mkCartView
          [ (mkCartItem "c1" "u1" "p1" 2,
             Some (lamp, Some (mkCategory "k1" "Home" "home")));
            (mkCartItem "c2" "u1" "p2" 1,
             Some (desk, Some (mkCategory "k1" "Home" "home"))) ]
          "39.99" 3),
     shop_with_cart).
Proof. reflexivity. Qed.

Example run_shop_values :
  map (fun w => (wish_userId w, wish_productId w))
    (wishlistItems
       (run_shop [ PostWishlist alice (JStr "p1");
                   PostWishlist bob (JStr "p1");
                   PostWishlist alice (JStr "p1");
                   OnDb (PostCart alice (JStr "p2") (JInt 1));
                   OnDb (PostOrders alice);
                   DeleteWishlist bob "p1";
                   PostWishlist alice (JStr "p2") ]
                 wishes))
  = [ ("u1", "p1"); ("u1", "p2") ]%string.
Proof. reflexivity. Qed.

Example put_product_identity_values :
  map identity_of
    (products (snd (put_product root "p1" (with_price (JStr "1.00")) shop)))
  = [ ("p1", None, None); ("p2", None, None) ]%string.
Proof. reflexivity. Qed.

End MoreRuns.
